(** * TestcaseReporting: report assembly and the saved-view store

    A shallow embedding of [testcase_reporting_views.py] (Python 2).

    - Python values are the JSON-shaped universe the module handles
      ([pyval]); dictionaries are association lists whose list order is
      the iteration order of the dictionary.
    - Exceptions are values of [exn]; a call that can raise returns
      [result].  The body of the [try] block of [get_test_case_data]
      runs in a state-and-error monad over [final_dict], so that what
      was written to [final_dict] before an exception is still there
      when the handler returns it.
    - The collaborators (search service, request object, clock,
      filesystem) are explicit arguments: [world] and [filesystem]. *)

From Stdlib Require Import ZArith String Ascii List DecimalString Bool Lia.
From stdpp Require Import gmap strings list.
Import ListNotations.
Open Scope Z_scope.
Open Scope string_scope.
Set Warnings "-register-all".

(** ** Exceptions and results *)

Inductive exn : Type :=
| KeyError (key : string)
| AttributeError (attr : string)
| TypeError (msg : string)
| ValueError (msg : string)
| IndexError
| NameError (name : string)
| UnboundLocalError (name : string)
| OverflowError
| StopIteration
| IOError (msg : string)
| OSError (msg : string)
| ShutilError (msg : string)
| Exception_ (msg : string)
| ServiceError (msg : string).

Inductive result (A : Type) : Type :=
| Ok (a : A)
| Err (e : exn).
Arguments Ok {A} a.
Arguments Err {A} e.

Definition rbind {A B} (k : A -> result B) (r : result A) : result B :=
  match r with
  | Ok a => k a
  | Err e => Err e
  end.

Definition is_ok {A} (r : result A) : bool :=
  match r with Ok _ => true | Err _ => false end.

#[global] Instance result_ret : MRet result := fun _ a => Ok a.
#[global] Instance result_bind : MBind result := fun _ _ k r => rbind k r.

(** ** Python values *)

(** Dictionary keys: the hashable values.  [True] and [1] are the same
    key in Python, so booleans are keyed as integers. *)
Inductive pykey : Type :=
| KNone
| KInt (z : Z)
| KStr (s : string).

Inductive pyval : Type :=
| VNone
| VBool (b : bool)
| VInt (z : Z)
| VStr (s : string)
| VList (l : list pyval)
| VDict (d : list (pykey * pyval)).

Abbreviation dict := (list (pykey * pyval)).

Coercion KStr : string >-> pykey.

Definition pykey_eqb (a b : pykey) : bool :=
  match a, b with
  | KNone, KNone => true
  | KInt x, KInt y => Z.eqb x y
  | KStr x, KStr y => String.eqb x y
  | _, _ => false
  end.

Definition val_of_key (k : pykey) : pyval :=
  match k with
  | KNone => VNone
  | KInt z => VInt z
  | KStr s => VStr s
  end.

(** [hash(v)]: lists and dictionaries are unhashable. *)
Definition key_of_val (v : pyval) : result pykey :=
  match v with
  | VNone => Ok KNone
  | VBool b => Ok (KInt (if b then 1 else 0))
  | VInt z => Ok (KInt z)
  | VStr s => Ok (KStr s)
  | VList _ => Err (TypeError "unhashable type: 'list'")
  | VDict _ => Err (TypeError "unhashable type: 'dict'")
  end.

(** Truth value testing. *)
Definition truthy (v : pyval) : bool :=
  match v with
  | VNone => false
  | VBool b => b
  | VInt z => negb (Z.eqb z 0)
  | VStr s => negb (String.eqb s "")
  | VList l => match l with [] => false | _ => true end
  | VDict d => match d with [] => false | _ => true end
  end.

(** [a and b], [a or b], [not a] *)
Definition py_and (a b : pyval) : pyval := if truthy a then b else a.
Definition py_or (a b : pyval) : pyval := if truthy a then a else b.
Definition py_not (a : pyval) : pyval := VBool (negb (truthy a)).

Definition is_str (v : pyval) (s : string) : bool :=
  match v with
  | VStr t => String.eqb t s
  | _ => false
  end.

(** ** Dictionaries *)

Fixpoint dict_get (k : pykey) (d : dict) : option pyval :=
  match d with
  | [] => None
  | (k', v) :: d' => if pykey_eqb k' k then Some v else dict_get k d'
  end.

Definition dict_has (k : pykey) (d : dict) : bool :=
  match dict_get k d with Some _ => true | None => false end.

(** [d[k] = v]: the value is replaced where the key is, a new key goes
    to the end. *)
Fixpoint dict_set (k : pykey) (v : pyval) (d : dict) : dict :=
  match d with
  | [] => [(k, v)]
  | (k', v') :: d' =>
      if pykey_eqb k' k then (k', v) :: d' else (k', v') :: dict_set k v d'
  end.

Fixpoint dict_del (k : pykey) (d : dict) : dict :=
  match d with
  | [] => []
  | (k', v') :: d' =>
      if pykey_eqb k' k then dict_del k d' else (k', v') :: dict_del k d'
  end.

Definition dict_keys (d : dict) : list pykey := map fst d.

(** [d.update(other)] for a dictionary [other] *)
Definition dict_update (d other : dict) : dict :=
  fold_left (fun acc kv => dict_set (fst kv) (snd kv) acc) other d.

(** [d.get(k, default)] *)
Definition dict_get_default (k : pykey) (default : pyval) (d : dict) : pyval :=
  match dict_get k d with Some v => v | None => default end.

Definition key_repr (k : pykey) : string :=
  match k with
  | KNone => "None"
  | KInt z => NilZero.string_of_int (Z.to_int z)
  | KStr s => s
  end.

(** [d[k]] *)
Definition dict_getitem (k : pykey) (d : dict) : result pyval :=
  match dict_get k d with
  | Some v => Ok v
  | None => Err (KeyError (key_repr k))
  end.

(** [d.pop(k)] and [d.pop(k, None)] *)
Definition dict_pop (k : pykey) (d : dict) : result (pyval * dict) :=
  match dict_get k d with
  | Some v => Ok (v, dict_del k d)
  | None => Err (KeyError (key_repr k))
  end.

(** ** Attribute and subscript access on arbitrary values *)

Definition type_name (v : pyval) : string :=
  match v with
  | VNone => "NoneType"
  | VBool _ => "bool"
  | VInt _ => "int"
  | VStr _ => "str"
  | VList _ => "list"
  | VDict _ => "dict"
  end.

(** The receiver of a dictionary method ([get], [iteritems], [keys],
    [update]) must be a dictionary. *)
Definition as_dict (attr : string) (v : pyval) : result dict :=
  match v with
  | VDict d => Ok d
  | _ => Err (AttributeError attr)
  end.

(** The receiver of a string method ([split], [capitalize], [strip]). *)
Definition as_str (attr : string) (v : pyval) : result string :=
  match v with
  | VStr s => Ok s
  | _ => Err (AttributeError attr)
  end.

(** [v.get(k, default)] *)
Definition py_get (v : pyval) (k : pykey) (default : pyval) : result pyval :=
  d ← as_dict "get" v; Ok (dict_get_default k default d).

(** [v[k]] for a string subscript [k]: only a dictionary accepts it. *)
Definition py_getitem (v : pyval) (k : string) : result pyval :=
  match v with
  | VDict d => dict_getitem k d
  | _ => Err (TypeError (type_name v))
  end.

(** [iter(v)]: the elements a [for] loop visits. *)
Definition py_iter (v : pyval) : result (list pyval) :=
  match v with
  | VList l => Ok l
  | VDict d => Ok (map val_of_key (dict_keys d))
  | VStr s => Ok (map (fun c => VStr (String c "")) (list_ascii_of_string s))
  | _ => Err (TypeError (type_name v))
  end.

(** [d.update(v)] for an arbitrary argument: a dictionary, or an
    iterable of two-element sequences. *)
Definition pair_of_item (v : pyval) : result (pykey * pyval) :=
  items ← py_iter v;
  match items with
  | [k; x] => k' ← key_of_val k; Ok (k', x)
  | _ => Err (ValueError "dictionary update sequence element")
  end.

Fixpoint update_from_items (d : dict) (items : list pyval) : result dict :=
  match items with
  | [] => Ok d
  | it :: rest =>
      '(k, x) ← pair_of_item it; update_from_items (dict_set k x d) rest
  end.

Definition py_dict_update (d : dict) (v : pyval) : result dict :=
  match v with
  | VDict other => Ok (dict_update d other)
  | VList l => update_from_items d l
  | VStr s => update_from_items d (map (fun c => VStr (String c "")) (list_ascii_of_string s))
  | _ => Err (TypeError (type_name v))
  end.

(** ** Strings *)

Definition startswith (s p : string) : bool := String.prefix p s.

Fixpoint str_rev_onto (s acc : string) : string :=
  match s with
  | EmptyString => acc
  | String c s' => str_rev_onto s' (String c acc)
  end.

Definition str_rev (s : string) : string := str_rev_onto s "".

Definition endswith (s p : string) : bool := String.prefix (str_rev p) (str_rev s).

(** [s.split(sep)] for a non-empty separator.  [skip] counts the
    characters of a separator just matched that are still to be passed
    over; [cur] is the piece being read. *)
Fixpoint split_go (sep : string) (skip : nat) (cur : string) (s : string) : list string :=
  match s with
  | EmptyString => [cur]
  | String c s' =>
      match skip with
      | S k => split_go sep k cur s'
      | O =>
          if String.prefix sep s
          then cur :: split_go sep (Nat.pred (String.length sep)) "" s'
          else split_go sep O (cur +:+ String c "") s'
      end
  end.

Definition py_split (sep s : string) : list string := split_go sep O "" s.

(** [l[0]] and [l[-1]] of a list of strings *)
Definition first_item (l : list string) : result string :=
  match l with
  | x :: _ => Ok x
  | [] => Err IndexError
  end.

Definition last_item (l : list string) : result string :=
  match List.rev l with
  | x :: _ => Ok x
  | [] => Err IndexError
  end.

(** [sep.join(l)] *)
Fixpoint str_join (sep : string) (l : list string) : string :=
  match l with
  | [] => ""
  | [x] => x
  | x :: rest => x +:+ sep +:+ str_join sep rest
  end.

Definition ascii_in (c : ascii) (chars : string) : bool :=
  existsb (Ascii.eqb c) (list_ascii_of_string chars).

Fixpoint lstrip_chars (chars s : string) : string :=
  match s with
  | EmptyString => ""
  | String c s' => if ascii_in c chars then lstrip_chars chars s' else s
  end.

(** [s.strip(chars)]: every leading and trailing character that belongs
    to [chars] is removed. *)
Definition strip_chars (chars s : string) : string :=
  str_rev (lstrip_chars chars (str_rev (lstrip_chars chars s))).

(** The characters [str.strip()] removes: space, tab, newline, carriage
    return, vertical tab, form feed. *)
Definition whitespace : string :=
  string_of_list_ascii
    [ascii_of_nat 32; ascii_of_nat 9; ascii_of_nat 10; ascii_of_nat 13;
     ascii_of_nat 11; ascii_of_nat 12].

Definition py_strip (s : string) : string := strip_chars whitespace s.

Definition upper_ascii (c : ascii) : ascii :=
  let n := nat_of_ascii c in
  if (97 <=? n)%nat && (n <=? 122)%nat then ascii_of_nat (n - 32) else c.

Definition lower_ascii (c : ascii) : ascii :=
  let n := nat_of_ascii c in
  if (65 <=? n)%nat && (n <=? 90)%nat then ascii_of_nat (n + 32) else c.

Fixpoint str_map (f : ascii -> ascii) (s : string) : string :=
  match s with
  | EmptyString => ""
  | String c s' => String (f c) (str_map f s')
  end.

(** [s.capitalize()]: first character upper-cased, the rest lower-cased. *)
Definition capitalize (s : string) : string :=
  match s with
  | EmptyString => ""
  | String c s' => String (upper_ascii c) (str_map lower_ascii s')
  end.

(** [pat in s] for strings *)
Fixpoint contains (pat s : string) : bool :=
  String.prefix pat s ||
  match s with
  | EmptyString => false
  | String _ s' => contains pat s'
  end.

(** [str(z)] *)
Definition str_of_Z (z : Z) : string := NilZero.string_of_int (Z.to_int z).

(** Zero-padded decimal of width [w] (the [%0wd] of [strftime]) *)
Fixpoint pad_left (w : nat) (s : string) : string :=
  match w with
  | O => s
  | S w' => if (String.length s <=? w')%nat then pad_left w' ("0" +:+ s) else s
  end.

Definition ascii_is_digit (c : ascii) : bool :=
  let n := nat_of_ascii c in (48 <=? n)%nat && (n <=? 57)%nat.

Fixpoint digits_value (acc : Z) (s : string) : Z :=
  match s with
  | EmptyString => acc
  | String c s' => digits_value (10 * acc + (Z.of_nat (nat_of_ascii c) - 48)) s'
  end.

Definition all_digits (s : string) : bool :=
  negb (String.eqb s "") && forallb ascii_is_digit (list_ascii_of_string s).

(** [int(s)] for a string: surrounding whitespace, an optional sign,
    whitespace again (the conversion of the digits skips it once more
    after the sign, so that [int("- 5")] is [-5]), then decimal digits. *)
Definition int_of_str (s : string) : result Z :=
  let t := py_strip s in
  let '(neg, body) :=
    match t with
    | String "-" r => (true, lstrip_chars whitespace r)
    | String "+" r => (false, lstrip_chars whitespace r)
    | _ => (false, t)
    end in
  if all_digits body
  then Ok (if neg then - digits_value 0 body else digits_value 0 body)
  else Err (ValueError "invalid literal for int() with base 10").

(** [int(v)] *)
Definition py_int (v : pyval) : result Z :=
  match v with
  | VInt z => Ok z
  | VBool b => Ok (if b then 1 else 0)
  | VStr s => int_of_str s
  | _ => Err (TypeError "int() argument must be a string or a number")
  end.

(** [str(v)] as the [%s] and [{0}] conversions use it.  Only scalars are
    ever converted in this module ([days] after [int(days)] succeeded,
    dates and paths after a string method succeeded); the text for a
    container is a placeholder that no execution produces. *)
Definition py_str (v : pyval) : string :=
  match v with
  | VNone => "None"
  | VBool true => "True"
  | VBool false => "False"
  | VInt z => str_of_Z z
  | VStr s => s
  | VList _ => "[...]"
  | VDict _ => "{...}"
  end.

(** ** Calendar dates

    [datetime.now()] is read as the proleptic Gregorian ordinal of the
    current day ([date.toordinal()]: day 1 is 0001-01-01). *)

(** Year, month and day of an ordinal: the era-based conversion, with
    the count shifted so that a 400-year era starts on a 1 March. *)
Definition civil_of_ordinal (n : Z) : Z * Z * Z :=
  let z := n + 305 in
  let era := z / 146097 in
  let doe := z - era * 146097 in
  let yoe := (doe - doe / 1460 + doe / 36524 - doe / 146096) / 365 in
  let doy := doe - (365 * yoe + yoe / 4 - yoe / 100) in
  let mp := (5 * doy + 2) / 153 in
  let d := doy - (153 * mp + 2) / 5 + 1 in
  let m := if (mp <? 10)%Z then mp + 3 else mp - 9 in
  let y := yoe + era * 400 in
  (if (m <=? 2)%Z then y + 1 else y, m, d).

Definition ordinal_min : Z := 1.
Definition ordinal_max : Z := 3652059.
Definition ordinal_1900 : Z := 693596.

(** [d.strftime("%Y-%m-%d")]; Python 2 refuses years before 1900. *)
Definition strftime_ymd (n : Z) : result string :=
  if (n <? ordinal_1900)%Z then Err (ValueError "year is before 1900")
  else
    let '(y, m, d) := civil_of_ordinal n in
    Ok (pad_left 4 (str_of_Z y) +:+ "-" +:+ pad_left 2 (str_of_Z m)
        +:+ "-" +:+ pad_left 2 (str_of_Z d)).

(** [timedelta(days)] *)
Definition timedelta (days : Z) : result Z :=
  if (Z.abs days <=? 999999999)%Z then Ok days else Err OverflowError.

(** [now - delta] *)
Definition date_sub (now delta : Z) : result Z :=
  let n := now - delta in
  if (ordinal_min <=? n)%Z && (n <=? ordinal_max)%Z then Ok n else Err OverflowError.

(** ** [os.path] on strings *)

(** [os.path.join(a, b)] (posixpath, Python 2.7) on strings *)
Definition path_join (a b : string) : string :=
  if startswith b "/" then b
  else if String.eqb a "" || endswith a "/" then a +:+ b
  else a +:+ "/" +:+ b.

(** [os.path.join(a, b)] on arbitrary values: [b.startswith] is asked
    first; [a] is only touched when [b] is relative. *)
Definition py_path_join (a b : pyval) : result string :=
  match b with
  | VStr sb =>
      if startswith sb "/" then Ok sb
      else
        match a with
        | VStr sa => Ok (path_join sa sb)
        | _ => Err (AttributeError "endswith")
        end
  | _ => Err (AttributeError "startswith")
  end.

(** [os.path.basename(p)]: what follows the last slash *)
Definition basename (p : string) : string :=
  match List.rev (py_split "/" p) with
  | x :: _ => x
  | [] => ""
  end.

(** [p.rstrip("/")] *)
Definition rstrip_sep (p : string) : string :=
  str_rev (lstrip_chars "/" (str_rev p)).

(** ** The filesystem

    A node lives at a location: the list of directory names from the
    filesystem root.  The root is always a directory.  A file holds the
    value that [json.dump] serialised into it and the indent it was
    written with.  There are no symbolic links, no permissions and one
    device; a library call that fails leaves the filesystem as it
    was. *)

Record file_content : Type := JsonText {
  json_value : pyval;
  json_indent : nat
}.

Inductive node : Type :=
| File (c : file_content)
| Dir.

Record filesystem : Type := Filesystem {
  nodes : gmap (list string) node;
  cwd : list string
}.

Definition node_at (fs : filesystem) (loc : list string) : option node :=
  match loc with
  | [] => Some Dir
  | _ => nodes fs !! loc
  end.

Definition dir_at (fs : filesystem) (loc : list string) : bool :=
  match node_at fs loc with
  | Some Dir => true
  | _ => false
  end.

(** Path resolution, one component at a time; every component is looked
    up in a directory. *)
Fixpoint walk (fs : filesystem) (cur : list string) (comps : list string)
  : option (list string) :=
  match comps with
  | [] => Some cur
  | c :: rest =>
      if dir_at fs cur then
        if String.eqb c "" || String.eqb c "." then walk fs cur rest
        else if String.eqb c ".." then walk fs (removelast cur) rest
        else walk fs (cur ++ [c]) rest
      else None
  end.

Definition start_of (fs : filesystem) (path : string) : list string :=
  if startswith path "/" then [] else cwd fs.

(** The location a path names, when every directory on the way exists *)
Definition resolve (fs : filesystem) (path : string) : option (list string) :=
  if String.eqb path "" then None
  else walk fs (start_of fs path) (py_split "/" path).

Definition stat (fs : filesystem) (path : string) : option node :=
  loc ← resolve fs path; node_at fs loc.

(** [os.path.exists], [os.path.isfile], [os.path.isdir] *)
Definition path_exists (fs : filesystem) (path : string) : bool :=
  match stat fs path with Some _ => true | None => false end.

Definition path_isfile (fs : filesystem) (path : string) : bool :=
  match stat fs path with Some (File _) => true | _ => false end.

Definition path_isdir (fs : filesystem) (path : string) : bool :=
  match stat fs path with Some Dir => true | _ => false end.

(** The name of a direct child of [loc] *)
Fixpoint child_name (loc key : list string) : option string :=
  match loc, key with
  | [], [name] => Some name
  | a :: loc', b :: key' => if String.eqb a b then child_name loc' key' else None
  | _, _ => None
  end.

(** The entries of the directory at [loc], split as [os.walk] splits
    them: sub-directories and the rest. *)
Definition children (fs : filesystem) (loc : list string) : list (string * node) :=
  omap (fun kv => name ← child_name loc (fst kv); Some (name, snd kv))
       (map_to_list (nodes fs)).

Definition is_dir_node (n : node) : bool :=
  match n with Dir => true | File _ => false end.

(** [next(os.walk(path))]: [os.walk] swallows the error of listing a
    path that is not a directory and yields nothing, so [next] raises
    [StopIteration]. *)
Definition walk_top (fs : filesystem) (path : string)
  : result (string * list string * list string) :=
  match resolve fs path with
  | Some loc =>
      if dir_at fs loc then
        let kids := children fs loc in
        Ok (path,
            map fst (filter (fun kv => is_dir_node (snd kv) = true) kids),
            map fst (filter (fun kv => is_dir_node (snd kv) = false) kids))
      else Err StopIteration
  | None => Err StopIteration
  end.

Definition with_nodes (fs : filesystem) (m : gmap (list string) node) : filesystem :=
  {| nodes := m; cwd := cwd fs |}.

Definition is_special (c : string) : bool :=
  String.eqb c "" || String.eqb c "." || String.eqb c "..".

(** The directory part and the last component of a path *)
Definition split_last (comps : list string) : list string * string :=
  (removelast comps, List.last comps "").

(** [open(path, "wb")] followed by [json.dump(value, f, indent=indent)] *)
Definition write_json (fs : filesystem) (path : string) (value : pyval) (indent : nat)
  : result filesystem :=
  if String.eqb path "" then Err (IOError "No such file or directory")
  else
    let '(dirs, name) := split_last (py_split "/" path) in
    match walk fs (start_of fs path) dirs with
    | Some loc =>
        if negb (dir_at fs loc) then Err (IOError "Not a directory")
        else if is_special name then Err (IOError "Is a directory")
        else
          match node_at fs (loc ++ [name]) with
          | Some Dir => Err (IOError "Is a directory")
          | _ =>
              Ok (with_nodes fs
                    (<[(loc ++ [name])%list := File (JsonText value indent)]> (nodes fs)))
          end
    | None => Err (IOError "No such file or directory")
    end.

(** [os.makedirs(path)]: every missing directory on the way is created;
    it is an error if the leaf is already there or a file is in the way. *)
Fixpoint makedirs_go (fs : filesystem) (cur : list string) (comps : list string)
  (created : bool) : result (filesystem * bool) :=
  match comps with
  | [] => Ok (fs, created)
  | c :: rest =>
      if negb (dir_at fs cur) then Err (OSError "Not a directory")
      else if String.eqb c "" || String.eqb c "." then makedirs_go fs cur rest created
      else if String.eqb c ".." then makedirs_go fs (removelast cur) rest created
      else
        match node_at fs (cur ++ [c]) with
        | Some Dir => makedirs_go fs (cur ++ [c]) rest created
        | Some (File _) => Err (OSError "File exists")
        | None =>
            makedirs_go (with_nodes fs (<[(cur ++ [c])%list := Dir]> (nodes fs)))
                        (cur ++ [c]) rest true
        end
  end.

Definition makedirs (fs : filesystem) (path : string) : result filesystem :=
  if String.eqb path "" then Err (OSError "No such file or directory")
  else
    match makedirs_go fs (start_of fs path) (py_split "/" path) false with
    | Ok (fs', true) => Ok fs'
    | Ok (_, false) => Err (OSError "File exists")
    | Err e => Err e
    end.

(** *** [shutil.move] *)

Fixpoint strip_prefix (p k : list string) : option (list string) :=
  match p, k with
  | [], _ => Some k
  | a :: p', b :: k' => if String.eqb a b then strip_prefix p' k' else None
  | _ :: _, [] => None
  end.

(** Everything at or below [sloc] goes to the same place below [tloc]. *)
Definition relocate (m : gmap (list string) node) (sloc tloc : list string)
  : gmap (list string) node :=
  let moved :=
    omap (fun kv => r ← strip_prefix sloc (fst kv); Some ((tloc ++ r)%list, snd kv))
         (map_to_list m) in
  let kept := filter (fun kv => strip_prefix sloc (fst kv) = None) m in
  list_to_map moved ∪ kept.

(** The location a path is about to name: its directory part must
    exist, its last component is an ordinary name. *)
Definition resolve_target (fs : filesystem) (path : string) : option (list string) :=
  if String.eqb path "" then None
  else
    let '(dirs, name) := split_last (py_split "/" path) in
    match walk fs (start_of fs path) dirs with
    | Some loc =>
        if dir_at fs loc && negb (is_special name) then Some (loc ++ [name])%list
        else None
    | None => None
    end.

Definition has_children (fs : filesystem) (loc : list string) : bool :=
  match children fs loc with [] => false | _ => true end.

Definition loc_eqb (a b : list string) : bool :=
  match strip_prefix a b with Some [] => true | _ => false end.

Definition loc_below (a b : list string) : bool :=
  match strip_prefix a b with Some _ => true | None => false end.

(** [os.rename(src, dst)] *)
Definition rename (fs : filesystem) (src dst : string) : result filesystem :=
  match resolve fs src, resolve_target fs dst with
  | Some sloc, Some tloc =>
      match sloc, nodes fs !! sloc with
      | _ :: _, Some n =>
          if loc_eqb sloc tloc then Ok fs
          else
            let go := Ok (with_nodes fs (relocate (nodes fs) sloc tloc)) in
            match n, node_at fs tloc with
            | File _, Some Dir => Err (OSError "Is a directory")
            | File _, _ => go
            | Dir, Some (File _) => Err (OSError "Not a directory")
            | Dir, Some Dir =>
                if has_children fs tloc then Err (OSError "Directory not empty")
                else if loc_below sloc tloc then Err (OSError "Invalid argument")
                else go
            | Dir, None =>
                if loc_below sloc tloc then Err (OSError "Invalid argument") else go
            end
      | _, _ => Err (OSError "No such file or directory")
      end
  | _, _ => Err (OSError "No such file or directory")
  end.

(** [os.path.abspath]: the components are normalised without looking at
    the filesystem. *)
Fixpoint norm_go (cur comps : list string) : list string :=
  match comps with
  | [] => cur
  | c :: rest =>
      if String.eqb c "" || String.eqb c "." then norm_go cur rest
      else if String.eqb c ".." then norm_go (removelast cur) rest
      else norm_go (cur ++ [c]) rest
  end.

Definition abs_loc (fs : filesystem) (path : string) : list string :=
  norm_go (start_of fs path) (py_split "/" path).

Definition destinsrc (fs : filesystem) (src dst : string) : bool :=
  loc_below (abs_loc fs src) (abs_loc fs dst).

Definition samefile (fs : filesystem) (src dst : string) : bool :=
  match resolve fs src, resolve fs dst with
  | Some a, Some b =>
      match node_at fs a, node_at fs b with
      | Some _, Some _ => loc_eqb a b
      | _, _ => false
      end
  | _, _ => false
  end.

(** [copytree(src, real_dst)] then [rmtree(src)]: [copytree] starts with
    [os.makedirs(real_dst)]. *)
Definition copytree_rmtree (fs : filesystem) (src real_dst : string) : result filesystem :=
  fs1 ← makedirs fs real_dst;
  match resolve fs1 src, resolve fs1 real_dst with
  | Some sloc, Some tloc =>
      if loc_below sloc tloc then Err (OSError "File name too long")
      else Ok (with_nodes fs1 (relocate (nodes fs1) sloc tloc))
  | _, _ => Err (OSError "No such file or directory")
  end.

(** What [shutil.move] does once [real_dst] is known.  When [os.rename]
    refuses a source that is not a directory, the fallback [copy2] opens
    the same source and destination and fails on them in turn. *)
Definition move_to (fs : filesystem) (src dst real_dst : string) : result filesystem :=
  match rename fs src real_dst with
  | Ok fs' => Ok fs'
  | Err _ =>
      if path_isdir fs src then
        if destinsrc fs src dst
        then Err (ShutilError ("Cannot move a directory '" +:+ src +:+ "' into itself '"
                               +:+ dst +:+ "'."))
        else copytree_rmtree fs src real_dst
      else Err (IOError "No such file or directory")
  end.

Definition shutil_move (fs : filesystem) (src dst : string) : result filesystem :=
  if path_isdir fs dst then
    if samefile fs src dst then rename fs src dst
    else
      let real_dst := path_join dst (basename (rstrip_sep src)) in
      if path_exists fs real_dst
      then Err (ShutilError ("Destination path '" +:+ real_dst +:+ "' already exists"))
      else move_to fs src dst real_dst
  else move_to fs src dst dst.

(** ** Equality and membership of values *)

(** [a == b]: [True == 1]; lists compare element by element,
    dictionaries key by key whatever their order. *)
Fixpoint pyval_eqb (a b : pyval) : bool :=
  match a, b with
  | VNone, VNone => true
  | VBool x, VBool y => Bool.eqb x y
  | VBool x, VInt y | VInt y, VBool x => Z.eqb (if x then 1 else 0) y
  | VInt x, VInt y => Z.eqb x y
  | VStr x, VStr y => String.eqb x y
  | VList l1, VList l2 =>
      (fix go (l1 l2 : list pyval) : bool :=
         match l1, l2 with
         | [], [] => true
         | x :: l1', y :: l2' => pyval_eqb x y && go l1' l2'
         | _, _ => false
         end) l1 l2
  | VDict d1, VDict d2 =>
      Nat.eqb (List.length d1) (List.length d2) &&
      (fix go (d : dict) : bool :=
         match d with
         | [] => true
         | (k, v) :: d' =>
             match dict_get k d2 with
             | Some v' => pyval_eqb v v' && go d'
             | None => false
             end
         end) d1
  | _, _ => false
  end.

(** [x in container] *)
Definition py_in (x container : pyval) : result bool :=
  match container with
  | VList l => Ok (existsb (pyval_eqb x) l)
  | VDict d =>
      match key_of_val x with
      | Ok k => Ok (dict_has k d)
      | Err e => Err e
      end
  | VStr s =>
      match x with
      | VStr p => Ok (contains p s)
      | _ => Err (TypeError "'in <string>' requires string as left operand")
      end
  | _ => Err (TypeError (type_name container))
  end.

(** ** State and exceptions together

    [SE S A]: a computation that updates a state [S] and returns or
    raises.  The state an exception leaves behind is kept. *)

Definition SE (S A : Type) : Type := S -> S * result A.

#[global] Instance SE_ret {S} : MRet (SE S) := fun _ a s => (s, Ok a).
#[global] Instance SE_bind {S} : MBind (SE S) := fun _ _ k m s =>
  match m s with
  | (s', Ok a) => k a s'
  | (s', Err e) => (s', Err e)
  end.

Definition pure {S A} (a : A) : SE S A := fun s => (s, Ok a).
Definition lift {S A} (r : result A) : SE S A := fun s => (s, r).
Definition raise {S A} (e : exn) : SE S A := fun s => (s, Err e).
Definition get_state {S} : SE S S := fun s => (s, Ok s).
Definition modify {S} (f : S -> S) : SE S unit := fun s => (f s, Ok tt).

(** A library call on the state that either succeeds with a new state or
    raises and leaves the state as it was. *)
Definition effect {S} (f : S -> result S) : SE S unit := fun s =>
  match f s with
  | Ok s' => (s', Ok tt)
  | Err e => (s, Err e)
  end.

(** ** The view store *)

Record TestcaseReporting : Type := {
  index : string;
  doc_type : string;
  test_results_folder : string
}.

(** [self.__save_view_structure] *)
Definition save_view_structure : dict :=
  [(KStr "folder", VNone); (KStr "view", VNone); (KStr "filters", VDict [])].

Fixpoint dedup_keys (l : list pykey) : list pykey :=
  match l with
  | [] => []
  | k :: l' => if existsb (pykey_eqb k) l' then dedup_keys l' else k :: dedup_keys l'
  end.

(** [set(a) - set(b)] for the key sets of two dictionaries.  The order in
    which CPython iterates a set is not specified; the model lists the
    elements in the order of [a]. *)
Definition keys_diff (a b : dict) : list pykey :=
  filter (fun k => dict_has k b = false) (dedup_keys (dict_keys a)).

(** [",".join(keys)]: every item must be a string. *)
Fixpoint str_items (l : list pykey) : result (list string) :=
  match l with
  | [] => Ok []
  | KStr s :: l' => r ← str_items l'; Ok (s :: r)
  | _ :: _ => Err (TypeError "sequence item: expected string")
  end.

Definition join_keys (l : list pykey) : result string :=
  items ← str_items l; Ok (str_join "," items).

Definition missing_prefix : string :=
  "Data to save the view is missing following needed info:".
Definition unneeded_prefix : string :=
  "Data to save the view is having following additional uneeded info: ".

(** Lines 319-330.  The missing keys are tested first; the extraneous
    keys are only looked at in the [elif]. *)
Definition _validate_save_view_data (data : dict) : result unit :=
  let missing_data := keys_diff save_view_structure data in
  let unrequired_data := keys_diff data save_view_structure in
  match missing_data, unrequired_data with
  | _ :: _, _ =>
      s ← join_keys missing_data; Err (Exception_ (missing_prefix +:+ s))
  | [], _ :: _ =>
      s ← join_keys unrequired_data; Err (Exception_ (unneeded_prefix +:+ s))
  | [], [] => Ok tt
  end.

(** Lines 332-335 *)
Definition __get_full_path (self : TestcaseReporting) (filter_data : dict) : result string :=
  folder ← dict_getitem "folder" filter_data;
  folders ← as_str "strip" folder;
  view ← dict_getitem "view" filter_data;
  view_name ← as_str "strip" view;
  Ok (path_join (path_join (test_results_folder self) (py_strip folders))
                (py_strip view_name +:+ ".json")).

(** The directory that [get_available_views] lists (its first four
    lines) *)
Definition view_dir (self : TestcaseReporting) (path : pyval) : result string :=
  if truthy path
  then py_path_join (VStr (test_results_folder self)) path
  else Ok (test_results_folder self).

(** Lines 366-379 *)
Definition get_available_views (self : TestcaseReporting) (fs : filesystem) (path : pyval)
  : result dict :=
  path ← view_dir self path;
  let ret_data := [(KStr "views", VList []); (KStr "folders", VList [])] in
  '(_, dirnames, filenames) ← walk_top fs path;
  let ret_data := dict_set "folders" (VList (map VStr dirnames)) ret_data in
  let ret_data :=
    dict_set "views" (VList (map (fun fname => VStr (strip_chars ".json" fname)) filenames))
             ret_data in
  Ok ret_data.

(** Lines 337-343.  The listing is asked for the key "view". *)
Definition is_a_duplicate_view_available (self : TestcaseReporting) (fs : filesystem)
  (folders view_name : pyval) : result bool :=
  path ← py_path_join folders view_name;
  data ← get_available_views self fs (VStr path);
  views ← dict_getitem "view" data;
  found ← py_in view_name views;
  if found : bool then Ok true else Ok false.

(** Lines 345-364; the state is the filesystem. *)
Definition __save_test_results_view (self : TestcaseReporting) (filter_data : dict)
  : SE filesystem dict :=
  folders ← lift (as_str "strip" (dict_get_default "folder" (VStr "") filter_data));
  let folders := py_strip folders in
  view_name ← lift (as_str "strip" (dict_get_default "view" (VStr "") filter_data));
  let view_name := py_strip view_name in
  let filters := dict_get_default "filters" (VStr "") filter_data in
  let save_path := "" in
  save_path ←
    (if truthy (VStr folders) then
       let save_path := path_join (test_results_folder self) folders in
       fs ← get_state;
       _ ← (if negb (path_exists fs save_path)
            then effect (fun fs => makedirs fs save_path)
            else pure tt);
       pure save_path
     else pure save_path);
  let save_path :=
    if truthy (VStr save_path) then save_path else test_results_folder self in
  let full_path := path_join save_path (view_name +:+ ".json") in
  _ ← effect (fun fs => write_json fs full_path filters 4);
  pure filter_data.

(** Lines 401-412.  In the duplicate branch the argument of [IOError] is
    evaluated first: ["..." % os.path.join(folders, view_name)] reads
    the names [folders] and [view_name], which are neither locals of
    this method nor globals of the module, so the lookup of [folders]
    raises [NameError] and no [IOError] is made. *)
Definition create_test_results_view (self : TestcaseReporting) (filter_data : dict)
  (save_type : pyval) : SE filesystem dict :=
  _ ← lift (_validate_save_view_data filter_data);
  full_path ← lift (__get_full_path self filter_data);
  fs ← get_state;
  if path_exists fs full_path
  then raise (NameError "folders")
  else __save_test_results_view self filter_data.

(** Lines 414-420 *)
Definition update_test_results_view (self : TestcaseReporting) (filter_data : dict)
  : SE filesystem dict :=
  _ ← lift (_validate_save_view_data filter_data);
  full_path ← lift (__get_full_path self filter_data);
  __save_test_results_view self filter_data.

(** Lines 432-452 *)
Definition move_test_results_view (self : TestcaseReporting) (src_path dest_path : string)
  : SE filesystem unit :=
  let full_src_path := path_join (test_results_folder self) src_path in
  let full_dest_path := path_join (test_results_folder self) dest_path in
  fs ← get_state;
  let src_is_a_file := path_isfile fs (full_src_path +:+ ".json") in
  let src_exists := path_exists fs full_src_path in
  let dest_exists := path_exists fs full_dest_path in
  full_src_path ←
    (if negb dest_exists
     then raise (IOError ("Destination path " +:+ dest_path +:+ " does not exist"))
     else if src_is_a_file then pure (full_src_path +:+ ".json")
     else if negb src_exists
     then raise (IOError ("Source path " +:+ src_path +:+ " does not exist"))
     else pure full_src_path);
  effect (fun fs => shutil_move fs full_src_path full_dest_path).

(** ** The collaborators of the report assembler *)

(** A scrolled search: the pages it yields, and the exception that ends
    the iteration when the service fails part-way. *)
Record scroll : Type := Scroll {
  pages : list pyval;
  failure : option exn
}.

Record world : Type := World {
  request_json : pyval;                      (* bottle's [request.json] *)
  today : Z;                                 (* [datetime.now()], as a day ordinal *)
  get_mapping : result pyval;                (* [eclient.indices.get_mapping(...)] *)
  search_index : pyval -> result scroll;     (* [ci_es_obj.search_index(query=...)] *)
  search : pyval -> result pyval             (* [eclient.search(..., body=...)] *)
}.

(** ** Aggregation builder *)

Definition range_filter (from_date to_date : pyval) : pyval :=
  VDict [(KStr "range",
          VDict [(KStr "jobdate",
                  VDict [(KStr "gte", from_date); (KStr "lte", to_date)])])].

Definition terms_agg (field : string) : pyval :=
  VDict [(KStr "terms", VDict [(KStr "field", VStr field); (KStr "size", VInt 0)])].

Definition aggregated_fields : list string :=
  ["major"; "minor"; "production"; "program_type"; "testgroup"].

Definition aggregation_query (from_date to_date type : pyval) : pyval :=
  let bool_clause := [(KStr "filter", range_filter from_date to_date)] in
  let bool_clause :=
    if truthy type then
      let type := if pyval_eqb type (VStr "CPT") then VStr "L2ADD" else type in
      dict_update bool_clause
        [(KStr "must", VDict [(KStr "match", VDict [(KStr "type", type)])])]
    else bool_clause in
  let aggs := [(KStr "jobstatus", terms_agg "status")] in
  let aggs :=
    fold_left (fun aggs field =>
                 dict_set (KStr field) (terms_agg ("job_attrs." +:+ field +:+ ".raw")) aggs)
              aggregated_fields aggs in
  VDict [(KStr "size", VInt 0);
         (KStr "query", VDict [(KStr "bool", VDict bool_clause)]);
         (KStr "aggs", VDict aggs)].

(** [for doc in bucket["buckets"]: aggr_data[key][doc['key']] = doc['doc_count']] *)
Fixpoint fold_buckets (acc : dict) (docs : list pyval) : result dict :=
  match docs with
  | [] => Ok acc
  | doc :: rest =>
      count ← py_getitem doc "doc_count";
      k ← py_getitem doc "key";
      k ← key_of_val k;
      fold_buckets (dict_set k count acc) rest
  end.

(** [for key, bucket in data.iteritems(): ...] *)
Fixpoint fold_facets (aggr_data : dict) (items : dict) : result dict :=
  match items with
  | [] => Ok aggr_data
  | (key, bucket) :: rest =>
      let aggr_data := dict_set key (VDict []) aggr_data in
      buckets ← py_getitem bucket "buckets";
      docs ← py_iter buckets;
      counts ← fold_buckets [] docs;
      fold_facets (dict_set key (VDict counts) aggr_data) rest
  end.

(** Lines 58-117 *)
Definition _get_aggregated_data (w : world) (from_date to_date type : pyval) : result dict :=
  let query := aggregation_query from_date to_date type in
  out ← search w query;
  data ← py_get out "aggregations" (VDict []);
  items ← as_dict "iteritems" data;
  fold_facets [] items.

(** ** Date range *)

Lemma bind_ok {A B} (a : A) (k : A -> result B) : (Ok a ≫= k) = k a.
Proof. reflexivity. Qed.

Lemma bind_err {A B} (e : exn) (k : A -> result B) : (Err e ≫= k) = Err e.
Proof. reflexivity. Qed.

(** Lines 119-146; the state is [final_dict]. *)
Definition _get_date_filters (w : world) (data : dict) : SE dict (pyval * pyval) :=
  let filter := dict_get_default "filter" VNone data in
  '(from_date, to_date) ←
    (if pyval_eqb filter (VStr "date") then
       to_date ← lift (v ← dict_getitem "to_date" data;
                       s ← as_str "split" v; first_item (py_split "T" s));
       from_date ← lift (v ← dict_getitem "from_date" data;
                         s ← as_str "split" v; first_item (py_split "T" s));
       _ ← modify (dict_set "filter" (VStr (from_date +:+ " to " +:+ to_date)));
       pure (VStr from_date, VStr to_date)
     else if pyval_eqb filter (VStr "days") then
       let days := dict_get_default "days" VNone data in
       to_date ← lift (strftime_ymd (today w));
       from_date ← lift (n ← py_int days; delta ← timedelta n;
                         d ← date_sub (today w) delta; strftime_ymd d);
       _ ← modify (dict_set "filter" (VStr ("Last " +:+ py_str days +:+ " days")));
       pure (VStr from_date, VStr to_date)
     else if pyval_eqb filter (VStr "all") then
       _ ← modify (dict_set "filter" (VStr "All"));
       pure (VNone, VNone)
     else
       to_date ← lift (strftime_ymd (today w));
       from_date ← lift (delta ← timedelta 30;
                         d ← date_sub (today w) delta; strftime_ymd d);
       pure (VStr from_date, VStr to_date));
  _ ← modify (dict_set "from_date" from_date);
  _ ← modify (dict_set "to_date" to_date);
  pure (from_date, to_date).

(** ** Query builder *)

(** Lines 148-189 *)
Definition _form_query_dict (from_date to_date : pyval) (fields_visible : list pykey)
  : pyval :=
  let source :=
    [(KStr "excludes",
      VList [VStr "job_attrs.job_attrs_kv"; VStr "cust_attrs.cust_attrs_kv"])] in
  let query_dict := [(KStr "_source", VDict source)] in
  let no_date_range := py_and (py_not from_date) (py_not to_date) in
  let both_date_ranges := py_and from_date to_date in
  let only_one_date_range := py_or (py_not from_date) (py_not to_date) in
  let query_dict :=
    if truthy both_date_ranges then
      let date_filter :=
        VDict [(KStr "query",
                VDict [(KStr "bool",
                        VDict [(KStr "filter", range_filter from_date to_date)])])] in
      dict_set "query" date_filter query_dict
    else query_dict in
  let includes :=
    (map val_of_key fields_visible ++ [VStr "job_attrs"; VStr "cust_attrs"])%list in
  VDict (dict_set "_source" (VDict (dict_set "includes" (VList includes) source))
                  query_dict).

(** ** Row shaping *)

(** [dict((key, "NA") for key in fields_visible)] *)
Definition default_row (fields_visible : list pykey) : dict :=
  fold_left (fun row key => dict_set key (VStr "NA") row) fields_visible [].

(** The body of [for field in source] (lines 284-299) *)
Definition copy_field (source : dict) (row_data : dict) (field : pykey) : result dict :=
  if dict_has field row_data then
    value ← dict_getitem field source;
    let row_data := dict_set field value row_data in
    if pykey_eqb field "stage" then
      '(popped, row_data) ← dict_pop "stage" row_data;
      s ← as_str "split" popped;
      piece ← first_item (py_split "_ci" s);
      Ok (dict_set "stage_stdout" (VStr piece) row_data)
    else if pykey_eqb field "log_uri" then
      s ← as_str "split" value;
      piece ← last_item (py_split "/" s);
      Ok (dict_set "log_name" (VStr piece) row_data)
    else if pykey_eqb field "status" then
      s ← as_str "capitalize" value;
      let row_data := dict_set "job" (VStr (capitalize s)) row_data in
      '(popped, row_data) ← dict_pop "status" row_data;
      s ← as_str "capitalize" popped;
      Ok (dict_set "stage_status" (VStr (capitalize s)) row_data)
    else if pykey_eqb field "type" then
      '(popped, row_data) ← dict_pop "type" row_data;
      Ok (dict_set "test_type" popped row_data)
    else Ok row_data
  else Ok row_data.

Fixpoint copy_fields (source : dict) (row_data : dict) (fields : list pykey)
  : result dict :=
  match fields with
  | [] => Ok row_data
  | field :: rest =>
      row_data ← copy_field source row_data field;
      copy_fields source row_data rest
  end.

(** One hit of the search, from [row_data = deepcopy(default_row_data)]
    to the finished row *)
Definition shape_row (default_row_data : dict) (hit : pyval) : result dict :=
  let row_data := default_row_data in
  source ← py_getitem hit "_source";
  job_attr_data ← py_get source "job_attrs" (VDict []);
  row_data ← py_dict_update row_data job_attr_data;
  cust_attr_data ← py_get source "cust_attrs" (VDict []);
  row_data ← py_dict_update row_data cust_attr_data;
  fields ← as_dict "get" source;
  copy_fields fields row_data (dict_keys fields).

(** ** Report assembler *)

Definition fields_visible0 : list pykey :=
  map KStr
    ["job"; "job_id"; "testcase_name"; "status"; "type"; "jobdate"; "executiontime";
     "log_uri"; "stage"; "sut"; "sut_wwid"; "log"; "os"; "model"; "hardware"; "team";
     "spp_detail"; "spp_status"].

(** [l.index(x)] *)
Fixpoint list_index (x : pykey) (l : list pykey) : result nat :=
  match l with
  | [] => Err (ValueError "is not in list")
  | y :: l' => if pykey_eqb y x then Ok O else i ← list_index x l'; Ok (S i)
  end.

(** [l.remove(x)] *)
Fixpoint list_remove (x : pykey) (l : list pykey) : result (list pykey) :=
  match l with
  | [] => Err (ValueError "list.remove(x): x not in list")
  | y :: l' => if pykey_eqb y x then Ok l' else r ← list_remove x l'; Ok (y :: r)
  end.

(** [l[i] = x] *)
Definition list_setitem {A} (i : nat) (x : A) (l : list A) : result (list A) :=
  if (i <? List.length l)%nat then Ok (<[i := x]> l) else Err IndexError.

Definition keys_value (l : list pykey) : pyval := VList (map val_of_key l).

(** [final_dict[key][i] = x]: the list stored under [key] is updated in
    place. *)
Definition setitem_in (key : string) (i : nat) (x : pyval) : SE dict unit :=
  final_dict ← get_state;
  v ← lift (dict_getitem key final_dict);
  match v with
  | VList l =>
      l' ← lift (list_setitem i x l);
      modify (dict_set key (VList l'))
  | _ => raise (TypeError "object does not support item assignment")
  end.

(** [attrs['properties'].pop(kv, None)] followed by
    [attrs["properties"].keys()], for a truthy [attrs] *)
Definition attribute_fields (attrs : pyval) (kv : string) : result (list pykey) :=
  props ← py_getitem attrs "properties";
  match props with
  | VDict d => Ok (dict_keys (dict_del kv d))
  | VList _ => Err (TypeError "pop() takes at most 1 argument (2 given)")
  | _ => Err (AttributeError "pop")
  end.

(** [final_dict["testinfo"].append(row_data)].  When the request itself
    carries a "testinfo" list, [final_dict.update(dict(data))] has put
    that very list into [final_dict], and the copy of the request under
    "retain" holds it too: the append is seen through both. *)
Definition append_row (request : dict) (row_data : dict) : SE dict unit :=
  final_dict ← get_state;
  v ← lift (dict_getitem "testinfo" final_dict);
  match v with
  | VList l =>
      let l' := VList (l ++ [VDict row_data]) in
      _ ← modify (dict_set "testinfo" l');
      if dict_has "testinfo" request && negb (dict_has "retain" request)
      then modify (dict_set "retain" (VDict (dict_set "testinfo" l' request)))
      else pure tt
  | _ => raise (AttributeError "append")
  end.

(** [for data in test_info: ...] over the hits of one page *)
Fixpoint shape_hits (request default_row_data : dict) (hits : list pyval) (cnt : Z)
  : SE dict Z :=
  match hits with
  | [] => pure cnt
  | hit :: rest =>
      row_data ← lift (shape_row default_row_data hit);
      let cnt := cnt + 1 in
      _ ← append_row request row_data;
      shape_hits request default_row_data rest cnt
  end.

(** [for test_info in test_info_data: ...] over the pages of the scroll *)
Fixpoint shape_pages (request default_row_data : dict) (test_info_data : list pyval)
  (cnt : Z) : SE dict Z :=
  match test_info_data with
  | [] => pure cnt
  | test_info :: rest =>
      hits ← lift (py_iter test_info);
      cnt ← shape_hits request default_row_data hits cnt;
      shape_pages request default_row_data rest cnt
  end.

(** Lines 258-259: the aggregation, with the status facet renamed *)
Definition renamed_ring_data (w : world) (from_date to_date type : pyval) : result dict :=
  ring_data ← _get_aggregated_data w from_date to_date type;
  '(jobstatus, ring_data) ← dict_pop "jobstatus" ring_data;
  Ok (dict_set "stage_status" jobstatus ring_data).

(** The [try] block up to the end of the row loop (lines 221-302); the
    state is [final_dict], the result the row count and the aggregation
    map.  [final_dict["testattr"] = fields_visible] stores the list
    itself, not a copy: every later change of [fields_visible] is
    written to [final_dict] as well. *)
Definition gather (self : TestcaseReporting) (w : world) (data : dict)
  : SE dict (Z * dict) :=
  '(from_date, to_date) ← _get_date_filters w data;
  let fields_visible := fields_visible0 in
  cirrus_map_data ← lift (get_mapping w);
  present ← lift (py_get cirrus_map_data "cirrus" VNone);
  '(job_attrs, cust_attrs) ←
    lift (if truthy present then
            by_index ← py_getitem cirrus_map_data (index self);
            mappings ← py_getitem by_index "mappings";
            by_type ← py_getitem mappings (doc_type self);
            properties ← py_get by_type "properties" (VDict []);
            job_attrs ← py_get properties "job_attrs" VNone;
            by_index ← py_getitem cirrus_map_data (index self);
            mappings ← py_getitem by_index "mappings";
            by_type ← py_getitem mappings (doc_type self);
            properties ← py_get by_type "properties" (VDict []);
            cust_attrs ← py_get properties "cust_attrs" VNone;
            Ok (job_attrs, cust_attrs)
          else Ok (VDict [], VDict []));
  _ ← modify (dict_set "cirrus_attributes_col" (keys_value fields_visible));
  fields_visible ←
    (if truthy job_attrs then
       keys ← lift (attribute_fields job_attrs "job_attrs_kv");
       _ ← modify (dict_set "job_attributes_col" (keys_value keys));
       pure (fields_visible ++ keys)%list
     else pure fields_visible);
  fields_visible ←
    (if truthy cust_attrs then
       keys ← lift (attribute_fields cust_attrs "cust_attrs_kv");
       _ ← modify (dict_set "testcase_attributes_col" (keys_value keys));
       pure (fields_visible ++ keys)%list
     else pure fields_visible);
  _ ← modify (dict_set "testattr" (keys_value fields_visible));
  let default_row_data := default_row fields_visible in
  let query_dict := _form_query_dict from_date to_date fields_visible in
  test_info_data ← lift (search_index w query_dict);
  ring_data ← lift (renamed_ring_data w from_date to_date
                      (dict_get_default "type" VNone data));
  indx ← lift (list_index "stage" fields_visible);
  _ ← setitem_in "cirrus_attributes_col" indx (VStr "stage_stdout");
  fields_visible ← lift (list_remove "log_uri" fields_visible);
  _ ← modify (dict_set "testattr" (keys_value fields_visible));
  indx ← lift (list_index "status" fields_visible);
  fields_visible ← lift (list_setitem indx (KStr "stage_status") fields_visible);
  _ ← modify (dict_set "testattr" (keys_value fields_visible));
  _ ← setitem_in "cirrus_attributes_col" indx (VStr "stage_status");
  indx ← lift (list_index "type" fields_visible);
  _ ← setitem_in "cirrus_attributes_col" indx (VStr "test_type");
  cnt ← shape_pages data default_row_data (pages test_info_data) 0;
  _ ← match failure test_info_data with
      | Some e => raise e
      | None => pure tt
      end;
  pure (cnt, ring_data).

(** The body of the [try] block *)
Definition assemble (self : TestcaseReporting) (w : world) (data : dict) : SE dict unit :=
  '(cnt, ring_data) ← gather self w data;
  _ ← modify (dict_set "count" (VInt cnt));
  modify (dict_set "ring_data" (VDict ring_data)).

(** [final_dict] as it stands when the [try] block is entered *)
Definition initial_final_dict (data : dict) : dict :=
  let final_dict := [] in
  let final_dict := dict_set "count" (VInt 0) final_dict in
  let final_dict := dict_set "testinfo" (VList []) final_dict in
  let final_dict := dict_set "job_attributes" (VList []) final_dict in
  let final_dict := dict_set "testattr" (VList []) final_dict in
  let final_dict := dict_set "job_attributes_col" (VList []) final_dict in
  let final_dict := dict_set "cirrus_attributes_col" (VList []) final_dict in
  let final_dict := dict_set "xyz" (VList []) final_dict in
  let final_dict := dict_set "testcase_attributes_col" (VList []) final_dict in
  let final_dict :=
    dict_set "reporttype"
      (dict_get_default "reporttype" (VStr "Testcase results") data) final_dict in
  let final_dict := dict_set "retain" (VDict data) final_dict in
  let final_dict := dict_set "view_data" (VDict []) final_dict in
  dict_update final_dict data.

(** Lines 210-217: the view identity and the create-mode check, which
    run outside the [try] block.  [view_name] is a local that is bound
    only when the request has a "view_name" key. *)
Definition check_view (self : TestcaseReporting) (fs : filesystem) (data : dict)
  : result unit :=
  let view_name :=
    if dict_has "view_name" data
    then Some (dict_get_default "view_name" VNone data) else None in
  view_name ←
    (if dict_has "folders" data then
       folders ← dict_getitem "folders" data;
       match view_name with
       | Some v => joined ← py_path_join folders v; Ok (Some (VStr joined))
       | None => Err (UnboundLocalError "view_name")
       end
     else Ok view_name);
  if dict_has "create_mode" data then
    folders ← dict_getitem "folders" data;
    match view_name with
    | Some v =>
        duplicate ← is_a_duplicate_view_available self fs folders v;
        if duplicate : bool
        then Err (Exception_ ("View name provided is duplicate for " +:+ py_str v))
        else Ok tt
    | None => Err (UnboundLocalError "view_name")
    end
  else Ok tt.

(** Lines 191-310.  What the [try] block raises is caught: the payload
    is [final_dict] as the block left it. *)
Definition get_test_case_data (self : TestcaseReporting) (w : world) (fs : filesystem)
  (data : pyval) : result dict :=
  let data := py_or data (request_json w) in
  data ← as_dict "get" data;
  let final_dict := initial_final_dict data in
  _ ← check_view self fs data;
  Ok (fst (assemble self w data final_dict)).

(** ** Vocabulary of the properties *)



(** The same two notions as functions *)
Fixpoint before_first (sep s : string) : string :=
  match s with
  | EmptyString => ""
  | String c s' => if String.prefix sep s then "" else String c (before_first sep s')
  end.

Fixpoint after_last (c0 : ascii) (s : string) : option string :=
  match s with
  | EmptyString => None
  | String c s' =>
      match after_last c0 s' with
      | Some t => Some t
      | None => if Ascii.eqb c c0 then Some s' else None
      end
  end.

(** A message names a key when the key occurs in it. *)
Definition names (msg key : string) : bool := contains key msg.

(** The keys of a JSON object are strings. *)
Definition string_keys (d : dict) : Prop :=
  forall k, In k (dict_keys d) -> exists s, k = KStr s.

(** A dictionary has each key once. *)
Definition well_formed (d : dict) : Prop := List.NoDup (dict_keys d).

(** A required key the payload lacks, and a key of the payload that is
    not required *)
Definition missing_key (data : dict) (k : string) : Prop :=
  dict_has k save_view_structure = true /\ dict_has k data = false.

Definition extraneous_key (data : dict) (k : string) : Prop :=
  dict_has k data = true /\ dict_has k save_view_structure = false.

(** The key set is exactly {folder, view, filters}. *)
Definition exact_keys (data : dict) : Prop :=
  forall k : pykey, dict_has k data = dict_has k save_view_structure.

(** Every value found under a "range" key, at any depth of a query *)
Fixpoint range_clauses (v : pyval) : list pyval :=
  match v with
  | VDict d =>
      (fix go (d : dict) : list pyval :=
         match d with
         | [] => []
         | (k, x) :: d' =>
             ((if pykey_eqb k "range" then [x] else []) ++ range_clauses x ++ go d')%list
         end) d
  | VList l =>
      (fix go (l : list pyval) : list pyval :=
         match l with
         | [] => []
         | x :: l' => (range_clauses x ++ go l')%list
         end) l
  | _ => []
  end.

(** A date bound is [None] or a string. *)
Definition is_bound (v : pyval) : bool :=
  match v with
  | VNone | VStr _ => true
  | _ => false
  end.

(** The inclusive range on the job date *)
Definition jobdate_range (from_date to_date : pyval) : pyval :=
  VDict [(KStr "jobdate", VDict [(KStr "gte", from_date); (KStr "lte", to_date)])].

(** [query["_source"][key]] *)
Definition projection (key : string) (query : pyval) : option pyval :=
  match query with
  | VDict q =>
      match dict_get "_source" q with
      | Some (VDict src) => dict_get key src
      | _ => None
      end
  | _ => None
  end.

(** An invariant of the state that a computation keeps, whether it
    returns or raises *)
Definition preserves {S A} (I : S -> Prop) (m : SE S A) : Prop :=
  forall s, I s -> I (fst (m s)).



(** The keys [gather] writes in [final_dict] *)
Definition gathered_keys : list string :=
  ["filter"; "from_date"; "to_date"; "cirrus_attributes_col"; "job_attributes_col";
   "testcase_attributes_col"; "testattr"; "testinfo"].

(** What a computation returns, whatever the state *)
Definition returns {S A} (P : A -> Prop) (m : SE S A) : Prop :=
  forall s s' a, m s = (s', Ok a) -> P a.

(** The status facet is renamed in an aggregation map. *)
Definition status_renamed (ring_data : dict) : Prop :=
  dict_has "jobstatus" ring_data = false /\ dict_has "stage_status" ring_data = true.

(** The keys [_get_date_filters] writes in [final_dict] *)
Definition date_keys : list string := ["filter"; "from_date"; "to_date"].

(** The lists of the payload *)
Definition list_keys : list string :=
  ["testinfo"; "testattr"; "cirrus_attributes_col"; "job_attributes_col";
   "testcase_attributes_col"].

(** The view identity of a request, when it names a folder, is a folder
    string and a view-name string. *)
Definition view_identity_ok (d : dict) : Prop :=
  dict_has "folders" d = true ->
  exists folders view_name,
    dict_get "folders" d = Some (VStr folders) /\
    dict_get "view_name" d = Some (VStr view_name).

(** The names that the row loop adds when it copies a given field *)
Definition derived_of (field : pykey) : list pykey :=
  if pykey_eqb field "stage" then [KStr "stage_stdout"]
  else if pykey_eqb field "log_uri" then [KStr "log_name"]
  else if pykey_eqb field "status" then [KStr "job"; KStr "stage_status"]
  else if pykey_eqb field "type" then [KStr "test_type"]
  else [].

Definition derived_fields : list pykey :=
  [KStr "stage_stdout"; KStr "log_name"; KStr "job"; KStr "stage_status";
   KStr "test_type"].







(** ** Concrete inputs *)

Definition reporting (root : string) : TestcaseReporting :=
  {| index := "cirrus"; doc_type := "testinfo"; test_results_folder := root |}.

Definition store : TestcaseReporting := reporting "/srv/views".

(** A filesystem where only the store root exists *)
Definition fs_empty_store : filesystem :=
  {| nodes := <[ ["srv"; "views"] := Dir ]> (<[ ["srv"] := Dir ]> ∅); cwd := [] |}.

Definition view_f_v : dict :=
  [(KStr "folder", VStr "f"); (KStr "view", VStr "v"); (KStr "filters", VDict [])].

(** The store after [create(view_f_v)] *)
Definition fs_with_view : filesystem :=
  fst (create_test_results_view store view_f_v VNone fs_empty_store).

(** A store with a view [a.json], a folder [a] and a folder [b] *)
Definition fs_a_b : filesystem :=
  {| nodes :=
       <[ ["srv"; "views"; "a.json"] := File (JsonText (VDict []) 4) ]>
       (<[ ["srv"; "views"; "a"] := Dir ]>
       (<[ ["srv"; "views"; "b"] := Dir ]> (nodes fs_empty_store)));
     cwd := [] |}.

Definition hit_l2add : pyval :=
  VDict [(KStr "_source",
          VDict [(KStr "type", VStr "L2ADD"); (KStr "status", VStr "passed");
                 (KStr "jobdate", VStr "2021-01-01")])].


Definition aggregations_passed : pyval :=
  VDict [(KStr "aggregations",
          VDict [(KStr "jobstatus",
                  VDict [(KStr "buckets",
                          VList [VDict [(KStr "key", VStr "Passed");
                                        (KStr "doc_count", VInt 1)]])])])].

(** An index that holds the one record of the end-to-end example; the
    clock reads 2021-01-31. *)
Definition world_one_record : world :=
  {| request_json := VNone;
     today := 737821;
     get_mapping := Ok (VDict []);
     search_index := fun _ => Ok (Scroll [VList [hit_l2add]] None);
     search := fun _ => Ok aggregations_passed |}.


Definition request_all : pyval := VDict [(KStr "filter", VStr "all")].

Definition request_create_mode : pyval :=
  VDict [(KStr "create_mode", VBool true); (KStr "folders", VStr "f");
         (KStr "view_name", VStr "v")].

(** ** The rest of the view store *)

(** [json.load] of what [json.dump] wrote.  JSON object keys are
    strings: a key that is not a string comes back as the text
    [json.dump] wrote for it.  (A boolean key, which the model does not
    tell from 0 or 1, cannot occur in a payload that was itself decoded
    from JSON.) *)
Definition json_key (k : pykey) : pykey :=
  match k with
  | KStr s => KStr s
  | KInt z => KStr (str_of_Z z)
  | KNone => KStr "null"
  end.

Fixpoint json_decoded (v : pyval) : pyval :=
  match v with
  | VList l => VList (map json_decoded l)
  | VDict d =>
      VDict
        ((fix go (d : dict) (acc : dict) : dict :=
            match d with
            | [] => acc
            | (k, x) :: d' => go d' (dict_set (json_key k) (json_decoded x) acc)
            end) d [])
  | _ => v
  end.

(** Every key, at any depth, is a string and occurs once: the shape of
    a decoded JSON document. *)
Fixpoint json_shaped (v : pyval) : bool :=
  match v with
  | VList l => forallb json_shaped l
  | VDict d =>
      (fix go (d : dict) : bool :=
         match d with
         | [] => true
         | (k, x) :: d' =>
             match k with KStr _ => true | _ => false end
             && negb (dict_has k d') && json_shaped x && go d'
         end) d
  | _ => true
  end.

(** Why the lookup of a path that names nothing fails: a file on the
    way is not a directory; anything else that is missing does not
    exist. *)
Fixpoint walk_error (fs : filesystem) (cur : list string) (comps : list string) : string :=
  match comps with
  | [] => "No such file or directory"
  | c :: rest =>
      match node_at fs cur with
      | Some Dir =>
          if String.eqb c "" || String.eqb c "." then walk_error fs cur rest
          else if String.eqb c ".." then walk_error fs (removelast cur) rest
          else walk_error fs (cur ++ [c]) rest
      | Some (File _) => "Not a directory"
      | None => "No such file or directory"
      end
  end.

Definition lookup_error (fs : filesystem) (path : string) : string :=
  if String.eqb path "" then "No such file or directory"
  else walk_error fs (start_of fs path) (py_split "/" path).

(** [open(path)] for reading *)
Definition open_read (fs : filesystem) (path : string) : result file_content :=
  match stat fs path with
  | Some (File c) => Ok c
  | Some Dir => Err (IOError "Is a directory")
  | None => Err (IOError (lookup_error fs path))
  end.

(** [view += ".json"] *)
Definition iadd_str (v : pyval) (suffix : string) : result pyval :=
  match v with
  | VStr s => Ok (VStr (s +:+ suffix))
  | VList l =>
      Ok (VList (l ++ map (fun c => VStr (String c "")) (list_ascii_of_string suffix)))
  | _ => Err (TypeError "unsupported operand type(s) for +=")
  end.

Definition folder_type_message (view : string) : string :=
  "Provided view " +:+ view +:+ " is not present or it is a folder type".

(** Lines 381-399.  A path that does not exist takes the [else] branch
    and is opened. *)
Definition read_view_data (self : TestcaseReporting) (fs : filesystem)
  (view raise_except : pyval) : result pyval :=
  let data := VDict [] in
  '(view, path) ←
    (if truthy view then
       view ← iadd_str view ".json";
       path ← py_path_join (VStr (test_results_folder self)) view;
       Ok (view, path)
     else Err (Exception_ "No view name provided to fetch data from"));
  if path_exists fs path && negb (path_isfile fs path) then
    if truthy raise_except
    then Err (Exception_ (folder_type_message (py_str view)))
    else Ok data
  else
    fobj ← open_read fs path;
    Ok (json_decoded (json_value fobj)).

(** [os.remove(path)] *)
Definition os_remove (fs : filesystem) (path : string) : result filesystem :=
  match resolve fs path with
  | Some loc =>
      match loc, nodes fs !! loc with
      | _ :: _, Some (File _) => Ok (with_nodes fs (delete loc (nodes fs)))
      | _ :: _, None => Err (OSError "No such file or directory")
      | _, _ => Err (OSError "Is a directory")
      end
  | None => Err (OSError (lookup_error fs path))
  end.

(** What is left when the tree at [loc] goes, and when only what is
    below [loc] goes *)
Definition remove_tree (m : gmap (list string) node) (loc : list string)
  : gmap (list string) node :=
  filter (fun kv => strip_prefix loc (fst kv) = None) m.

Definition remove_below (m : gmap (list string) node) (loc : list string)
  : gmap (list string) node :=
  filter (fun kv => strip_prefix loc (fst kv) = None \/ fst kv = loc) m.

Fixpoint drop_empty (comps : list string) : list string :=
  match comps with
  | c :: rest => if String.eqb c "" then drop_empty rest else comps
  | [] => []
  end.

(** The components of a path without the empty ones that trailing
    slashes leave at the end *)
Definition drop_empty_end (comps : list string) : list string :=
  List.rev (drop_empty (List.rev comps)).

Definition last_component (path : string) : string :=
  List.last (drop_empty_end (py_split "/" path)) "".

(** [shutil.rmtree(path)]: listing something that is not a directory
    raises and nothing is removed.  Otherwise the entries are removed
    and [os.rmdir(path)] comes last.  It returns unless the path names
    the filesystem root or ends in "." or "..": then the call raises
    [OSError] once entries are gone.  The error number differs between
    these cases (EINVAL for "."), and for ".." the entries that are gone
    by then depend on the order of the listing; the model gives one
    message and removes them all.  The properties below are about the
    calls that return and about paths that do not exist. *)
Definition rmtree (path : string) : SE filesystem unit := fun fs =>
  match resolve fs path with
  | Some loc =>
      match node_at fs loc with
      | Some Dir =>
          let name := last_component path in
          if match loc with [] => true | _ => false end
             || String.eqb name "." || String.eqb name ".."
          then (with_nodes fs (remove_below (nodes fs) loc),
                Err (OSError "Invalid argument"))
          else (with_nodes fs (remove_tree (nodes fs) loc), Ok tt)
      | Some (File _) => (fs, Err (OSError "Not a directory"))
      | None => (fs, Err (OSError "No such file or directory"))
      end
  | None => (fs, Err (OSError (lookup_error fs path)))
  end.

(** Lines 422-430 *)
Definition delete_test_results_view (self : TestcaseReporting) (path : string)
  : SE filesystem unit :=
  let path := path_join (test_results_folder self) path in
  fs ← get_state;
  if path_isfile fs path
  then effect (fun fs => os_remove fs path)
  else rmtree path.

(** [os.mkdir(path)]: the directory part must exist, the name must be
    free. *)
Definition os_mkdir (fs : filesystem) (path : string) : result filesystem :=
  if String.eqb path "" then Err (OSError "No such file or directory")
  else
    match drop_empty_end (py_split "/" path) with
    | [] => Err (OSError "File exists")
    | comps =>
        let '(dirs, name) := split_last comps in
        match walk fs (start_of fs path) dirs with
        | Some loc =>
            if negb (dir_at fs loc) then Err (OSError (lookup_error fs path))
            else if is_special name then Err (OSError "File exists")
            else
              match node_at fs (loc ++ [name]) with
              | None => Ok (with_nodes fs (<[(loc ++ [name])%list := Dir]> (nodes fs)))
              | Some _ => Err (OSError "File exists")
              end
        | None => Err (OSError (lookup_error fs path))
        end
    end.

(** Lines 312-317: whatever [os.mkdir] raises is caught and logged. *)
Definition _create_base_filter_folder (self : TestcaseReporting) : SE filesystem unit :=
  fun fs =>
    if negb (path_exists fs (test_results_folder self)) then
      match os_mkdir fs (test_results_folder self) with
      | Ok fs' => (fs', Ok tt)
      | Err _ => (fs, Ok tt)
      end
    else (fs, Ok tt).

(** Every node lies in a directory: the shape of a real filesystem. *)
Definition tree_shaped (fs : filesystem) : bool :=
  forallb (fun kv => dir_at fs (removelast (fst kv))) (map_to_list (nodes fs)).

(** The hits of all the pages of a scroll, in the order of the loop *)
Fixpoint all_hits (test_info_data : list pyval) : result (list pyval) :=
  match test_info_data with
  | [] => Ok []
  | test_info :: rest =>
      hits ← py_iter test_info; more ← all_hits rest; Ok (hits ++ more)%list
  end.

(** [row] is the row that the record [hit] gives. *)
Definition shaped (default_row_data : dict) (hit row : pyval) : Prop :=
  exists r, shape_row default_row_data hit = Ok r /\ row = VDict r.

(** The column lists of a finished report: the catalog with "status",
    "type" and "stage" renamed, and the catalog without "log_uri" and
    with "status" renamed. *)
Definition cirrus_columns : list pykey :=
  map KStr
    ["job"; "job_id"; "testcase_name"; "stage_status"; "test_type"; "jobdate";
     "executiontime"; "log_uri"; "stage_stdout"; "sut"; "sut_wwid"; "log"; "os"; "model";
     "hardware"; "team"; "spp_detail"; "spp_status"].

Definition testattr_columns : list pykey :=
  map KStr
    ["job"; "job_id"; "testcase_name"; "stage_status"; "type"; "jobdate";
     "executiontime"; "stage"; "sut"; "sut_wwid"; "log"; "os"; "model";
     "hardware"; "team"; "spp_detail"; "spp_status"].

(** Lines 233-250 on their own: the job-attribute and the
    customer-attribute names that the mapping answer adds to the
    catalog. *)
Definition attribute_names (self : TestcaseReporting) (w : world)
  : result (list pykey * list pykey) :=
  cirrus_map_data ← get_mapping w;
  present ← py_get cirrus_map_data "cirrus" VNone;
  '(job_attrs, cust_attrs) ←
    (if truthy present then
       by_index ← py_getitem cirrus_map_data (index self);
       mappings ← py_getitem by_index "mappings";
       by_type ← py_getitem mappings (doc_type self);
       properties ← py_get by_type "properties" (VDict []);
       job_attrs ← py_get properties "job_attrs" VNone;
       by_index ← py_getitem cirrus_map_data (index self);
       mappings ← py_getitem by_index "mappings";
       by_type ← py_getitem mappings (doc_type self);
       properties ← py_get by_type "properties" (VDict []);
       cust_attrs ← py_get properties "cust_attrs" VNone;
       Ok (job_attrs, cust_attrs)
     else Ok (VDict [], VDict []));
  job_keys ← (if truthy job_attrs then attribute_fields job_attrs "job_attrs_kv"
              else Ok []);
  cust_keys ← (if truthy cust_attrs then attribute_fields cust_attrs "cust_attrs_kv"
               else Ok []);
  Ok (job_keys, cust_keys).

(** [props] is what the mapping answer [cm] holds as
    [cm[index]['mappings'][doc_type].get('properties', {})]. *)
Definition mapped_properties (self : TestcaseReporting) (cm props : dict) : Prop :=
  exists by_index mappings by_type,
    dict_get (index self) cm = Some (VDict by_index) /\
    dict_get "mappings" by_index = Some (VDict mappings) /\
    dict_get (doc_type self) mappings = Some (VDict by_type) /\
    dict_get_default "properties" (VDict []) by_type = VDict props.

(** [names] are the field names of the namespace [ns] in [props]: none
    when the namespace is missing or empty, else the keys of its
    "properties" other than the raw key-value sub-field [kv]. *)
Definition namespace_names (props : dict) (ns kv : string) (names : list pykey) : Prop :=
  (truthy (dict_get_default ns VNone props) = false /\ names = []) \/
  (exists attrs fields,
     dict_get ns props = Some (VDict attrs) /\ attrs <> [] /\
     dict_get "properties" attrs = Some (VDict fields) /\
     names = List.filter (fun k => negb (pykey_eqb k kv)) (dict_keys fields)).

(** The rows of the hits of one page up to the first hit that cannot be
    shaped, and whether every hit was shaped *)
Fixpoint rows_of_page (default_row_data : dict) (hits : list pyval)
  : list pyval * bool :=
  match hits with
  | [] => ([], true)
  | hit :: rest =>
      match shape_row default_row_data hit with
      | Ok row =>
          let '(rows, complete) := rows_of_page default_row_data rest in
          (VDict row :: rows, complete)
      | Err _ => ([], false)
      end
  end.

(** The same over the pages of a scroll: the rows up to the first page
    that cannot be iterated or the first hit that cannot be shaped *)
Fixpoint rows_until_failure (default_row_data : dict) (test_info_data : list pyval)
  : list pyval * bool :=
  match test_info_data with
  | [] => ([], true)
  | test_info :: rest =>
      match py_iter test_info with
      | Ok hits =>
          let '(rows, complete) := rows_of_page default_row_data hits in
          if complete then
            let '(more, complete) := rows_until_failure default_row_data rest in
            ((rows ++ more)%list, complete)
          else (rows, false)
      | Err _ => ([], false)
      end
  end.

(** [query["query"]["bool"]] *)
Definition bool_clause (query : pyval) : option dict :=
  match query with
  | VDict q =>
      match dict_get "query" q with
      | Some (VDict inner) =>
          match dict_get "bool" inner with
          | Some (VDict clause) => Some clause
          | _ => None
          end
      | _ => None
      end
  | _ => None
  end.

(** The clause that asks for one type: [{"match": {"type": type}}] *)
Definition type_match (type : pyval) : pyval :=
  VDict [(KStr "match", VDict [(KStr "type", type)])].

(** [query["aggs"][facet]["terms"]["field"]] *)
Definition facet_field (facet : string) (query : pyval) : option pyval :=
  match query with
  | VDict q =>
      match dict_get "aggs" q with
      | Some (VDict aggs) =>
          match dict_get facet aggs with
          | Some (VDict agg) =>
              match dict_get "terms" agg with
              | Some (VDict terms) => dict_get "field" terms
              | _ => None
              end
          | _ => None
          end
      | _ => None
      end
  | _ => None
  end.

(** A mapping answer with two job attributes and the raw sub-field, and
    no customer attributes *)
Definition mapping_two_attributes : pyval :=
  VDict [(KStr "cirrus",
          VDict [(KStr "mappings",
                  VDict [(KStr "testinfo",
                          VDict [(KStr "properties",
                                  VDict [(KStr "job_attrs",
                                          VDict [(KStr "properties",
                                                  VDict [(KStr "major", VDict []);
                                                         (KStr "job_attrs_kv", VDict []);
                                                         (KStr "minor", VDict [])])])])])])])].

Definition world_two_attributes : world :=
  {| request_json := VNone;
     today := 737821;
     get_mapping := Ok mapping_two_attributes;
     search_index := fun _ => Ok (Scroll [VList [hit_l2add]] None);
     search := fun _ => Ok aggregations_passed |}.

(** A scroll whose second hit has no "_source" *)
Definition world_broken_hit : world :=
  {| request_json := VNone;
     today := 737821;
     get_mapping := Ok (VDict []);
     search_index := fun _ => Ok (Scroll [VList [hit_l2add; VDict []; hit_l2add]] None);
     search := fun _ => Ok aggregations_passed |}.

(** The count that the buckets of a facet give for a bucket key: that
    of the last bucket with this key. *)
Fixpoint last_count (k : pykey) (docs : list pyval) : option pyval :=
  match docs with
  | [] => None
  | doc :: rest =>
      match last_count k rest with
      | Some c => Some c
      | None =>
          match py_getitem doc "key", py_getitem doc "doc_count" with
          | Ok key, Ok count =>
              match key_of_val key with
              | Ok k' => if pykey_eqb k' k then Some count else None
              | Err _ => None
              end
          | _, _ => None
          end
      end
  end.

(** * Properties *)

(** ** Dictionaries *)

Lemma pykey_eqb_eq (a b : pykey) : pykey_eqb a b = true <-> a = b.
Proof.
  destruct a, b; simpl; split; intros H; try discriminate; try reflexivity.
  - apply Z.eqb_eq in H. congruence.
  - inversion H. apply Z.eqb_refl.
  - apply String.eqb_eq in H. congruence.
  - inversion H. apply String.eqb_refl.
Qed.

Lemma pykey_eqb_refl (a : pykey) : pykey_eqb a a = true.
Proof. apply pykey_eqb_eq. reflexivity. Qed.

Lemma pykey_eqb_neq (a b : pykey) : pykey_eqb a b = false <-> a <> b.
Proof.
  split.
  - intros H E. apply pykey_eqb_eq in E. congruence.
  - intros H. destruct (pykey_eqb a b) eqn:E; [| reflexivity].
    apply pykey_eqb_eq in E. contradiction.
Qed.

Lemma pykey_eqb_sym (a b : pykey) : pykey_eqb a b = pykey_eqb b a.
Proof.
  destruct (pykey_eqb a b) eqn:E.
  - apply pykey_eqb_eq in E. subst. symmetry. apply pykey_eqb_refl.
  - apply pykey_eqb_neq in E. symmetry. apply pykey_eqb_neq. congruence.
Qed.

Lemma dict_get_set_eq (k : pykey) (v : pyval) (d : dict) :
  dict_get k (dict_set k v d) = Some v.
Proof.
  induction d as [| [k' v'] d IH]; simpl.
  - now rewrite pykey_eqb_refl.
  - destruct (pykey_eqb k' k) eqn:E; simpl; rewrite E; auto.
Qed.

Lemma dict_get_set_ne (k k' : pykey) (v : pyval) (d : dict) :
  k <> k' -> dict_get k' (dict_set k v d) = dict_get k' d.
Proof.
  intros Hne. induction d as [| [k0 v0] d IH]; simpl.
  - apply pykey_eqb_neq in Hne. now rewrite Hne.
  - destruct (pykey_eqb k0 k) eqn:E; simpl.
    + apply pykey_eqb_eq in E. subst k0.
      apply pykey_eqb_neq in Hne. now rewrite Hne.
    + now rewrite IH.
Qed.

Lemma dict_get_set (k k' : pykey) (v : pyval) (d : dict) :
  dict_get k' (dict_set k v d) = if pykey_eqb k k' then Some v else dict_get k' d.
Proof.
  destruct (pykey_eqb k k') eqn:E.
  - apply pykey_eqb_eq in E. subst. apply dict_get_set_eq.
  - apply pykey_eqb_neq in E. now apply dict_get_set_ne.
Qed.

Lemma dict_get_del_eq (k : pykey) (d : dict) : dict_get k (dict_del k d) = None.
Proof.
  induction d as [| [k' v'] d IH]; simpl; [reflexivity |].
  destruct (pykey_eqb k' k) eqn:E; simpl; [assumption |]. now rewrite E.
Qed.

Lemma dict_get_del_ne (k k' : pykey) (d : dict) :
  k <> k' -> dict_get k' (dict_del k d) = dict_get k' d.
Proof.
  intros Hne. induction d as [| [k0 v0] d IH]; simpl; [reflexivity |].
  destruct (pykey_eqb k0 k) eqn:E; simpl.
  - apply pykey_eqb_eq in E. subst k0.
    apply pykey_eqb_neq in Hne. now rewrite Hne.
  - now rewrite IH.
Qed.

Lemma dict_has_set (k k' : pykey) (v : pyval) (d : dict) :
  dict_has k' (dict_set k v d) = pykey_eqb k k' || dict_has k' d.
Proof.
  unfold dict_has. rewrite dict_get_set. now destruct (pykey_eqb k k').
Qed.

Lemma dict_has_set_mono (k k' : pykey) (v : pyval) (d : dict) :
  dict_has k' d = true -> dict_has k' (dict_set k v d) = true.
Proof. intros H. rewrite dict_has_set, H. apply orb_true_r. Qed.

Lemma dict_has_del_eq (k : pykey) (d : dict) : dict_has k (dict_del k d) = false.
Proof. unfold dict_has. now rewrite dict_get_del_eq. Qed.

Lemma dict_has_In (k : pykey) (d : dict) :
  dict_has k d = true <-> In k (dict_keys d).
Proof.
  unfold dict_has. induction d as [| [k' v'] d IH]; simpl.
  - split; [discriminate | tauto].
  - destruct (pykey_eqb k' k) eqn:E.
    + apply pykey_eqb_eq in E. subst. split; auto.
    + apply pykey_eqb_neq in E. rewrite IH. split; [auto | intros [H | H]; congruence].
Qed.

Lemma dict_get_update_None (k : pykey) (d other : dict) :
  dict_get k other = None -> dict_get k (dict_update d other) = dict_get k d.
Proof.
  unfold dict_update. revert d.
  induction other as [| [k' v'] other IH]; intros d H; simpl in *; [reflexivity |].
  destruct (pykey_eqb k' k) eqn:E; [discriminate |].
  rewrite IH by assumption. apply dict_get_set_ne. now apply pykey_eqb_neq.
Qed.

Lemma dict_has_update_mono (k : pykey) (d other : dict) :
  dict_has k d = true -> dict_has k (dict_update d other) = true.
Proof.
  unfold dict_update. revert d.
  induction other as [| [k' v'] other IH]; intros d H; simpl; [assumption |].
  apply IH. now apply dict_has_set_mono.
Qed.


(** ** Strings *)

Lemma append_empty_l (s : string) : "" +:+ s = s.
Proof. reflexivity. Qed.

Lemma append_cons (c : ascii) (a b : string) : String c a +:+ b = String c (a +:+ b).
Proof. reflexivity. Qed.

Lemma append_empty_r (s : string) : s +:+ "" = s.
Proof. induction s as [| c s IH]; [reflexivity |]. rewrite append_cons. congruence. Qed.

Lemma append_assoc (a b c : string) : (a +:+ b) +:+ c = a +:+ (b +:+ c).
Proof. induction a as [| x a IH]; [reflexivity |]. rewrite !append_cons. congruence. Qed.

Lemma prefix_app (p r : string) : String.prefix p (p +:+ r) = true.
Proof.
  induction p as [| c p IH].
  - rewrite append_empty_l. now destruct r.
  - rewrite append_cons. simpl. destruct (ascii_dec c c); [assumption | contradiction].
Qed.

Lemma prefix_split (p s : string) :
  String.prefix p s = true -> exists r, s = p +:+ r.
Proof.
  revert s. induction p as [| c p IH]; intros s H.
  - exists s. reflexivity.
  - destruct s as [| c' s]; simpl in H; [discriminate |].
    destruct (ascii_dec c c'); [| discriminate].
    subst c'. destruct (IH s H) as [r ->]. exists r. reflexivity.
Qed.

Lemma contains_here (p s : string) : String.prefix p s = true -> contains p s = true.
Proof. intros H. destruct s; simpl in *; rewrite H; reflexivity. Qed.

Lemma contains_later (p : string) (c : ascii) (s : string) :
  contains p s = true -> contains p (String c s) = true.
Proof. intros H. simpl contains. rewrite H. apply orb_true_r. Qed.

Lemma contains_app (a p b : string) : contains p (a +:+ p +:+ b) = true.
Proof.
  induction a as [| c a IH].
  - rewrite append_empty_l. apply contains_here. apply prefix_app.
  - rewrite append_cons. apply (contains_later p c). exact IH.
Qed.

Lemma contains_app_r (a b p : string) : contains p b = true -> contains p (a +:+ b) = true.
Proof.
  intros H. induction a as [| c a IH]; [exact H |].
  rewrite append_cons. apply (contains_later p c). exact IH.
Qed.

Lemma str_join_names (sep k : string) (l : list string) :
  In k l -> names (str_join sep l) k = true.
Proof.
  unfold names. induction l as [| x l IH]; intros H; [contradiction |].
  destruct H as [-> | H].
  - destruct l as [| y l]; simpl.
    + apply contains_here. rewrite <- (append_empty_r k) at 2. apply prefix_app.
    + apply contains_here. apply prefix_app.
  - destruct l as [| y l]; [contradiction |].
    change (str_join sep (x :: y :: l)) with (x +:+ sep +:+ str_join sep (y :: l)).
    apply contains_app_r. apply contains_app_r. apply IH. exact H.
Qed.

Example split_on_ci : py_split "_ci" "deploy_ci_stage_ci" = ["deploy"; "_stage"; ""].
Proof. reflexivity. Qed.

Example split_on_slash :
  py_split "/" "http://h/logs/run.txt" = ["http:"; ""; "h"; "logs"; "run.txt"].
Proof. reflexivity. Qed.

(** [strip(".json")] removes characters, not a suffix. *)
Example strip_json_overtrims : strip_chars ".json" "jason.json" = "a".
Proof. reflexivity. Qed.

Example capitalize_lowers_the_rest : capitalize "pASSED" = "Passed".
Proof. reflexivity. Qed.

Example int_of_padded_string : int_of_str " -42 " = Ok (-42).
Proof. reflexivity. Qed.

(** White space after the sign is passed over; a sign alone, a second
    sign or a gap between the digits is refused. *)
Example int_of_spaced_sign :
  int_of_str "- 5" = Ok (-5) /\ int_of_str " + 7 " = Ok 7 /\
  int_of_str "-" = Err (ValueError "invalid literal for int() with base 10") /\
  int_of_str "- " = Err (ValueError "invalid literal for int() with base 10") /\
  int_of_str "+-5" = Err (ValueError "invalid literal for int() with base 10") /\
  int_of_str "4 2" = Err (ValueError "invalid literal for int() with base 10").
Proof. repeat split. Qed.

Example ordinal_of_2021_01_01 : strftime_ymd 737791 = Ok "2021-01-01".
Proof. reflexivity. Qed.

Example ordinal_before_1900 : strftime_ymd 693595 = Err (ValueError "year is before 1900").
Proof. reflexivity. Qed.

Example join_examples :
  path_join "/srv/views" "f" = "/srv/views/f" /\
  path_join "/srv/views/" "f" = "/srv/views/f" /\
  path_join "/srv/views" "/etc" = "/etc" /\
  path_join "/srv/views" "" = "/srv/views/".
Proof. repeat split. Qed.

(** ** Validation of a save payload *)

Lemma dedup_keys_In (k : pykey) (l : list pykey) : In k (dedup_keys l) <-> In k l.
Proof.
  induction l as [| x l IH]; simpl; [tauto |].
  destruct (existsb (pykey_eqb x) l) eqn:E.
  - rewrite IH. split; [auto |]. intros [-> | H]; [| assumption].
    apply existsb_exists in E. destruct E as (y & Hy & Exy).
    apply pykey_eqb_eq in Exy. now subst.
  - simpl. rewrite IH. tauto.
Qed.

Lemma keys_diff_In (k : pykey) (a b : dict) :
  In k (keys_diff a b) <-> In k (dict_keys a) /\ dict_has k b = false.
Proof.
  unfold keys_diff. rewrite <- list_elem_of_In, list_elem_of_filter.
  rewrite list_elem_of_In, dedup_keys_In. tauto.
Qed.

Lemma str_items_strings (l : list pykey) :
  (forall k, In k l -> exists s, k = KStr s) ->
  exists items, str_items l = Ok items /\ forall s, In (KStr s) l <-> In s items.
Proof.
  induction l as [| k l IH]; intros H.
  - exists []. simpl. split; [reflexivity | tauto].
  - destruct (H k (or_introl eq_refl)) as [s ->].
    destruct IH as (items & E & Hin). { intros k Hk. apply H. now right. }
    exists (s :: items). simpl. rewrite E. simpl. split; [reflexivity |].
    intros t. rewrite <- Hin. split; intros [E' | E']; auto; left; congruence.
Qed.

Lemma structure_keys (k : pykey) :
  In k (dict_keys save_view_structure) -> exists s, k = KStr s.
Proof. simpl. intros [<- | [<- | [<- | []]]]; eauto. Qed.

Lemma keys_diff_nil (a b : dict) :
  keys_diff a b = [] <-> forall k, dict_has k a = true -> dict_has k b = true.
Proof.
  split.
  - intros E k Hk. destruct (dict_has k b) eqn:Hb; [reflexivity |].
    assert (Hin : In k (keys_diff a b)).
    { apply keys_diff_In. split; [now apply dict_has_In | assumption]. }
    rewrite E in Hin. contradiction.
  - intros H. destruct (keys_diff a b) as [| k l] eqn:E; [reflexivity |].
    assert (Hin : In k (keys_diff a b)) by (rewrite E; now left).
    apply keys_diff_In in Hin. destruct Hin as [Hin Hb].
    apply dict_has_In in Hin. apply H in Hin. congruence.
Qed.

Lemma exact_keys_diff (data : dict) :
  exact_keys data <->
  keys_diff save_view_structure data = [] /\ keys_diff data save_view_structure = [].
Proof.
  rewrite !keys_diff_nil. unfold exact_keys. split.
  - intros H. split; intros k Hk; [rewrite H | rewrite <- H]; assumption.
  - intros [H1 H2] k.
    destruct (dict_has k data) eqn:Hd, (dict_has k save_view_structure) eqn:Hs;
      try reflexivity.
    + apply H2 in Hd. congruence.
    + apply H1 in Hs. congruence.
Qed.

Lemma validate_cases (data : dict) :
  string_keys data ->
  match keys_diff save_view_structure data, keys_diff data save_view_structure with
  | _ :: _, _ =>
      exists tail,
        _validate_save_view_data data = Err (Exception_ (missing_prefix +:+ tail)) /\
        forall k, missing_key data k -> names tail k = true
  | [], _ :: _ =>
      exists tail,
        _validate_save_view_data data = Err (Exception_ (unneeded_prefix +:+ tail)) /\
        forall k, extraneous_key data k -> names tail k = true
  | [], [] => _validate_save_view_data data = Ok tt
  end.
Proof.
  intros Hkeys. unfold _validate_save_view_data.
  destruct (keys_diff save_view_structure data) as [| m ms] eqn:Em.
  - destruct (keys_diff data save_view_structure) as [| u us] eqn:Eu; [reflexivity |].
    destruct (str_items_strings (u :: us)) as (items & E & Hin).
    { intros k Hk. rewrite <- Eu in Hk. apply keys_diff_In in Hk. apply Hkeys, Hk. }
    exists (str_join "," items). unfold join_keys. rewrite E. simpl. split; [reflexivity |].
    intros k [Hd Hs]. apply str_join_names. apply Hin. rewrite <- Eu.
    apply keys_diff_In. split; [now apply dict_has_In | assumption].
  - destruct (str_items_strings (m :: ms)) as (items & E & Hin).
    { intros k Hk. rewrite <- Em in Hk. apply keys_diff_In in Hk.
      apply structure_keys, Hk. }
    exists (str_join "," items). unfold join_keys. rewrite E. simpl. split; [reflexivity |].
    intros k [Hs Hd]. apply str_join_names. apply Hin. rewrite <- Em.
    apply keys_diff_In. split; [now apply dict_has_In | assumption].
Qed.

(** C8, as stated, fails: a payload that lacks "filters" and carries
    "extra" is refused with a message that names "filters" and does not
    name the extraneous key "extra". *)
Lemma validate_extra_key_not_named :
  let data := [(KStr "folder", VStr "f"); (KStr "view", VStr "v"); (KStr "extra", VInt 1)] in
  extraneous_key data "extra" /\
  exists msg,
    _validate_save_view_data data = Err (Exception_ msg) /\
    names msg "filters" = true /\ names msg "extra" = false.
Proof.
  split; [split; reflexivity |].
  eexists. split; [reflexivity |]. split; reflexivity.
Qed.

(** C8 (amended): for a payload whose keys are strings, validation
    succeeds exactly when the key set is {folder, view, filters};
    otherwise it raises the schema-mismatch exception, whose message
    names every missing key when some key is missing, and names every
    extraneous key when no key is missing. *)
Theorem validate_schema (data : dict) :
  string_keys data ->
  (_validate_save_view_data data = Ok tt <-> exact_keys data) /\
  (~ exact_keys data ->
   exists msg, _validate_save_view_data data = Err (Exception_ msg) /\
     ((exists k, missing_key data k) ->
      exists tail, msg = missing_prefix +:+ tail /\
        forall k, missing_key data k -> names tail k = true) /\
     ((forall k, ~ missing_key data k) ->
      exists tail, msg = unneeded_prefix +:+ tail /\
        forall k, extraneous_key data k -> names tail k = true)).
Proof.
  intros Hkeys. pose proof (validate_cases data Hkeys) as Hc.
  rewrite exact_keys_diff.
  destruct (keys_diff save_view_structure data) as [| m ms] eqn:Em.
  - destruct (keys_diff data save_view_structure) as [| u us] eqn:Eu.
    + split; [tauto |]. intros H. exfalso. apply H. split; reflexivity.
    + destruct Hc as (tail & E & Hn). split.
      * rewrite E. split; [discriminate | intros [_ H]; discriminate].
      * intros _. exists (unneeded_prefix +:+ tail). split; [exact E |]. split.
        -- intros [k [Hs Hd]]. exfalso.
           assert (Hin : In (KStr k) (keys_diff save_view_structure data)).
           { apply keys_diff_In. split; [now apply dict_has_In | assumption]. }
           rewrite Em in Hin. contradiction.
        -- intros _. exists tail. split; [reflexivity | exact Hn].
  - destruct Hc as (tail & E & Hn). split.
    + rewrite E. split; [discriminate | intros [H _]; discriminate].
    + intros _. exists (missing_prefix +:+ tail). split; [exact E |]. split.
      * intros _. exists tail. split; [reflexivity | exact Hn].
      * intros Hno. exfalso.
        assert (Hin : In m (keys_diff save_view_structure data)) by (rewrite Em; now left).
        apply keys_diff_In in Hin. destruct Hin as [Hin Hd].
        destruct (structure_keys m Hin) as [s ->].
        apply (Hno s). split; [now apply dict_has_In | assumption].
Qed.

Lemma string_keys_cons (s : string) (v : pyval) (d : dict) :
  string_keys d -> string_keys ((KStr s, v) :: d).
Proof. intros H k [<- | Hk]; [eauto | now apply H]. Qed.

Lemma string_keys_nil : string_keys [].
Proof. intros k []. Qed.

(** The theorem at the payload of the spec's second example: all three
    required keys and "extra". *)
Lemma validate_schema_witness :
  let data := [(KStr "folder", VStr "f"); (KStr "view", VStr "v");
               (KStr "filters", VDict []); (KStr "extra", VInt 1)] in
  string_keys data /\
  ((_validate_save_view_data data = Ok tt <-> exact_keys data) /\
   (~ exact_keys data ->
    exists msg, _validate_save_view_data data = Err (Exception_ msg) /\
      ((exists k, missing_key data k) ->
       exists tail, msg = missing_prefix +:+ tail /\
         forall k, missing_key data k -> names tail k = true) /\
      ((forall k, ~ missing_key data k) ->
       exists tail, msg = unneeded_prefix +:+ tail /\
         forall k, extraneous_key data k -> names tail k = true))).
Proof.
  intros data.
  assert (H : string_keys data) by (repeat apply string_keys_cons; apply string_keys_nil).
  split; [exact H | exact (validate_schema data H)].
Defined.

Example validate_missing_filters :
  _validate_save_view_data [(KStr "folder", VStr "f"); (KStr "view", VStr "v")]
  = Err (Exception_ "Data to save the view is missing following needed info:filters").
Proof. reflexivity. Qed.

Example validate_extra :
  _validate_save_view_data
    [(KStr "folder", VStr "f"); (KStr "view", VStr "v"); (KStr "filters", VDict []);
     (KStr "extra", VInt 1)]
  = Err (Exception_
           "Data to save the view is having following additional uneeded info: extra").
Proof. reflexivity. Qed.

(** ** Listing *)

Lemma walk_top_not_dir (fs : filesystem) (dir : string) :
  path_isdir fs dir = false -> walk_top fs dir = Err StopIteration.
Proof.
  unfold path_isdir, stat, walk_top, dir_at. intros H.
  destruct (resolve fs dir) as [loc |]; simpl in *; [| reflexivity].
  destruct (node_at fs loc) as [[c |] |]; try reflexivity. discriminate.
Qed.

Lemma walk_top_dir (fs : filesystem) (dir : string) :
  path_isdir fs dir = true ->
  exists dirnames filenames, walk_top fs dir = Ok (dir, dirnames, filenames).
Proof.
  unfold path_isdir, stat, walk_top, dir_at. intros H.
  destruct (resolve fs dir) as [loc |]; simpl in *; [| discriminate].
  destruct (node_at fs loc) as [[c |] |]; try discriminate. eauto.
Qed.

(** C10: when the path to list is not an existing directory,
    [get_available_views] raises [StopIteration] (the [next] of an
    [os.walk] that yields nothing) instead of returning empty lists;
    when it is one, the listing is returned. *)
Theorem listing_needs_directory (self : TestcaseReporting) (fs : filesystem)
  (path : pyval) (dir : string) :
  view_dir self path = Ok dir ->
  (path_isdir fs dir = false ->
   get_available_views self fs path = Err StopIteration) /\
  (path_isdir fs dir = true ->
   exists folders views,
     get_available_views self fs path
     = Ok [(KStr "views", VList views); (KStr "folders", VList folders)]).
Proof.
  intros Hdir. unfold get_available_views. rewrite Hdir. split; intros H.
  - simpl. unfold mbind, result_bind, rbind. now rewrite (walk_top_not_dir fs dir H).
  - destruct (walk_top_dir fs dir H) as (dirnames & filenames & E).
    simpl. unfold mbind, result_bind, rbind. rewrite E. simpl. eauto.
Qed.

(** The theorem at the folder "g", which the store does not have, and
    at the folder "f", which it has. *)
Lemma listing_needs_directory_witness :
  view_dir store (VStr "g") = Ok "/srv/views/g" /\
  path_isdir fs_with_view "/srv/views/g" = false /\
  get_available_views store fs_with_view (VStr "g") = Err StopIteration.
Proof.
  split; [reflexivity |]. split; [vm_compute; reflexivity |].
  apply (listing_needs_directory store fs_with_view (VStr "g") "/srv/views/g");
    [reflexivity | vm_compute; reflexivity].
Defined.

Example listing_of_folder_f :
  get_available_views store fs_with_view (VStr "f")
  = Ok [(KStr "views", VList [VStr "v"]); (KStr "folders", VList [])].
Proof. vm_compute. reflexivity. Qed.

Example listing_of_a_view_file :
  get_available_views store fs_with_view (VStr "f/v.json") = Err StopIteration.
Proof. vm_compute. reflexivity. Qed.

(** ** Moving *)

(** C9: [move_test_results_view] raises the destination-missing
    [IOError] when the destination does not exist; otherwise, when
    [source + ".json"] is a file, it moves that file, whether or not a
    folder of the same name exists; otherwise it raises the
    source-missing [IOError] when the source does not exist, and moves
    the source as it is when it does.  Nothing is changed when it
    raises one of the two errors, and a move that returns had an
    existing destination and an existing source. *)
Theorem move_guards (self : TestcaseReporting) (fs : filesystem) (src dest : string) :
  let full_src := path_join (test_results_folder self) src in
  let full_dest := path_join (test_results_folder self) dest in
  (path_exists fs full_dest = false ->
   move_test_results_view self src dest fs
   = (fs, Err (IOError ("Destination path " +:+ dest +:+ " does not exist")))) /\
  (path_exists fs full_dest = true ->
   path_isfile fs (full_src +:+ ".json") = true ->
   move_test_results_view self src dest fs
   = effect (fun fs => shutil_move fs (full_src +:+ ".json") full_dest) fs) /\
  (path_exists fs full_dest = true ->
   path_isfile fs (full_src +:+ ".json") = false ->
   path_exists fs full_src = false ->
   move_test_results_view self src dest fs
   = (fs, Err (IOError ("Source path " +:+ src +:+ " does not exist")))) /\
  (path_exists fs full_dest = true ->
   path_isfile fs (full_src +:+ ".json") = false ->
   path_exists fs full_src = true ->
   move_test_results_view self src dest fs
   = effect (fun fs => shutil_move fs full_src full_dest) fs) /\
  (forall fs', move_test_results_view self src dest fs = (fs', Ok tt) ->
   path_exists fs full_dest = true /\
   (path_isfile fs (full_src +:+ ".json") = true \/ path_exists fs full_src = true)).
Proof.
  intros full_src full_dest. unfold move_test_results_view.
  fold full_src. fold full_dest.
  unfold mbind, SE_bind, get_state, raise, pure. simpl.
  split; [| split; [| split; [| split]]].
  - intros H. now rewrite H.
  - intros H1 H2. now rewrite H1, H2.
  - intros H1 H2 H3. now rewrite H1, H2, H3.
  - intros H1 H2 H3. now rewrite H1, H2, H3.
  - intros fs'.
    destruct (path_exists fs full_dest); simpl; [| discriminate].
    destruct (path_isfile fs (full_src +:+ ".json")); simpl; [auto |].
    destruct (path_exists fs full_src); simpl; [auto | discriminate].
Qed.

(** The theorem in the store that has the view [a.json], the folder [a]
    and the folder [b]: moving "a" to "b" moves the view and leaves the
    folder where it is; moving "a" to "missing" raises. *)
Lemma move_guards_witness :
  (path_exists fs_a_b "/srv/views/b" = true /\
   path_isfile fs_a_b ("/srv/views/a" +:+ ".json") = true /\
   path_isdir fs_a_b "/srv/views/a" = true /\
   move_test_results_view store "a" "b" fs_a_b
   = effect (fun fs => shutil_move fs ("/srv/views/a" +:+ ".json") "/srv/views/b") fs_a_b) /\
  (path_exists fs_a_b "/srv/views/missing" = false /\
   move_test_results_view store "a" "missing" fs_a_b
   = (fs_a_b, Err (IOError "Destination path missing does not exist"))).
Proof.
  pose proof (move_guards store fs_a_b "a" "b") as (_ & Hfile & _).
  pose proof (move_guards store fs_a_b "a" "missing") as (Hdest & _).
  cbv zeta in Hfile, Hdest.
  split.
  - split; [vm_compute; reflexivity |]. split; [vm_compute; reflexivity |].
    split; [vm_compute; reflexivity |].
    apply Hfile; vm_compute; reflexivity.
  - split; [vm_compute; reflexivity |]. apply Hdest. vm_compute. reflexivity.
Defined.

Example move_a_to_b :
  let '(fs', r) := move_test_results_view store "a" "b" fs_a_b in
  r = Ok tt /\
  path_isfile fs' "/srv/views/b/a.json" = true /\
  path_exists fs' "/srv/views/a.json" = false /\
  path_isdir fs' "/srv/views/a" = true.
Proof. vm_compute. repeat split; reflexivity. Qed.

(** ** The duplicate check of a create-mode report request *)

Lemma listing_has_no_view_key (self : TestcaseReporting) (fs : filesystem)
  (path : pyval) (data : dict) :
  get_available_views self fs path = Ok data -> dict_get "view" data = None.
Proof.
  unfold get_available_views, mbind, result_bind, rbind.
  destruct (view_dir self path) as [dir | e]; [| discriminate].
  destruct (walk_top fs dir) as [[[top dirnames] filenames] | e]; [| discriminate].
  intros H. inversion H. reflexivity.
Qed.

(** [is_a_duplicate_view_available] never returns: it asks the listing
    for the key "view", and the listing has "views" and "folders". *)
Lemma duplicate_check_always_raises (self : TestcaseReporting) (fs : filesystem)
  (folders view_name : pyval) :
  exists e, is_a_duplicate_view_available self fs folders view_name = Err e /\
            forall msg, e <> Exception_ msg.
Proof.
  unfold is_a_duplicate_view_available, mbind, result_bind, rbind.
  destruct (py_path_join folders view_name) as [path | e] eqn:Ej.
  - destruct (get_available_views self fs (VStr path)) as [data | e] eqn:El.
    + unfold dict_getitem. rewrite (listing_has_no_view_key _ _ _ _ El).
      eexists. split; [reflexivity | discriminate].
    + exists e. split; [reflexivity |].
      unfold get_available_views, mbind, result_bind, rbind in El.
      destruct (view_dir self (VStr path)) as [dir | e'] eqn:Ed.
      * destruct (walk_top fs dir) as [[[top dirnames] filenames] | e''] eqn:Ew;
          [discriminate |].
        inversion El; subst. unfold walk_top in Ew.
        destruct (resolve fs dir); [destruct (dir_at fs l) |];
          inversion Ew; discriminate.
      * inversion El; subst. unfold view_dir, py_path_join in Ed.
        destruct (truthy (VStr path)); [| discriminate].
        destruct (startswith path "/"); discriminate.
  - exists e. split; [reflexivity |]. unfold py_path_join in Ej.
    destruct view_name; try (inversion Ej; discriminate).
    destruct (startswith s "/"); [discriminate |].
    destruct folders; inversion Ej; discriminate.
Qed.

(** X12: a create-mode report request is always answered with an
    exception, and never with the naming-conflict one, whatever the
    store holds and whatever the search service would answer. *)
Lemma create_mode_always_raises (self : TestcaseReporting) (w : world) (fs : filesystem)
  (data : pyval) (d : dict) :
  py_or data (request_json w) = VDict d ->
  dict_has "create_mode" d = true ->
  exists e, get_test_case_data self w fs data = Err e /\ forall msg, e <> Exception_ msg.
Proof.
  intros Hd Hc. unfold get_test_case_data. rewrite Hd. simpl.
  unfold mbind, result_bind, rbind.
  assert (H : exists e, check_view self fs d = Err e /\ forall msg, e <> Exception_ msg).
  { unfold check_view, mbind, result_bind, rbind. rewrite Hc.
    destruct (dict_has "folders" d) eqn:Hf; unfold dict_getitem; unfold dict_has in Hf.
    - destruct (dict_get "folders" d) as [folders |]; [| discriminate].
      destruct (dict_has "view_name" d).
      + destruct (py_path_join folders (dict_get_default "view_name" VNone d))
          as [joined | e] eqn:Ej.
        * destruct (duplicate_check_always_raises self fs folders (VStr joined))
            as (e & -> & Hne). eauto.
        * exists e. split; [reflexivity |]. unfold py_path_join in Ej.
          destruct (dict_get_default "view_name" VNone d);
            try (inversion Ej; discriminate).
          destruct (startswith s "/"); [discriminate |].
          destruct folders; inversion Ej; discriminate.
      + eexists. split; [reflexivity | discriminate].
    - destruct (dict_get "folders" d); [discriminate |].
      destruct (dict_has "view_name" d); eexists; (split; [reflexivity | discriminate]). }
  destruct H as (e & -> & Hne). eauto.
Qed.

(** C2 at the failing input: the store holds the view "v" in the folder
    "f", and a create-mode request for that folder and name arrives.
    The check lists the directory <root>/f/f/v, which does not exist,
    and the caller receives [StopIteration], not the naming conflict.
    The answer does not depend on the search service: no query runs. *)
Theorem create_mode_duplicate_not_reported (w : world) :
  path_isfile fs_with_view "/srv/views/f/v.json" = true /\
  get_test_case_data store w fs_with_view request_create_mode = Err StopIteration.
Proof. split; vm_compute; reflexivity. Qed.

(** Where the directory that the check lists exists, the exception is
    the [KeyError] of the wrong listing key. *)
Example create_mode_key_error (w : world) :
  let fs :=
    {| nodes := <[ ["srv"; "views"; "f"; "f"; "v"] := Dir ]>
                (<[ ["srv"; "views"; "f"; "f"] := Dir ]> (nodes fs_with_view));
       cwd := [] |} in
  get_test_case_data store w fs request_create_mode = Err (KeyError "view").
Proof. vm_compute. reflexivity. Qed.

(** ** Creating and updating a view *)

(** C7 at the failing input: the first [create] of the view "v" in the
    folder "f" makes the folder and writes the filters with indent 4;
    the second [create] finds the file and, instead of the
    duplicate-view [IOError], raises [NameError]: the message it formats
    reads the names [folders] and [view_name], which are not defined in
    [create_test_results_view].  [update] with the same payload
    succeeds. *)
Theorem second_create_raises_name_error :
  create_test_results_view store view_f_v VNone fs_empty_store
  = (fs_with_view, Ok view_f_v) /\
  path_isdir fs_with_view "/srv/views/f" = true /\
  stat fs_with_view "/srv/views/f/v.json" = Some (File (JsonText (VDict []) 4)) /\
  create_test_results_view store view_f_v VNone fs_with_view
  = (fs_with_view, Err (NameError "folders")) /\
  snd (update_test_results_view store view_f_v fs_with_view) = Ok view_f_v.
Proof. repeat split; vm_compute; reflexivity. Qed.

Example update_overwrites :
  let payload := [(KStr "folder", VStr "f"); (KStr "view", VStr "v");
                  (KStr "filters", VDict [(KStr "team", VStr "x")])] in
  let '(fs', r) := update_test_results_view store payload fs_with_view in
  r = Ok payload /\
  stat fs' "/srv/views/f/v.json"
  = Some (File (JsonText (VDict [(KStr "team", VStr "x")]) 4)).
Proof. vm_compute. split; reflexivity. Qed.

(** ** Query builder *)

Lemma range_clauses_list (l : list pyval) :
  range_clauses (VList l) = flat_map range_clauses l.
Proof. induction l as [| x l IH]; simpl in *; [reflexivity | now rewrite IH]. Qed.

Lemma range_clauses_dict (d : dict) :
  range_clauses (VDict d)
  = flat_map (fun kx => (if pykey_eqb (fst kx) "range" then [snd kx] else [])
                        ++ range_clauses (snd kx))%list d.
Proof.
  induction d as [| [k x] d IH]; simpl in *; [reflexivity |].
  rewrite IH. now rewrite <- app_assoc.
Qed.

Lemma range_clauses_key (k : pykey) : range_clauses (val_of_key k) = [].
Proof. now destruct k. Qed.

Lemma range_clauses_keys (l : list pykey) :
  flat_map range_clauses (map val_of_key l) = [].
Proof.
  induction l as [| k l IH]; simpl; [reflexivity |].
  now rewrite range_clauses_key, IH.
Qed.

Lemma range_clauses_bound (v : pyval) : is_bound v = true -> range_clauses v = [].
Proof. destruct v; simpl; intros H; try discriminate; reflexivity. Qed.

Lemma truthy_py_and (a b : pyval) : truthy (py_and a b) = truthy a && truthy b.
Proof. unfold py_and. destruct (truthy a) eqn:E; [reflexivity | exact E]. Qed.

Lemma range_clauses_includes (l : list pykey) :
  range_clauses (VList (map val_of_key l ++ [VStr "job_attrs"; VStr "cust_attrs"])) = [].
Proof.
  rewrite range_clauses_list, flat_map_app, range_clauses_keys. reflexivity.
Qed.

Ltac range_steps :=
  repeat (progress (rewrite ?range_clauses_dict, ?range_clauses_list;
                    cbn [flat_map fst snd pykey_eqb String.eqb Ascii.eqb Bool.eqb app])).

(** C6: for date bounds that are [None] or strings, the query has no
    range clause when a bound is absent ([None], or the empty string,
    which Python also takes as false), and exactly one range clause,
    [jobdate: gte = from_date, lte = to_date], when both are present;
    whatever the bounds, the projection excludes the two raw key-value
    sub-fields and includes the visible fields followed by the two
    attribute namespaces. *)
Theorem query_range_and_projection (from_date to_date : pyval)
  (fields_visible : list pykey) :
  is_bound from_date = true -> is_bound to_date = true ->
  let query := _form_query_dict from_date to_date fields_visible in
  (truthy from_date && truthy to_date = false -> range_clauses query = []) /\
  (from_date = VNone \/ to_date = VNone -> range_clauses query = []) /\
  (truthy from_date && truthy to_date = true ->
   range_clauses query = [jobdate_range from_date to_date]) /\
  projection "excludes" query
  = Some (VList [VStr "job_attrs.job_attrs_kv"; VStr "cust_attrs.cust_attrs_kv"]) /\
  projection "includes" query
  = Some (VList (map val_of_key fields_visible
                 ++ [VStr "job_attrs"; VStr "cust_attrs"])).
Proof.
  intros Hf Ht query.
  assert (Hnone : truthy from_date && truthy to_date = false -> range_clauses query = []).
  { intros E. unfold query, _form_query_dict. rewrite truthy_py_and, E.
    cbn [dict_set pykey_eqb String.eqb Ascii.eqb Bool.eqb].
    range_steps. rewrite flat_map_app, range_clauses_keys. reflexivity. }
  split; [exact Hnone |]. split.
  { intros [-> | ->]; apply Hnone; [reflexivity | apply andb_false_r]. }
  split.
  { intros E. unfold query, _form_query_dict. rewrite truthy_py_and, E.
    cbn [dict_set pykey_eqb String.eqb Ascii.eqb Bool.eqb].
    unfold range_filter. range_steps. rewrite flat_map_app, range_clauses_keys.
    rewrite (range_clauses_bound _ Hf), (range_clauses_bound _ Ht). reflexivity. }
  unfold query, _form_query_dict.
  destruct (truthy (py_and from_date to_date)); split; reflexivity.
Qed.

(** The theorem at the bounds of a "date" request and at the bounds of
    an "all" request. *)
Lemma query_range_and_projection_witness :
  range_clauses (_form_query_dict (VStr "2021-01-01") (VStr "2021-01-31") fields_visible0)
  = [jobdate_range (VStr "2021-01-01") (VStr "2021-01-31")] /\
  range_clauses (_form_query_dict VNone VNone fields_visible0) = [].
Proof.
  split.
  - exact (proj1 (proj2 (proj2
             (query_range_and_projection (VStr "2021-01-01") (VStr "2021-01-31")
                fields_visible0 eq_refl eq_refl))) eq_refl).
  - exact (proj1 (query_range_and_projection VNone VNone fields_visible0
                    eq_refl eq_refl) eq_refl).
Defined.

(** ** Splitting *)

Lemma split_go_first (sep : string) (s cur : string) :
  first_item (split_go sep O cur s) = Ok (cur +:+ before_first sep s).
Proof.
  revert cur. induction s as [| c s IH]; intros cur.
  - simpl. now rewrite append_empty_r.
  - cbn [split_go before_first]. destruct (String.prefix sep (String c s)).
    + simpl. now rewrite append_empty_r.
    + rewrite IH. rewrite append_assoc. reflexivity.
Qed.

Lemma first_of_split (sep s : string) :
  first_item (py_split sep s) = Ok (before_first sep s).
Proof. unfold py_split. now rewrite split_go_first. Qed.

Lemma contains_cons (sep : string) (c : ascii) (s : string) :
  contains sep (String c s) = String.prefix sep (String c s) || contains sep s.
Proof. reflexivity. Qed.

Lemma contains_false_cons (sep : string) (c : ascii) (s : string) :
  contains sep (String c s) = false ->
  String.prefix sep (String c s) = false /\ contains sep s = false.
Proof. rewrite contains_cons. intros H. now apply orb_false_elim in H. Qed.





Lemma last_item_cons (x y : string) (l : list string) :
  last_item (x :: y :: l) = last_item (y :: l).
Proof.
  unfold last_item. simpl. destruct (List.rev l ++ [y])%list eqn:E.
  - destruct (List.rev l); discriminate.
  - reflexivity.
Qed.

Lemma split_go_nonempty (sep : string) (s cur : string) (skip : nat) :
  exists x l, split_go sep skip cur s = x :: l.
Proof.
  revert cur skip. induction s as [| c s IH]; intros cur skip; [simpl; eauto |].
  cbn [split_go]. destruct skip; [| apply IH].
  destruct (String.prefix sep (String c s)); [eauto | apply IH].
Qed.

Lemma prefix_char (c0 c : ascii) (s : string) :
  String.prefix (String c0 "") (String c s) = Ascii.eqb c c0.
Proof.
  simpl. destruct (ascii_dec c0 c) as [-> | Hne].
  - rewrite Ascii.eqb_refl. now destruct s.
  - symmetry. apply Ascii.eqb_neq. congruence.
Qed.

Lemma split_go_last (c0 : ascii) (s cur : string) :
  last_item (split_go (String c0 "") O cur s)
  = Ok (match after_last c0 s with Some t => t | None => cur +:+ s end).
Proof.
  revert cur. induction s as [| c s IH]; intros cur.
  - simpl. now rewrite append_empty_r.
  - cbn [split_go after_last]. rewrite prefix_char. cbn [String.length Nat.pred].
    destruct (Ascii.eqb c c0) eqn:Ec.
    + destruct (split_go_nonempty (String c0 "") s "" O) as (x & l & E).
      rewrite E, last_item_cons, <- E, IH.
      destruct (after_last c0 s); reflexivity.
    + rewrite IH. destruct (after_last c0 s); [reflexivity |].
      now rewrite append_assoc.
Qed.

Lemma ascii_in_cons (c c' : ascii) (s : string) :
  ascii_in c (String c' s) = Ascii.eqb c c' || ascii_in c s.
Proof. reflexivity. Qed.

Lemma after_last_Some (c0 : ascii) (s t : string) :
  after_last c0 s = Some t -> exists q, s = q +:+ String c0 t /\ ascii_in c0 t = false.
Proof.
  revert t. induction s as [| c s IH]; intros t H; [discriminate |].
  cbn [after_last] in H. destruct (after_last c0 s) as [t' |] eqn:E.
  - inversion H; subst. destruct (IH t eq_refl) as (q & -> & Hn).
    exists (String c q). split; [reflexivity | exact Hn].
  - destruct (Ascii.eqb c c0) eqn:Ec; [| discriminate].
    inversion H; subst. apply Ascii.eqb_eq in Ec. subst c.
    exists "". split; [reflexivity |].
    clear IH H. induction t as [| c t IH]; [reflexivity |].
    cbn [after_last] in E. destruct (after_last c0 t); [discriminate |].
    destruct (Ascii.eqb c c0) eqn:Ec; [discriminate |].
    rewrite ascii_in_cons, Ascii.eqb_sym, Ec. simpl. now apply IH.
Qed.

Lemma after_last_None (c0 : ascii) (s : string) :
  after_last c0 s = None -> ascii_in c0 s = false.
Proof.
  induction s as [| c s IH]; intros H; [reflexivity |].
  cbn [after_last] in H. destruct (after_last c0 s); [discriminate |].
  destruct (Ascii.eqb c c0) eqn:Ec; [discriminate |].
  rewrite ascii_in_cons, Ascii.eqb_sym, Ec. simpl. now apply IH.
Qed.


(** ** Date range *)







Example date_filter_date :
  snd (_get_date_filters world_one_record
         [(KStr "filter", VStr "date"); (KStr "from_date", VStr "2021-01-01T00:00:00");
          (KStr "to_date", VStr "2021-01-05T10:30:00")] [])
  = Ok (VStr "2021-01-01", VStr "2021-01-05").
Proof. vm_compute. reflexivity. Qed.

(** X19: the bounds that [_get_date_filters] returns are the values it
    has recorded in [final_dict] under "from_date" and "to_date". *)
Lemma date_filters_recorded (w : world) (data final_dict fd' : dict) (a b : pyval) :
  _get_date_filters w data final_dict = (fd', Ok (a, b)) ->
  dict_get "from_date" fd' = Some a /\ dict_get "to_date" fd' = Some b.
Proof.
  unfold _get_date_filters. unfold mbind at 1, SE_bind.
  match goal with |- context [match ?m final_dict with _ => _ end] =>
    destruct (m final_dict) as [s [[a' b'] | e]] end; [| discriminate].
  unfold mbind, SE_bind, modify, pure. intros H. inversion H; subst.
  split.
  - rewrite dict_get_set_ne by discriminate. apply dict_get_set_eq.
  - apply dict_get_set_eq.
Qed.

(** ** Row shaping *)


Lemma default_row_get (fields : list pykey) (row : dict) (f : pykey) :
  dict_get f (fold_left (fun row key => dict_set key (VStr "NA") row) fields row)
  = if existsb (pykey_eqb f) fields then Some (VStr "NA") else dict_get f row.
Proof.
  revert row. induction fields as [| k fields IH]; intros row; simpl; [reflexivity |].
  rewrite IH, dict_get_set. rewrite (pykey_eqb_sym f k).
  destruct (pykey_eqb k f); simpl; destruct (existsb (pykey_eqb f) fields); reflexivity.
Qed.

(** The default row has "NA" under every catalog field, and nothing
    else. *)
Lemma default_row_seed (fields_visible : list pykey) (f : pykey) :
  dict_get f (default_row fields_visible)
  = if existsb (pykey_eqb f) fields_visible then Some (VStr "NA") else None.
Proof. unfold default_row. now rewrite default_row_get. Qed.

Lemma existsb_In (f : pykey) (l : list pykey) :
  In f l -> existsb (pykey_eqb f) l = true.
Proof.
  intros H. apply existsb_exists. exists f. split; [exact H | apply pykey_eqb_refl].
Qed.

Lemma dict_has_get (k : pykey) (d : dict) (v : pyval) :
  dict_get k d = Some v -> dict_has k d = true.
Proof. unfold dict_has. now intros ->. Qed.

Lemma dict_pop_set (k : pykey) (v : pyval) (d : dict) :
  dict_pop k (dict_set k v d) = Ok (v, dict_del k (dict_set k v d)).
Proof. unfold dict_pop. now rewrite dict_get_set_eq. Qed.


Lemma dict_has_update (f : pykey) (d other : dict) :
  dict_has f (dict_update d other) = dict_has f d || dict_has f other.
Proof.
  unfold dict_update. revert d.
  induction other as [| [k v] other IH]; intros d; cbn [fold_left fst snd].
  - unfold dict_has at 3. cbn [dict_get]. now rewrite orb_false_r.
  - rewrite IH, dict_has_set.
    assert (Hc : dict_has f ((k, v) :: other) = pykey_eqb k f || dict_has f other).
    { unfold dict_has. cbn [dict_get]. now destruct (pykey_eqb k f). }
    rewrite Hc.
    destruct (pykey_eqb k f), (dict_has f d), (dict_has f other); reflexivity.
Qed.

Lemma derived_of_sub (field f : pykey) : In f (derived_of field) -> In f derived_fields.
Proof.
  unfold derived_of, derived_fields.
  destruct (pykey_eqb field "stage"); [simpl; tauto |].
  destruct (pykey_eqb field "log_uri"); [simpl; tauto |].
  destruct (pykey_eqb field "status"); [simpl; tauto |].
  destruct (pykey_eqb field "type"); simpl; tauto.
Qed.

(** What [copy_field] returns, case by case *)
Lemma copy_field_result (source row row' : dict) (field : pykey) :
  copy_field source row field = Ok row' ->
  (dict_has field row = false /\ row' = row) \/
  (exists value,
     dict_has field row = true /\ dict_get field source = Some value /\
     ((field = KStr "stage" /\ exists s, value = VStr s /\
         row' = dict_set "stage_stdout" (VStr (before_first "_ci" s))
                  (dict_del "stage" (dict_set "stage" value row))) \/
      (field = KStr "log_uri" /\ exists s t, value = VStr s /\
         row' = dict_set "log_name" (VStr t) (dict_set "log_uri" value row)) \/
      (field = KStr "status" /\ exists s, value = VStr s /\
         row' = dict_set "stage_status" (VStr (capitalize s))
                  (dict_del "status"
                     (dict_set "job" (VStr (capitalize s))
                        (dict_set "status" value row)))) \/
      (field = KStr "type" /\
         row' = dict_set "test_type" value (dict_del "type" (dict_set "type" value row))) \/
      (derived_of field = [] /\ row' = dict_set field value row))).
Proof.
  unfold copy_field, dict_getitem.
  destruct (dict_has field row) eqn:Hh; [| intros H; inversion H; left; auto].
  destruct (dict_get field source) as [value |] eqn:Hs; [| discriminate].
  rewrite bind_ok. cbv beta zeta. intros H. right. exists value.
  split; [reflexivity |]. split; [reflexivity |].
  destruct (pykey_eqb field "stage") eqn:E1.
  { apply pykey_eqb_eq in E1. subst field. left. split; [reflexivity |].
    rewrite dict_pop_set, bind_ok in H. cbv beta iota in H.
    destruct value as [| | | s | |]; cbn [as_str] in H; try discriminate.
    rewrite bind_ok, first_of_split, bind_ok in H. inversion H. eauto. }
  destruct (pykey_eqb field "log_uri") eqn:E2.
  { apply pykey_eqb_eq in E2. subst field. right. left. split; [reflexivity |].
    destruct value as [| | | s | |]; cbn [as_str] in H; try discriminate.
    rewrite bind_ok in H. cbv beta in H.
    destruct (last_item (py_split "/" s)) as [t | e]; [| discriminate].
    rewrite bind_ok in H. inversion H. eauto. }
  destruct (pykey_eqb field "status") eqn:E3.
  { apply pykey_eqb_eq in E3. subst field. right. right. left. split; [reflexivity |].
    destruct value as [| | | s | |]; cbn [as_str] in H; try discriminate.
    rewrite bind_ok in H. cbv beta zeta in H. unfold dict_pop in H.
    rewrite dict_get_set_ne, dict_get_set_eq, bind_ok in H by discriminate.
    cbv beta iota in H. cbn [as_str] in H. rewrite bind_ok in H.
    inversion H. eauto. }
  destruct (pykey_eqb field "type") eqn:E4.
  { apply pykey_eqb_eq in E4. subst field. right. right. right. left.
    split; [reflexivity |].
    rewrite dict_pop_set, bind_ok in H. inversion H. reflexivity. }
  right. right. right. right. unfold derived_of. rewrite E1, E2, E3, E4.
  inversion H. auto.
Qed.

Lemma dict_has_set_inv (k f : pykey) (v : pyval) (d : dict) :
  dict_has f (dict_set k v d) = true -> f = k \/ dict_has f d = true.
Proof.
  rewrite dict_has_set. intros H. apply orb_true_iff in H. destruct H as [H | H].
  - left. apply pykey_eqb_eq in H. congruence.
  - now right.
Qed.


(** A key other than the field and its derived names keeps its value. *)
Lemma copy_field_frame (source row row' : dict) (field f : pykey) :
  copy_field source row field = Ok row' ->
  f <> field -> ~ In f (derived_of field) ->
  dict_get f row' = dict_get f row.
Proof.
  intros H Hne Hnd. apply copy_field_result in H.
  destruct H as [[_ ->] | (value & Hh & _ & H)]; [reflexivity |].
  destruct H as [(-> & s & -> & ->) | [(-> & s & t & -> & ->) |
                 [(-> & s & -> & ->) | [(-> & ->) | (_ & ->)]]]];
    repeat first
      [ rewrite dict_get_set_ne by (intros E; subst; apply Hnd; simpl; tauto)
      | rewrite dict_get_del_ne by congruence
      | rewrite dict_get_set_ne by congruence ];
    reflexivity.
Qed.


Lemma copy_fields_frame (source : dict) (fields : list pykey) (row row' : dict) (f : pykey) :
  copy_fields source row fields = Ok row' ->
  ~ In f fields -> (forall field, In field fields -> ~ In f (derived_of field)) ->
  dict_get f row' = dict_get f row.
Proof.
  revert row. induction fields as [| field fields IH]; intros row H Hnf Hnd.
  - now inversion H.
  - cbn [copy_fields] in H.
    destruct (copy_field source row field) as [row1 |] eqn:E; [| discriminate].
    rewrite bind_ok in H. rewrite (IH _ H).
    + apply (copy_field_frame _ _ _ _ _ E).
      * intros ->. apply Hnf. now left.
      * apply Hnd. now left.
    + intros Hin. apply Hnf. now right.
    + intros fld Hin. apply Hnd. now right.
Qed.
































(** X17: a catalog field that the record does not mention, that no
    attribute map sets and that is not a derived name keeps its "NA"
    in the finished row. *)
Lemma untouched_field_stays_NA (fields_visible : list pykey)
  (source job_attrs cust_attrs row' : dict) (f : pykey) :
  copy_fields source
    (dict_update (dict_update (default_row fields_visible) job_attrs) cust_attrs)
    (dict_keys source) = Ok row' ->
  In f fields_visible ->
  dict_get f job_attrs = None -> dict_get f cust_attrs = None ->
  ~ In f (dict_keys source) -> ~ In f derived_fields ->
  dict_get f row' = Some (VStr "NA").
Proof.
  intros H Hcat Hj Hc Hsrc Hd.
  rewrite (copy_fields_frame _ _ _ _ f H Hsrc).
  - rewrite !dict_get_update_None by assumption.
    rewrite default_row_seed. now rewrite existsb_In.
  - intros field _ Hin. apply Hd. now apply (derived_of_sub field).
Qed.

Lemma derived_of_status (field : pykey) (k : string) :
  In (KStr k) (derived_of field) -> k = "job" \/ k = "stage_status" ->
  field = KStr "status".
Proof.
  unfold derived_of. intros Hin Hk.
  destruct (pykey_eqb field "stage"); [destruct Hk; subst; simpl in Hin; intuition discriminate |].
  destruct (pykey_eqb field "log_uri"); [destruct Hk; subst; simpl in Hin; intuition discriminate |].
  destruct (pykey_eqb field "status") eqn:E; [now apply pykey_eqb_eq in E |].
  destruct (pykey_eqb field "type"); destruct Hk; subst; simpl in Hin; intuition discriminate.
Qed.

Lemma derived_of_not_status (field : pykey) : ~ In (KStr "status") (derived_of field).
Proof.
  unfold derived_of.
  destruct (pykey_eqb field "stage"); [simpl; intuition discriminate |].
  destruct (pykey_eqb field "log_uri"); [simpl; intuition discriminate |].
  destruct (pykey_eqb field "status"); [simpl; intuition discriminate |].
  destruct (pykey_eqb field "type"); simpl; intuition discriminate.
Qed.

(** X18: whatever the order in which the fields of a record are
    visited, if the record has a "status" string and no field named
    "job" or "stage_status", the finished row has the capitalised
    status under both names. *)
Lemma status_reaches_row (source : dict) (fields : list pykey) (row row' : dict)
  (s : string) :
  copy_fields source row fields = Ok row' ->
  List.NoDup fields -> In (KStr "status") fields ->
  dict_get "status" source = Some (VStr s) -> dict_has "status" row = true ->
  ~ In (KStr "job") fields -> ~ In (KStr "stage_status") fields ->
  dict_get "job" row' = Some (VStr (capitalize s)) /\
  dict_get "stage_status" row' = Some (VStr (capitalize s)).
Proof.
  revert row. induction fields as [| field fields IH];
    intros row H Hnd Hin Hsrc Hrow Hjob Hss; [contradiction |].
  cbn [copy_fields] in H.
  destruct (copy_field source row field) as [row1 |] eqn:E; [| discriminate].
  rewrite bind_ok in H. inversion Hnd as [| ? ? Hnotin Hnd']; subst.
  destruct Hin as [-> | Hin].
  - assert (Hframe : forall k : string, k = "job" \/ k = "stage_status" ->
                       dict_get k row' = dict_get k row1).
    { intros k Hk. apply (copy_fields_frame _ _ _ _ (KStr k) H).
      - destruct Hk; subst; intros Hc; [apply Hjob | apply Hss]; now right.
      - intros fld Hfld Hd. apply (derived_of_status fld k Hd) in Hk. now subst. }
    rewrite (Hframe "job"), (Hframe "stage_status") by tauto.
    apply copy_field_result in E.
    destruct E as [[E _] | (value & _ & Hv & E)]; [congruence |].
    rewrite Hsrc in Hv. inversion Hv; subst value.
    destruct E as [(E & _) | [(E & _) | [(_ & s' & Es & ->) | [(E & _) | (E & _)]]]];
      try discriminate.
    inversion Es; subst s'. split.
    + rewrite dict_get_set_ne by discriminate.
      rewrite dict_get_del_ne by discriminate. apply dict_get_set_eq.
    + apply dict_get_set_eq.
  - apply (IH row1 H Hnd' Hin Hsrc).
    + unfold dict_has in *.
      rewrite (copy_field_frame _ _ _ _ (KStr "status") E); [exact Hrow | |].
      * intros <-. contradiction.
      * apply derived_of_not_status.
    + intros Hc. apply Hjob. now right.
    + intros Hc. apply Hss. now right.
Qed.

(** ** What the [try] block does to [final_dict] *)

Section Preserves.
Context {S : Type} (I : S -> Prop).

Lemma preserves_pure {A} (a : A) : preserves I (pure a).
Proof. intros s H. exact H. Qed.

Lemma preserves_lift {A} (r : result A) : preserves I (lift r).
Proof. intros s H. exact H. Qed.

Lemma preserves_raise {A} (e : exn) : preserves I (@raise S A e).
Proof. intros s H. exact H. Qed.

Lemma preserves_get_state : preserves I get_state.
Proof. intros s H. exact H. Qed.

Lemma preserves_modify (f : S -> S) :
  (forall s, I s -> I (f s)) -> preserves I (modify f).
Proof. intros Hf s H. apply Hf, H. Qed.

Lemma preserves_bind {A B} (m : SE S A) (k : A -> SE S B) :
  preserves I m -> (forall a, preserves I (k a)) -> preserves I (m ≫= k).
Proof.
  intros Hm Hk s H. unfold mbind, SE_bind.
  specialize (Hm s H). destruct (m s) as [s' [a | e]]; simpl in *.
  - apply Hk, Hm.
  - exact Hm.
Qed.
End Preserves.

Ltac pres_step :=
  first
    [ apply preserves_pure
    | apply preserves_lift
    | apply preserves_raise
    | apply preserves_get_state
    | apply preserves_bind; [| intros ?]
    | match goal with
      | |- preserves _ (if ?b then _ else _) => destruct b
      | |- preserves _ (match ?x with _ => _ end) => destruct x
      end ].

Section DateFilters.
Variable I : dict -> Prop.
Hypothesis I_date :
  forall k x s, In k date_keys -> I s -> I (dict_set (KStr k) x s).

Lemma preserves_date_filters (w : world) (data : dict) :
  preserves I (_get_date_filters w data).
Proof.
  unfold _get_date_filters.
  repeat first
    [ pres_step
    | apply preserves_modify; intros s; apply I_date; simpl; tauto ].
Qed.
End DateFilters.

Section Gather.
Variable I : dict -> Prop.
Variable data : dict.

(** [I] survives an assignment to any of the keys that [gather]
    writes, and an assignment to "retain" in the one case where
    [append_row] makes it. *)
Hypothesis I_set :
  forall k x s, In k gathered_keys -> I s -> I (dict_set (KStr k) x s).
Hypothesis I_retain :
  dict_has "testinfo" data && negb (dict_has "retain" data) = true ->
  forall x s, I s -> I (dict_set "retain" x s).

Lemma preserves_set (k : string) (x : pyval) :
  In k gathered_keys -> preserves I (modify (dict_set (KStr k) x)).
Proof. intros Hk. apply preserves_modify. intros s. now apply I_set. Qed.

Ltac pres :=
  repeat first [ pres_step | apply preserves_set; simpl; tauto ].

Lemma preserves_setitem_in (k : string) (i : nat) (x : pyval) :
  In k gathered_keys -> preserves I (setitem_in k i x).
Proof. intros Hk. unfold setitem_in. pres. Qed.

Lemma preserves_append_row (row_data : dict) :
  preserves I (append_row data row_data).
Proof.
  unfold append_row.
  apply preserves_bind; [apply preserves_get_state | intros final_dict].
  apply preserves_bind; [apply preserves_lift | intros v].
  destruct v; try apply preserves_raise.
  apply preserves_bind; [apply preserves_set; simpl; tauto | intros _].
  destruct (dict_has "testinfo" data && negb (dict_has "retain" data)) eqn:E.
  - apply preserves_modify. intros s. now apply I_retain.
  - apply preserves_pure.
Qed.

Lemma preserves_shape_hits (default_row_data : dict) (hits : list pyval) (cnt : Z) :
  preserves I (shape_hits data default_row_data hits cnt).
Proof.
  revert cnt. induction hits as [| hit hits IH]; intros cnt; cbn [shape_hits].
  - apply preserves_pure.
  - repeat first [ apply preserves_append_row | apply IH | pres_step ].
Qed.

Lemma preserves_shape_pages (default_row_data : dict) (test_info_data : list pyval)
  (cnt : Z) :
  preserves I (shape_pages data default_row_data test_info_data cnt).
Proof.
  revert cnt. induction test_info_data as [| page rest IH]; intros cnt;
    cbn [shape_pages].
  - apply preserves_pure.
  - repeat first [ apply preserves_shape_hits | apply IH | pres_step ].
Qed.

Lemma preserves_gather (self : TestcaseReporting) (w : world) :
  preserves I (gather self w data).
Proof.
  unfold gather.
  repeat first
    [ apply preserves_date_filters; intros k x s Hk; apply I_set;
      simpl in *; tauto
    | apply preserves_shape_pages
    | apply preserves_setitem_in; simpl; tauto
    | pres_step
    | apply preserves_set; simpl; tauto ].
Qed.
End Gather.

Section Returns.
Context {S A B : Type} (P : B -> Prop).

Lemma returns_pure (b : B) : P b -> returns (S := S) P (pure b).
Proof. intros H s s' a E. inversion E; subst. exact H. Qed.

Lemma returns_raise (e : exn) : returns (S := S) P (raise e).
Proof. intros s s' a E. inversion E. Qed.

Lemma returns_bind (m : SE S A) (k : A -> SE S B) :
  (forall a, returns P (k a)) -> returns P (m ≫= k).
Proof.
  intros Hk s s' b E. unfold mbind, SE_bind in E.
  destruct (m s) as [s1 [a | e]]; [| inversion E]. exact (Hk a s1 s' b E).
Qed.

Lemma returns_bind_lift (r : result A) (k : A -> SE S B) :
  (forall a, r = Ok a -> returns P (k a)) -> returns P (lift r ≫= k).
Proof.
  intros Hk s s' b E. unfold mbind, SE_bind, lift in E.
  destruct r as [a | e]; [| inversion E]. exact (Hk a eq_refl s s' b E).
Qed.
End Returns.

(** ** Aggregation *)

Lemma fold_facets_keys (items acc agg : dict) (k : pykey) :
  fold_facets acc items = Ok agg ->
  dict_has k agg = dict_has k acc || dict_has k items.
Proof.
  revert acc. induction items as [| [key bucket] items IH]; intros acc H.
  - simpl in H. inversion H; subst. now rewrite orb_false_r.
  - cbn [fold_facets] in H.
    destruct (py_getitem bucket "buckets") as [buckets | e]; [| discriminate].
    rewrite bind_ok in H. cbv beta in H.
    destruct (py_iter buckets) as [docs | e]; [| discriminate].
    rewrite bind_ok in H. cbv beta in H.
    destruct (fold_buckets [] docs) as [counts | e]; [| discriminate].
    rewrite bind_ok in H. cbv beta in H.
    rewrite (IH _ H), !dict_has_set.
    assert (Hc : dict_has k ((key, bucket) :: items)
                 = pykey_eqb key k || dict_has k items).
    { unfold dict_has. cbn [dict_get]. now destruct (pykey_eqb key k). }
    rewrite Hc.
    destruct (pykey_eqb key k), (dict_has k acc), (dict_has k items); reflexivity.
Qed.

(** The aggregation step itself keeps the facet names of the response:
    the rename is made by its caller. *)
Lemma aggregated_data_keys (w : world) (from_date to_date type : pyval)
  (out aggs agg : dict) (k : pykey) :
  search w (aggregation_query from_date to_date type) = Ok (VDict out) ->
  dict_get "aggregations" out = Some (VDict aggs) ->
  _get_aggregated_data w from_date to_date type = Ok agg ->
  dict_has k agg = dict_has k aggs.
Proof.
  intros Hs Ha H. unfold _get_aggregated_data in H. rewrite Hs in H.
  rewrite bind_ok in H. cbv beta in H.
  unfold py_get, dict_get_default in H. cbn [as_dict] in H.
  rewrite bind_ok in H. cbv beta in H. rewrite Ha in H.
  rewrite bind_ok in H. cbv beta in H. cbn [as_dict] in H.
  rewrite bind_ok in H. cbv beta in H.
  now rewrite (fold_facets_keys _ _ _ k H).
Qed.

Lemma renamed_ring_data_good (w : world) (from_date to_date type : pyval) (rd : dict) :
  renamed_ring_data w from_date to_date type = Ok rd -> status_renamed rd.
Proof.
  unfold renamed_ring_data. intros H.
  destruct (_get_aggregated_data w from_date to_date type) as [agg | e]; [| discriminate].
  rewrite bind_ok in H. cbv beta in H. unfold dict_pop in H.
  destruct (dict_get "jobstatus" agg) as [js |]; [| discriminate].
  rewrite bind_ok in H. cbv beta iota in H. inversion H; subst. split.
  - rewrite dict_has_set. cbn [pykey_eqb String.eqb Ascii.eqb Bool.eqb orb].
    apply dict_has_del_eq.
  - rewrite dict_has_set. now rewrite pykey_eqb_refl.
Qed.

Lemma renamed_ring_data_present (w : world) (from_date to_date type : pyval) (agg : dict) :
  _get_aggregated_data w from_date to_date type = Ok agg ->
  dict_has "jobstatus" agg = true ->
  exists rd, renamed_ring_data w from_date to_date type = Ok rd /\
             dict_get "stage_status" rd = dict_get "jobstatus" agg.
Proof.
  intros Ha Hj. unfold renamed_ring_data. rewrite Ha, bind_ok. cbv beta.
  unfold dict_pop. unfold dict_has in Hj.
  destruct (dict_get "jobstatus" agg) as [js |]; [| discriminate].
  rewrite bind_ok. cbv beta iota. eexists. split; [reflexivity |].
  apply dict_get_set_eq.
Qed.

Lemma gather_returns_renamed (self : TestcaseReporting) (w : world) (data : dict) :
  returns (fun r => status_renamed (snd r)) (gather self w data).
Proof.
  unfold gather.
  repeat first
    [ apply returns_bind_lift; intros ? ?
    | apply returns_bind; intros ?
    | apply returns_raise
    | match goal with
      | |- returns _ (match ?x with _ => _ end) => destruct x
      end ].
  apply returns_pure. cbn [snd].
  match goal with
  | H : renamed_ring_data _ _ _ _ = Ok _ |- _ => exact (renamed_ring_data_good _ _ _ _ _ H)
  end.
Qed.

(** ** The report payload *)

Lemma assemble_run (self : TestcaseReporting) (w : world) (d s0 : dict) :
  assemble self w d s0
  = match gather self w d s0 with
    | (s1, Ok (cnt, rd)) =>
        (dict_set "ring_data" (VDict rd) (dict_set "count" (VInt cnt) s1), Ok tt)
    | (s1, Err e) => (s1, Err e)
    end.
Proof.
  unfold assemble, mbind, SE_bind, modify.
  destruct (gather self w d s0) as [s1 [[cnt rd] | e]]; reflexivity.
Qed.

Lemma get_test_case_data_payload (self : TestcaseReporting) (w : world) (fs : filesystem)
  (data : pyval) (d payload : dict) :
  py_or data (request_json w) = VDict d ->
  get_test_case_data self w fs data = Ok payload ->
  payload = fst (assemble self w d (initial_final_dict d)).
Proof.
  intros Hd H. unfold get_test_case_data in H. rewrite Hd in H. cbn [as_dict] in H.
  rewrite bind_ok in H. cbv beta zeta in H.
  destruct (check_view self fs d) as [[] | e]; [| discriminate].
  rewrite bind_ok in H. now inversion H.
Qed.

Lemma check_view_passes (self : TestcaseReporting) (fs : filesystem) (d : dict) :
  dict_has "create_mode" d = false -> view_identity_ok d ->
  check_view self fs d = Ok tt.
Proof.
  intros Hc Hv. unfold check_view. rewrite Hc.
  destruct (dict_has "folders" d) eqn:Hf.
  - destruct (Hv Hf) as (folders & view_name & Ef & En).
    unfold dict_getitem, dict_get_default. rewrite Ef, En.
    rewrite (dict_has_get _ _ _ En). rewrite bind_ok. cbv beta iota.
    cbn [py_path_join]. destruct (startswith view_name "/"); reflexivity.
  - destruct (dict_has "view_name" d); reflexivity.
Qed.

(** A key that [gather] does not write keeps its value. *)
Lemma gather_frame (self : TestcaseReporting) (w : world) (d : dict)
  (k : string) (v : option pyval) :
  ~ In k gathered_keys ->
  k <> "retain" \/ dict_has "testinfo" d && negb (dict_has "retain" d) = false ->
  preserves (fun s => dict_get (KStr k) s = v) (gather self w d).
Proof.
  intros Hk Hr. apply preserves_gather.
  - intros k' x s Hk' H. rewrite dict_get_set_ne; [exact H |].
    intros E. inversion E; subst. contradiction.
  - intros Hc x s H. destruct Hr as [Hr | Hr]; [| congruence].
    rewrite dict_get_set_ne; [exact H |]. intros E. inversion E; subst. contradiction.
Qed.


Lemma initial_get (d : dict) (k : pykey) :
  dict_get k d = None ->
  dict_get k (initial_final_dict d)
  = dict_get k
      [(KStr "count", VInt 0); (KStr "testinfo", VList []);
       (KStr "job_attributes", VList []); (KStr "testattr", VList []);
       (KStr "job_attributes_col", VList []); (KStr "cirrus_attributes_col", VList []);
       (KStr "xyz", VList []); (KStr "testcase_attributes_col", VList []);
       (KStr "reporttype", dict_get_default "reporttype" (VStr "Testcase results") d);
       (KStr "retain", VDict d); (KStr "view_data", VDict [])].
Proof.
  intros H. unfold initial_final_dict. now rewrite dict_get_update_None.
Qed.


Lemma dict_has_false_get (k : pykey) (d : dict) :
  dict_has k d = false -> dict_get k d = None.
Proof. unfold dict_has. now destruct (dict_get k d). Qed.

(** C3: the aggregation map that the assembler attaches to the payload
    has no key "jobstatus" and has the key "stage_status".  This is the
    map under "ring_data" whenever assembly completes; and for a
    request that carries no "ring_data" of its own it is whatever the
    payload holds under "ring_data".  Where the search response has the
    status facet "jobstatus" and the aggregation step returns, the
    rename returns too, and "stage_status" holds what the facet held. *)
Theorem ring_data_status_renamed (self : TestcaseReporting) (w : world) (fs : filesystem)
  (data : pyval) (d payload : dict) :
  py_or data (request_json w) = VDict d ->
  get_test_case_data self w fs data = Ok payload ->
  (snd (assemble self w d (initial_final_dict d)) = Ok tt ->
   exists rd, dict_get "ring_data" payload = Some (VDict rd) /\ status_renamed rd) /\
  (dict_has "ring_data" d = false ->
   forall v, dict_get "ring_data" payload = Some v ->
     exists rd, v = VDict rd /\ status_renamed rd) /\
  (forall from_date to_date type out aggs agg,
     search w (aggregation_query from_date to_date type) = Ok (VDict out) ->
     dict_get "aggregations" out = Some (VDict aggs) ->
     dict_has "jobstatus" aggs = true ->
     _get_aggregated_data w from_date to_date type = Ok agg ->
     exists rd, renamed_ring_data w from_date to_date type = Ok rd /\
                status_renamed rd /\
                dict_get "stage_status" rd = dict_get "jobstatus" agg).
Proof.
  intros Hd Hget.
  rewrite (get_test_case_data_payload _ _ _ _ _ _ Hd Hget).
  rewrite assemble_run.
  pose proof (gather_frame self w d "ring_data" None) as Hframe.
  pose proof (gather_returns_renamed self w d (initial_final_dict d)) as Hret.
  split; [| split].
  - destruct (gather self w d (initial_final_dict d)) as [s1 [[cnt rd] | e]] eqn:G;
      cbn [fst snd]; [| discriminate].
    intros _. exists rd. split; [apply dict_get_set_eq |].
    exact (Hret s1 (cnt, rd) eq_refl).
  - intros Hrd v Hv.
    destruct (gather self w d (initial_final_dict d)) as [s1 [[cnt rd] | e]] eqn:G;
      cbn [fst] in Hv.
    + rewrite dict_get_set_eq in Hv. inversion Hv; subst.
      exists rd. split; [reflexivity |]. exact (Hret s1 (cnt, rd) eq_refl).
    + exfalso.
      assert (Hnone : dict_get "ring_data" s1 = None).
      { change s1 with (fst (s1, @Err (Z * dict) e)). rewrite <- G. apply Hframe.
        - simpl. intuition discriminate.
        - left. discriminate.
        - rewrite initial_get by (now apply dict_has_false_get). reflexivity. }
      congruence.
  - intros from_date to_date type out aggs agg Hs Ha Hj Hagg.
    assert (Hjs : dict_has "jobstatus" agg = true).
    { now rewrite (aggregated_data_keys w _ _ _ _ _ _ "jobstatus" Hs Ha Hagg). }
    destruct (renamed_ring_data_present w _ _ _ _ Hagg Hjs) as (rd & E & Hst).
    exists rd. split; [exact E |]. split; [| exact Hst].
    exact (renamed_ring_data_good _ _ _ _ _ E).
Qed.

(** The theorem at the end-to-end example: the index holds one passed
    record, the request is [{"filter": "all"}]. *)
Lemma ring_data_status_renamed_witness :
  exists payload,
    get_test_case_data store world_one_record fs_empty_store request_all = Ok payload /\
    dict_get "count" payload = Some (VInt 1) /\
    dict_get "ring_data" payload
    = Some (VDict [(KStr "stage_status", VDict [(KStr "Passed", VInt 1)])]) /\
    (forall v, dict_get "ring_data" payload = Some v ->
       exists rd, v = VDict rd /\ status_renamed rd).
Proof.
  destruct (get_test_case_data store world_one_record fs_empty_store request_all)
    as [payload | e] eqn:E; [| vm_compute in E; discriminate].
  exists payload. split; [reflexivity |].
  pose proof (ring_data_status_renamed store world_one_record fs_empty_store
                request_all [(KStr "filter", VStr "all")] payload
                eq_refl E) as (_ & H & _).
  vm_compute in E. inversion E; subst. clear E.
  split; [reflexivity |]. split; [reflexivity |]. exact (H eq_refl).
Defined.


Lemma date_filters_frame (w : world) (d : dict) (k : string) (v : option pyval) :
  ~ In k date_keys ->
  preserves (fun s => dict_get (KStr k) s = v) (_get_date_filters w d).
Proof.
  intros Hk. apply preserves_date_filters.
  intros k' x s Hk' H. rewrite dict_get_set_ne; [exact H |].
  intros E. inversion E; subst. contradiction.
Qed.





(** ** Writing a view and finding it again *)

Lemma walk_app (fs : filesystem) (cur a b : list string) :
  walk fs cur (a ++ b)
  = match walk fs cur a with
    | Some loc => walk fs loc b
    | None => None
    end.
Proof.
  revert cur. induction a as [| c a IH]; intros cur; [reflexivity |].
  cbn [app walk]. destruct (dir_at fs cur); [| reflexivity].
  destruct (String.eqb c "" || String.eqb c "."); [apply IH |].
  destruct (String.eqb c ".."); apply IH.
Qed.

Lemma walk_mono (fs fs' : filesystem) (cur comps loc : list string) :
  (forall l, dir_at fs l = true -> dir_at fs' l = true) ->
  walk fs cur comps = Some loc -> walk fs' cur comps = Some loc.
Proof.
  intros Hdir. revert cur. induction comps as [| c comps IH]; intros cur H; [exact H |].
  cbn [walk] in *. destruct (dir_at fs cur) eqn:E; [| discriminate].
  rewrite (Hdir _ E).
  destruct (String.eqb c "" || String.eqb c "."); [now apply IH |].
  destruct (String.eqb c ".."); now apply IH.
Qed.

Lemma py_split_last (sep s : string) :
  let '(dirs, name) := split_last (py_split sep s) in
  py_split sep s = (dirs ++ [name])%list.
Proof.
  unfold split_last, py_split.
  destruct (split_go_nonempty sep s "" O) as (x & l & E). rewrite E.
  apply app_removelast_last. discriminate.
Qed.

Lemma app_singleton_not_nil (loc : list string) (name : string) :
  (loc ++ [name])%list <> [].
Proof. destruct loc; discriminate. Qed.

Lemma node_at_nonroot (fs : filesystem) (loc : list string) (name : string) :
  node_at fs (loc ++ [name]) = nodes fs !! (loc ++ [name])%list.
Proof. unfold node_at. destruct (loc ++ [name])%list eqn:E; [| reflexivity].
  now apply app_singleton_not_nil in E.
Qed.

(** After [open(path, "wb")] and [json.dump], the path is a file. *)
Lemma write_json_isfile (fs fs' : filesystem) (path : string) (value : pyval)
  (indent : nat) :
  write_json fs path value indent = Ok fs' -> path_isfile fs' path = true.
Proof.
  unfold write_json. destruct (String.eqb path "") eqn:Ep; [discriminate |].
  pose proof (py_split_last "/" path) as Hsplit.
  destruct (split_last (py_split "/" path)) as [dirs name].
  destruct (walk fs (start_of fs path) dirs) as [loc |] eqn:Ew; [| discriminate].
  destruct (dir_at fs loc) eqn:Ed; [| discriminate]. cbn [negb].
  destruct (is_special name) eqn:Es; [discriminate |].
  intros H.
  assert (Hfs : fs' = with_nodes fs
                        (<[(loc ++ [name])%list := File (JsonText value indent)]> (nodes fs))
                /\ node_at fs (loc ++ [name]) <> Some Dir).
  { destruct (node_at fs (loc ++ [name])) as [[c |] |]; inversion H;
      split; try reflexivity; discriminate. }
  destruct Hfs as [-> Hnot]. clear H.
  set (fs' := with_nodes fs _).
  assert (Hdir : forall l, dir_at fs l = true -> dir_at fs' l = true).
  { intros l Hl. unfold dir_at in *. destruct l as [| a l]; [reflexivity |].
    unfold node_at in Hl |- *. unfold fs', with_nodes. cbn [nodes].
    destruct (decide ((loc ++ [name])%list = a :: l)) as [E | E].
    - exfalso. apply Hnot. rewrite node_at_nonroot, E.
      destruct (nodes fs !! (a :: l)) as [[c |] |]; try discriminate. reflexivity.
    - now rewrite lookup_insert_ne. }
  unfold path_isfile, stat, resolve. rewrite Ep.
  change (start_of fs' path) with (start_of fs path).
  rewrite Hsplit, walk_app, (walk_mono fs fs' _ _ _ Hdir Ew).
  cbn [walk]. rewrite (Hdir _ Ed).
  unfold is_special in Es. apply orb_false_elim in Es. destruct Es as [Es E3].
  rewrite Es, E3. cbn [mbind option_bind].
  rewrite node_at_nonroot. unfold fs', with_nodes. cbn [nodes].
  now rewrite lookup_insert_eq.
Qed.

Lemma str_rev_onto_app (a b acc : string) :
  str_rev_onto (a +:+ b) acc = str_rev_onto b (str_rev_onto a acc).
Proof.
  revert acc. induction a as [| c a IH]; intros acc; [reflexivity |].
  rewrite append_cons. simpl. apply IH.
Qed.

Lemma endswith_slash (a : string) : endswith (a +:+ "/") "/" = true.
Proof.
  unfold endswith, str_rev. rewrite str_rev_onto_app. simpl.
  now destruct (str_rev_onto a "").
Qed.

Lemma append_not_empty (a b : string) : b <> "" -> a +:+ b <> "".
Proof. destruct a; [now rewrite append_empty_l | discriminate]. Qed.

(** Joining the empty folder onto the root changes nothing for what is
    joined next. *)
Lemma path_join_empty_folder (root x : string) :
  path_join (path_join root "") x = path_join root x.
Proof.
  unfold path_join at 2. cbn [startswith String.prefix].
  destruct (String.eqb root "" || endswith root "/") eqn:E.
  - now rewrite append_empty_r.
  - rewrite append_empty_r. unfold path_join. rewrite E.
    destruct (startswith x "/"); [reflexivity |].
    rewrite endswith_slash, orb_true_r. now rewrite append_assoc.
Qed.

Lemma path_join_not_empty (root x : string) : x <> "" -> path_join root x <> "".
Proof.
  intros H. unfold path_join. destruct (startswith x "/"); [exact H |].
  destruct (String.eqb root "" || endswith root "/").
  - now apply append_not_empty.
  - apply append_not_empty. now apply append_not_empty.
Qed.

Lemma truthy_str (s : string) : truthy (VStr s) = true <-> s <> "".
Proof.
  cbn [truthy]. destruct (String.eqb s "") eqn:E.
  - apply String.eqb_eq in E. subst. split; [discriminate | congruence].
  - apply String.eqb_neq in E. split; [now intros _ | reflexivity].
Qed.

Lemma se_bind_inv {S A B} (m : SE S A) (k : A -> SE S B) (s s' : S) (b : B) :
  (m ≫= k) s = (s', Ok b) -> exists a s1, m s = (s1, Ok a) /\ k a s1 = (s', Ok b).
Proof.
  unfold mbind, SE_bind. destruct (m s) as [s1 [a | e]]; [eauto | discriminate].
Qed.

Lemma lift_inv {S A} (r : result A) (s s' : S) (a : A) :
  lift r s = (s', Ok a) -> s' = s /\ r = Ok a.
Proof. unfold lift. intros H. inversion H. auto. Qed.

Lemma pure_inv {S A} (a a' : A) (s s' : S) :
  pure a s = (s', Ok a') -> s' = s /\ a' = a.
Proof. unfold pure. intros H. inversion H. auto. Qed.

Lemma effect_inv {S} (f : S -> result S) (s s' : S) (u : unit) :
  effect f s = (s', Ok u) -> f s = Ok s'.
Proof. unfold effect. destruct (f s); intros H; inversion H. reflexivity. Qed.

(** A successful save leaves a file at the path that [__get_full_path]
    computes for the same payload. *)
Lemma save_writes_full_path (self : TestcaseReporting) (filter_data r : dict)
  (fs fs1 : filesystem) (full_path : string) :
  __get_full_path self filter_data = Ok full_path ->
  __save_test_results_view self filter_data fs = (fs1, Ok r) ->
  path_isfile fs1 full_path = true.
Proof.
  unfold __get_full_path, dict_getitem.
  destruct (dict_get "folder" filter_data) as [folder |] eqn:Ef; [| discriminate].
  rewrite bind_ok. cbv beta.
  destruct folder as [| | | folders | |]; try discriminate.
  cbn [as_str]. rewrite bind_ok. cbv beta.
  destruct (dict_get "view" filter_data) as [view |] eqn:Ev; [| discriminate].
  rewrite bind_ok. cbv beta.
  destruct view as [| | | view_name | |]; try discriminate.
  cbn [as_str]. rewrite bind_ok. cbv beta.
  intros Hp. inversion Hp; subst full_path. clear Hp.
  unfold __save_test_results_view, dict_get_default. rewrite Ef, Ev. cbn [as_str].
  intros H.
  apply se_bind_inv in H. destruct H as (f & s1 & H1 & H).
  apply lift_inv in H1. destruct H1 as [-> H1]. inversion H1; subst f. clear H1.
  apply se_bind_inv in H. destruct H as (v & s1 & H1 & H).
  apply lift_inv in H1. destruct H1 as [-> H1]. inversion H1; subst v. clear H1.
  cbv zeta in H.
  apply se_bind_inv in H. destruct H as (save_path & s1 & Hsave & H).
  apply se_bind_inv in H. destruct H as (u & s2 & Hwrite & H).
  apply pure_inv in H. destruct H as [-> _].
  apply effect_inv in Hwrite. apply write_json_isfile in Hwrite.
  assert (Hpath : path_join (if truthy (VStr save_path) then save_path
                             else test_results_folder self)
                            (py_strip view_name +:+ ".json")
                  = path_join (path_join (test_results_folder self) (py_strip folders))
                              (py_strip view_name +:+ ".json")).
  { destruct (truthy (VStr (py_strip folders))) eqn:Et.
    - apply se_bind_inv in Hsave. destruct Hsave as (fs0 & s3 & _ & Hsave).
      apply se_bind_inv in Hsave. destruct Hsave as (u' & s4 & _ & Hsave).
      apply pure_inv in Hsave. destruct Hsave as [_ ->].
      assert (Hne : truthy (VStr (path_join (test_results_folder self)
                                    (py_strip folders))) = true).
      { apply truthy_str, path_join_not_empty. now apply truthy_str. }
      now rewrite Hne.
    - apply pure_inv in Hsave. destruct Hsave as [_ ->].
      cbn [truthy String.eqb negb].
      assert (Hs : py_strip folders = "").
      { destruct (String.eqb (py_strip folders) "") eqn:E; [now apply String.eqb_eq |].
        cbn [truthy] in Et. rewrite E in Et. discriminate. }
      now rewrite Hs, path_join_empty_folder. }
  rewrite <- Hpath. exact Hwrite.
Qed.

Lemma isfile_exists (fs : filesystem) (path : string) :
  path_isfile fs path = true -> path_exists fs path = true.
Proof. unfold path_isfile, path_exists. now destruct (stat fs path) as [[c |] |]. Qed.

(** X11: whatever the store and the payload, a [create] that succeeds
    is followed, for the same payload, by a [create] that raises
    [NameError] and changes nothing. *)
Lemma create_twice_raises_name_error (self : TestcaseReporting) (filter_data r : dict)
  (save_type : pyval) (fs fs1 : filesystem) :
  create_test_results_view self filter_data save_type fs = (fs1, Ok r) ->
  create_test_results_view self filter_data save_type fs1
  = (fs1, Err (NameError "folders")).
Proof.
  unfold create_test_results_view. unfold mbind at 1 2 3 4 5 6, SE_bind, lift, get_state.
  destruct (_validate_save_view_data filter_data) as [[] | e]; [| discriminate].
  destruct (__get_full_path self filter_data) as [full_path | e] eqn:Ep; [| discriminate].
  destruct (path_exists fs full_path); [discriminate |].
  intros H. rewrite (isfile_exists _ _ (save_writes_full_path _ _ _ _ _ _ Ep H)).
  reflexivity.
Qed.

(** ** Paths *)

Lemma str_rev_onto_acc (s acc : string) : str_rev_onto s acc = str_rev s +:+ acc.
Proof.
  unfold str_rev. revert acc. induction s as [| c s IH]; intros acc; [reflexivity |].
  cbn [str_rev_onto]. rewrite IH, (IH (String c "")), append_assoc. reflexivity.
Qed.

Lemma str_rev_app (a b : string) : str_rev (a +:+ b) = str_rev b +:+ str_rev a.
Proof. unfold str_rev at 1. rewrite str_rev_onto_app. apply str_rev_onto_acc. Qed.

Lemma str_rev_involutive (s : string) : str_rev (str_rev s) = s.
Proof.
  induction s as [| c s IH]; [reflexivity |].
  change (String c s) with (String c "" +:+ s) at 1.
  rewrite str_rev_app, str_rev_app, IH. reflexivity.
Qed.

Lemma str_rev_empty (s : string) : str_rev s = "" -> s = "".
Proof. intros H. rewrite <- (str_rev_involutive s), H. reflexivity. Qed.

Lemma prefix_app_l (p a b : string) :
  a <> "" -> String.length p = 1%nat ->
  String.prefix p (a +:+ b) = String.prefix p a.
Proof.
  intros Ha Hp. destruct a as [| c a]; [contradiction |].
  destruct p as [| c0 [| c1 p]]; try discriminate.
  rewrite append_cons, !prefix_char. reflexivity.
Qed.

Lemma startswith_app (a b : string) :
  a <> "" -> startswith (a +:+ b) "/" = startswith a "/".
Proof. intros Ha. unfold startswith. now apply prefix_app_l. Qed.

Lemma endswith_app (a b : string) :
  b <> "" -> endswith (a +:+ b) "/" = endswith b "/".
Proof.
  intros Hb. unfold endswith. rewrite str_rev_app. apply prefix_app_l; [| reflexivity].
  intros E. apply Hb. now apply str_rev_empty.
Qed.

Lemma startswith_relative_app (b s : string) :
  startswith s "/" = false -> startswith (b +:+ s) "/" = startswith b "/".
Proof.
  intros Hs. destruct b as [| c b]; [now rewrite append_empty_l, Hs |].
  apply startswith_app. discriminate.
Qed.

(** A relative suffix can be appended before or after the join. *)
Lemma path_join_suffix (a b s : string) :
  startswith s "/" = false -> path_join a b +:+ s = path_join a (b +:+ s).
Proof.
  intros Hs. unfold path_join. rewrite (startswith_relative_app _ _ Hs).
  destruct (startswith b "/"); [reflexivity |].
  destruct (String.eqb a "" || endswith a "/"); now rewrite !append_assoc.
Qed.

Lemma eqb_empty_app (a b : string) :
  b <> "" -> String.eqb (a +:+ b) "" = false.
Proof. intros Hb. apply String.eqb_neq. now apply append_not_empty. Qed.

Lemma path_join_relative (a b : string) :
  startswith b "/" = false ->
  path_join a b
  = a +:+ (if String.eqb a "" || endswith a "/" then "" else "/") +:+ b.
Proof.
  intros H. unfold path_join. rewrite H.
  now destruct (String.eqb a "" || endswith a "/").
Qed.

Lemma path_join_absolute (a b : string) : startswith b "/" = true -> path_join a b = b.
Proof. intros H. unfold path_join. now rewrite H. Qed.

Lemma ends_with_sep_app (a b : string) :
  b <> "" ->
  String.eqb (a +:+ b) "" || endswith (a +:+ b) "/" = (String.eqb b "" || endswith b "/").
Proof.
  intros Hb. rewrite eqb_empty_app, endswith_app by assumption.
  apply String.eqb_neq in Hb. now rewrite Hb.
Qed.

(** [os.path.join(a, os.path.join(b, c))] is [os.path.join(os.path.join(a, b), c)]. *)
Lemma path_join_assoc (a b c : string) :
  path_join a (path_join b c) = path_join (path_join a b) c.
Proof.
  destruct (startswith c "/") eqn:Ec.
  { now rewrite !(path_join_absolute _ c Ec). }
  destruct (String.eqb b "") eqn:Eb.
  { apply String.eqb_eq in Eb. subst b. rewrite path_join_empty_folder.
    rewrite (path_join_relative "" c Ec). cbn [String.eqb orb].
    now rewrite !append_empty_l. }
  apply String.eqb_neq in Eb.
  rewrite (path_join_relative b c Ec), (path_join_relative _ c Ec).
  destruct (startswith b "/") eqn:Es.
  - rewrite (path_join_absolute a b Es). apply path_join_absolute.
    now rewrite startswith_app.
  - rewrite (path_join_relative a b Es), path_join_relative
      by now rewrite startswith_app.
    rewrite <- (append_assoc a _ b), ends_with_sep_app by assumption.
    now rewrite !append_assoc.
Qed.

Lemma py_path_join_str (a b : string) :
  py_path_join (VStr a) (VStr b) = Ok (path_join a b).
Proof. unfold py_path_join, path_join. now destruct (startswith b "/"). Qed.

(** ** Reading a view *)

Lemma pyval_nested_ind (P : pyval -> Prop) :
  P VNone -> (forall b, P (VBool b)) -> (forall z, P (VInt z)) -> (forall s, P (VStr s)) ->
  (forall l, Forall P l -> P (VList l)) ->
  (forall d, Forall (fun kv => P (snd kv)) d -> P (VDict d)) ->
  forall v, P v.
Proof.
  intros HN HB HZ HS HL HD. fix IH 1.
  intros [| b | z | s | l | d]; [exact HN | apply HB | apply HZ | apply HS | |].
  - apply HL. induction l as [| x l IHl]; constructor; [apply IH | exact IHl].
  - apply HD. induction d as [| [k x] d IHd]; constructor; [apply IH | exact IHd].
Qed.

Lemma dict_set_absent (k : pykey) (v : pyval) (d : dict) :
  dict_has k d = false -> dict_set k v d = (d ++ [(k, v)])%list.
Proof.
  unfold dict_has. induction d as [| [k' v'] d IH]; intros H; [reflexivity |].
  cbn [dict_get dict_set app] in *. destruct (pykey_eqb k' k); [discriminate |].
  now rewrite IH.
Qed.

Lemma dict_has_app (k : pykey) (a b : dict) :
  dict_has k (a ++ b) = dict_has k a || dict_has k b.
Proof.
  unfold dict_has. induction a as [| [k' v'] a IH]; [reflexivity |].
  cbn [app dict_get]. now destruct (pykey_eqb k' k).
Qed.

(** Decoding what was encoded from a JSON-shaped value gives the value
    back. *)
Lemma json_decoded_shaped (v : pyval) : json_shaped v = true -> json_decoded v = v.
Proof.
  induction v as [| b | z | s | l IH | d IH] using pyval_nested_ind; try reflexivity.
  - cbn [json_shaped json_decoded]. intros H. f_equal.
    induction IH as [| x l Hx _ IHl]; [reflexivity |].
    cbn [forallb map] in *. apply andb_prop in H. destruct H as [H1 H2].
    now rewrite Hx, IHl.
  - cbn [json_shaped json_decoded]. intros H. f_equal.
    change d with ([] ++ d)%list at 2.
    assert (Hacc : forall k, dict_has k [] = true -> dict_has k d = false) by discriminate.
    revert H Hacc. generalize (@nil (pykey * pyval)) as acc.
    induction IH as [| [k x] d Hx _ IHd]; intros acc H Hacc.
    + now rewrite app_nil_r.
    + apply andb_prop in H. destruct H as [H Hgo].
      apply andb_prop in H. destruct H as [H Hshaped].
      apply andb_prop in H. destruct H as [Hk Hfresh].
      destruct k as [| z | s]; try discriminate. cbn [json_key snd] in *.
      rewrite (Hx Hshaped).
      assert (Hnot : dict_has s acc = false).
      { destruct (dict_has s acc) eqn:E; [| reflexivity].
        apply Hacc in E. unfold dict_has in E. cbn [dict_get] in E.
        now rewrite pykey_eqb_refl in E. }
      rewrite (dict_set_absent _ _ _ Hnot), IHd.
      * now rewrite <- app_assoc.
      * exact Hgo.
      * intros k. rewrite dict_has_app. intros E.
        apply orb_prop in E. destruct E as [E | E].
        -- apply Hacc in E. unfold dict_has in E |- *. cbn [dict_get] in E.
           now destruct (pykey_eqb s k).
        -- unfold dict_has in E. cbn [dict_get] in E.
           destruct (pykey_eqb s k) eqn:Ek; [| discriminate].
           apply pykey_eqb_eq in Ek. subst k. now apply negb_true_iff in Hfresh.
Qed.

Lemma isdir_exists_not_file (fs : filesystem) (path : string) :
  path_exists fs path && negb (path_isfile fs path) = path_isdir fs path.
Proof.
  unfold path_exists, path_isfile, path_isdir. now destruct (stat fs path) as [[c |] |].
Qed.

Lemma walk_error_resolved (fs : filesystem) (cur comps loc : list string) :
  walk fs cur comps = Some loc -> walk_error fs cur comps = "No such file or directory".
Proof.
  revert cur. induction comps as [| c comps IH]; intros cur H; [reflexivity |].
  cbn [walk walk_error] in *. unfold dir_at in H.
  destruct (node_at fs cur) as [[f |] |]; try discriminate.
  destruct (String.eqb c "" || String.eqb c "."); [now apply IH |].
  destruct (String.eqb c ".."); now apply IH.
Qed.

(** A path whose directories all exist fails for what is missing at its
    end. *)
Lemma lookup_error_resolved (fs : filesystem) (path : string) (loc : list string) :
  resolve fs path = Some loc -> lookup_error fs path = "No such file or directory".
Proof.
  unfold resolve, lookup_error. destruct (String.eqb path ""); [reflexivity |].
  apply walk_error_resolved.
Qed.

(** What [read_view_data] answers for a named view is decided by what
    is at <root>/<name>.json. *)
Lemma read_view_data_named (self : TestcaseReporting) (fs : filesystem) (name : string)
  (raise_except : pyval) :
  name <> "" ->
  read_view_data self fs (VStr name) raise_except
  = match stat fs (path_join (test_results_folder self) (name +:+ ".json")) with
    | Some (File c) => Ok (json_decoded (json_value c))
    | Some Dir =>
        if truthy raise_except
        then Err (Exception_ (folder_type_message (name +:+ ".json")))
        else Ok (VDict [])
    | None =>
        Err (IOError (lookup_error fs
                        (path_join (test_results_folder self) (name +:+ ".json"))))
    end.
Proof.
  intros Hn. unfold read_view_data. apply truthy_str in Hn. rewrite Hn.
  cbn [iadd_str]. rewrite bind_ok. cbv beta. rewrite py_path_join_str.
  rewrite !bind_ok. cbv beta iota.
  rewrite isdir_exists_not_file. unfold path_isdir, open_read.
  destruct (stat fs _) as [[c |] |]; reflexivity.
Qed.

(** X1: a view that does not exist is not covered by [raise_except]:
    whatever the flag, reading a name for which <root>/<name>.json does
    not exist raises the [IOError] of [open] ("No such file or
    directory" when the directories of the path exist); reading without
    a name raises the [Exception] that asks for one.  The flag only
    decides what a directory at that path gives: the folder-type
    [Exception] when it is true, the empty dictionary when it is
    false. *)
Theorem read_missing_view_raises (self : TestcaseReporting) (fs : filesystem)
  (view raise_except : pyval) :
  (truthy view = false ->
   read_view_data self fs view raise_except
   = Err (Exception_ "No view name provided to fetch data from")) /\
  (forall name, view = VStr name -> name <> "" ->
   let path := path_join (test_results_folder self) (name +:+ ".json") in
   (path_exists fs path = false ->
    read_view_data self fs view raise_except = Err (IOError (lookup_error fs path)) /\
    (forall loc, resolve fs path = Some loc ->
       lookup_error fs path = "No such file or directory")) /\
   (path_isdir fs path = true ->
    read_view_data self fs view raise_except
    = if truthy raise_except
      then Err (Exception_ (folder_type_message (name +:+ ".json")))
      else Ok (VDict []))).
Proof.
  split.
  - intros H. unfold read_view_data. now rewrite H.
  - intros name -> Hn path. rewrite (read_view_data_named _ _ _ _ Hn). fold path.
    unfold path_exists, path_isdir. split; intros H.
    + split; [now destruct (stat fs path) | apply lookup_error_resolved].
    + now destruct (stat fs path) as [[c |] |].
Qed.

Lemma read_missing_view_raises_witness :
  path_exists fs_with_view (path_join (test_results_folder store) ("g" +:+ ".json")) = false /\
  read_view_data store fs_with_view (VStr "g") (VBool false)
  = Err (IOError "No such file or directory").
Proof.
  split; [vm_compute; reflexivity |].
  assert (Hn : "g" <> "") by discriminate.
  pose proof (proj1 (proj2 (read_missing_view_raises store fs_with_view (VStr "g")
                              (VBool false)) "g" eq_refl Hn)) as Hmissing.
  assert (He : path_exists fs_with_view
                 (path_join (test_results_folder store) ("g" +:+ ".json")) = false)
    by (vm_compute; reflexivity).
  destruct (Hmissing He) as [Hread Hmsg].
  rewrite Hread, (Hmsg ["srv"; "views"; "g.json"]) by (vm_compute; reflexivity).
  reflexivity.
Defined.

(** ** Writing a view and reading it back *)

Lemma write_json_stat (fs fs' : filesystem) (path : string) (value : pyval)
  (indent : nat) :
  write_json fs path value indent = Ok fs' ->
  stat fs' path = Some (File (JsonText value indent)).
Proof.
  unfold write_json. destruct (String.eqb path "") eqn:Ep; [discriminate |].
  pose proof (py_split_last "/" path) as Hsplit.
  destruct (split_last (py_split "/" path)) as [dirs name].
  destruct (walk fs (start_of fs path) dirs) as [loc |] eqn:Ew; [| discriminate].
  destruct (dir_at fs loc) eqn:Ed; [| discriminate]. cbn [negb].
  destruct (is_special name) eqn:Es; [discriminate |].
  intros H.
  assert (Hfs : fs' = with_nodes fs
                        (<[(loc ++ [name])%list := File (JsonText value indent)]> (nodes fs))
                /\ node_at fs (loc ++ [name]) <> Some Dir).
  { destruct (node_at fs (loc ++ [name])) as [[c |] |]; inversion H;
      split; try reflexivity; discriminate. }
  destruct Hfs as [-> Hnot]. clear H.
  set (fs' := with_nodes fs _).
  assert (Hdir : forall l, dir_at fs l = true -> dir_at fs' l = true).
  { intros l Hl. unfold dir_at in *. destruct l as [| a l]; [reflexivity |].
    unfold node_at in Hl |- *. unfold fs', with_nodes. cbn [nodes].
    destruct (decide ((loc ++ [name])%list = a :: l)) as [E | E].
    - exfalso. apply Hnot. rewrite node_at_nonroot, E.
      destruct (nodes fs !! (a :: l)) as [[c |] |]; try discriminate. reflexivity.
    - now rewrite lookup_insert_ne. }
  unfold stat, resolve. rewrite Ep.
  change (start_of fs' path) with (start_of fs path).
  rewrite Hsplit, walk_app, (walk_mono fs fs' _ _ _ Hdir Ew).
  cbn [walk]. rewrite (Hdir _ Ed).
  unfold is_special in Es. apply orb_false_elim in Es. destruct Es as [Es E3].
  rewrite Es, E3. cbn [mbind option_bind].
  rewrite node_at_nonroot. unfold fs', with_nodes. cbn [nodes].
  now rewrite lookup_insert_eq.
Qed.

(** A successful save leaves the filters, written with indent 4, at
    <root>/<folder>/<view>.json, folder and view stripped. *)
Lemma save_writes_filters (self : TestcaseReporting) (filter_data r : dict)
  (fs fs1 : filesystem) (folder view : string) (filters : pyval) :
  dict_get "folder" filter_data = Some (VStr folder) ->
  dict_get "view" filter_data = Some (VStr view) ->
  dict_get "filters" filter_data = Some filters ->
  __save_test_results_view self filter_data fs = (fs1, Ok r) ->
  r = filter_data /\
  stat fs1 (path_join (path_join (test_results_folder self) (py_strip folder))
                      (py_strip view +:+ ".json"))
  = Some (File (JsonText filters 4)).
Proof.
  intros Ef Ev Efl.
  unfold __save_test_results_view, dict_get_default. rewrite Ef, Ev, Efl. cbn [as_str].
  intros H.
  apply se_bind_inv in H. destruct H as (f & s1 & H1 & H).
  apply lift_inv in H1. destruct H1 as [-> H1]. inversion H1; subst f. clear H1.
  apply se_bind_inv in H. destruct H as (v & s1 & H1 & H).
  apply lift_inv in H1. destruct H1 as [-> H1]. inversion H1; subst v. clear H1.
  cbv zeta in H.
  apply se_bind_inv in H. destruct H as (save_path & s1 & Hsave & H).
  apply se_bind_inv in H. destruct H as (u & s2 & Hwrite & H).
  apply pure_inv in H. destruct H as [-> ->]. split; [reflexivity |].
  apply effect_inv in Hwrite. apply write_json_stat in Hwrite.
  assert (Hpath : path_join (if truthy (VStr save_path) then save_path
                             else test_results_folder self)
                            (py_strip view +:+ ".json")
                  = path_join (path_join (test_results_folder self) (py_strip folder))
                              (py_strip view +:+ ".json")).
  { destruct (truthy (VStr (py_strip folder))) eqn:Et.
    - apply se_bind_inv in Hsave. destruct Hsave as (fs0 & s3 & _ & Hsave).
      apply se_bind_inv in Hsave. destruct Hsave as (u' & s4 & _ & Hsave).
      apply pure_inv in Hsave. destruct Hsave as [_ ->].
      assert (Hne : truthy (VStr (path_join (test_results_folder self)
                                    (py_strip folder))) = true).
      { apply truthy_str, path_join_not_empty. now apply truthy_str. }
      now rewrite Hne.
    - apply pure_inv in Hsave. destruct Hsave as [_ ->].
      cbn [truthy String.eqb negb].
      assert (Hs : py_strip folder = "").
      { destruct (String.eqb (py_strip folder) "") eqn:E; [now apply String.eqb_eq |].
        cbn [truthy] in Et. rewrite E in Et. discriminate. }
      now rewrite Hs, path_join_empty_folder. }
  rewrite <- Hpath. exact Hwrite.
Qed.

Lemma create_is_save (self : TestcaseReporting) (filter_data r : dict)
  (save_type : pyval) (fs fs1 : filesystem) :
  create_test_results_view self filter_data save_type fs = (fs1, Ok r) ->
  __save_test_results_view self filter_data fs = (fs1, Ok r).
Proof.
  unfold create_test_results_view. unfold mbind at 1 2 3, SE_bind, lift, get_state.
  destruct (_validate_save_view_data filter_data) as [[] | e]; [| discriminate].
  destruct (__get_full_path self filter_data) as [full_path | e]; [| discriminate].
  destruct (path_exists fs full_path); [discriminate |]. auto.
Qed.

Lemma update_is_save (self : TestcaseReporting) (filter_data r : dict)
  (fs fs1 : filesystem) :
  update_test_results_view self filter_data fs = (fs1, Ok r) ->
  __save_test_results_view self filter_data fs = (fs1, Ok r).
Proof.
  unfold update_test_results_view. unfold mbind at 1 2, SE_bind, lift.
  destruct (_validate_save_view_data filter_data) as [[] | e]; [| discriminate].
  destruct (__get_full_path self filter_data) as [full_path | e]; [| discriminate].
  auto.
Qed.

(** The name under which [read_view_data] finds what was saved for a
    folder and a view *)
Lemma saved_view_path (root folder view : string) :
  path_join root (path_join folder view +:+ ".json")
  = path_join (path_join root folder) (view +:+ ".json").
Proof. rewrite path_join_suffix by reflexivity. apply path_join_assoc. Qed.

(** X2: what [create_test_results_view] or [update_test_results_view]
    saved is what [read_view_data] returns.  After either has returned
    for a payload with the folder [folder], the view [view] and the
    filters [filters], reading the view os.path.join(folder.strip(),
    view.strip()) returns the filters as JSON decodes them, whatever
    [raise_except] is: the filters themselves when they are JSON-shaped
    (string keys, no key twice). *)
Theorem saved_view_reads_back (self : TestcaseReporting) (filter_data r : dict)
  (save_type raise_except : pyval) (fs fs1 : filesystem) (folder view : string)
  (filters : pyval) :
  create_test_results_view self filter_data save_type fs = (fs1, Ok r) \/
  update_test_results_view self filter_data fs = (fs1, Ok r) ->
  dict_get "folder" filter_data = Some (VStr folder) ->
  dict_get "view" filter_data = Some (VStr view) ->
  dict_get "filters" filter_data = Some filters ->
  path_join (py_strip folder) (py_strip view) <> "" ->
  read_view_data self fs1 (VStr (path_join (py_strip folder) (py_strip view))) raise_except
  = Ok (json_decoded filters) /\
  (json_shaped filters = true -> json_decoded filters = filters).
Proof.
  intros H Ef Ev Efl Hne. split; [| apply json_decoded_shaped].
  assert (Hsave : __save_test_results_view self filter_data fs = (fs1, Ok r)).
  { destruct H as [H | H]; [now apply create_is_save in H | now apply update_is_save]. }
  destruct (save_writes_filters _ _ _ _ _ _ _ _ Ef Ev Efl Hsave) as [_ Hstat].
  rewrite (read_view_data_named _ _ _ _ Hne), saved_view_path, Hstat. reflexivity.
Qed.

Lemma saved_view_reads_back_witness :
  read_view_data store fs_with_view (VStr (path_join (py_strip "f") (py_strip "v")))
                 (VBool true)
  = Ok (json_decoded (VDict [])).
Proof.
  apply (saved_view_reads_back store view_f_v view_f_v VNone (VBool true)
           fs_empty_store fs_with_view "f" "v" (VDict [])).
  - left. vm_compute. reflexivity.
  - reflexivity.
  - reflexivity.
  - reflexivity.
  - vm_compute. discriminate.
Defined.

(** ** Deleting *)

Lemma strip_prefix_app (loc r : list string) : strip_prefix loc (loc ++ r) = Some r.
Proof.
  induction loc as [| a loc IH]; [reflexivity |].
  cbn [app strip_prefix]. now rewrite String.eqb_refl.
Qed.

Lemma strip_prefix_Some (loc k r : list string) :
  strip_prefix loc k = Some r -> k = (loc ++ r)%list.
Proof.
  revert k. induction loc as [| a loc IH]; intros k H.
  - cbn in H. now inversion H.
  - destruct k as [| b k]; [discriminate |]. cbn [strip_prefix] in H.
    destruct (String.eqb a b) eqn:E; [| discriminate].
    apply String.eqb_eq in E. subst b. cbn [app]. f_equal. now apply IH.
Qed.

Lemma strip_prefix_self (loc : list string) : strip_prefix loc loc = Some [].
Proof. rewrite <- (app_nil_r loc) at 2. apply strip_prefix_app. Qed.

Lemma remove_tree_lookup (m : gmap (list string) node) (loc k : list string) :
  remove_tree m loc !! k
  = match strip_prefix loc k with None => m !! k | Some _ => None end.
Proof.
  unfold remove_tree. destruct (strip_prefix loc k) as [r |] eqn:E.
  - apply map_lookup_filter_None. right. intros x _. cbn [fst]. now rewrite E.
  - destruct (m !! k) as [x |] eqn:Ek.
    + apply map_lookup_filter_Some. split; [exact Ek | exact E].
    + apply map_lookup_filter_None. now left.
Qed.

Lemma nonroot_node (fs : filesystem) (loc : list string) :
  loc <> [] -> node_at fs loc = nodes fs !! loc.
Proof. now destruct loc. Qed.

(** A path that led to a location whose node is gone, in a store that
    only lost nodes, names nothing. *)
Lemma gone_location (fs fs' : filesystem) (loc : list string) (p : string) :
  cwd fs' = cwd fs ->
  (forall k n, nodes fs' !! k = Some n -> nodes fs !! k = Some n) ->
  loc <> [] -> nodes fs' !! loc = None ->
  resolve fs p = Some loc -> path_exists fs' p = false.
Proof.
  intros Hcwd Hsub Hloc Hgone. unfold path_exists, stat, resolve, start_of. rewrite Hcwd.
  destruct (String.eqb p ""); [discriminate |]. intros Hw.
  destruct (walk fs' _ _) as [l |] eqn:Ew; [| reflexivity].
  assert (Hdir : forall l, dir_at fs' l = true -> dir_at fs l = true).
  { intros l0. unfold dir_at, node_at. destruct l0 as [| a l0]; [reflexivity |].
    destruct (nodes fs' !! (a :: l0)) as [[c |] |] eqn:E; try discriminate.
    now rewrite (Hsub _ _ E). }
  rewrite (walk_mono fs' fs _ _ _ Hdir Ew) in Hw. inversion Hw; subst l.
  cbn [mbind option_bind]. now rewrite (nonroot_node _ _ Hloc), Hgone.
Qed.

Lemma os_remove_ok (fs fs' : filesystem) (path : string) :
  os_remove fs path = Ok fs' ->
  exists loc c, resolve fs path = Some loc /\ loc <> [] /\
                nodes fs !! loc = Some (File c) /\
                fs' = with_nodes fs (delete loc (nodes fs)).
Proof.
  unfold os_remove. destruct (resolve fs path) as [loc |]; [| discriminate].
  destruct loc as [| a loc]; [destruct (nodes fs !! []) as [[c |] |]; discriminate |].
  destruct (nodes fs !! (a :: loc)) as [[c |] |] eqn:E; try discriminate.
  intros H. inversion H. exists (a :: loc), c. repeat split; [discriminate | exact E].
Qed.

Lemma rmtree_ok (fs fs' : filesystem) (path : string) :
  rmtree path fs = (fs', Ok tt) ->
  exists loc, resolve fs path = Some loc /\ loc <> [] /\
              nodes fs !! loc = Some Dir /\
              fs' = with_nodes fs (remove_tree (nodes fs) loc) /\
              last_component path <> "." /\ last_component path <> "..".
Proof.
  unfold rmtree. destruct (resolve fs path) as [loc |]; [| discriminate].
  destruct (node_at fs loc) as [[c |] |] eqn:En; try discriminate.
  destruct loc as [| a loc]; [discriminate |]. cbn [orb].
  destruct (String.eqb (last_component path) ".") eqn:E1; [discriminate |].
  destruct (String.eqb (last_component path) "..") eqn:E2; [discriminate |].
  cbn [orb]. intros H. inversion H. exists (a :: loc).
  apply String.eqb_neq in E1, E2. repeat split; try assumption. discriminate.
Qed.

Lemma delete_file (self : TestcaseReporting) (path : string) (fs : filesystem) :
  path_isfile fs (path_join (test_results_folder self) path) = true ->
  exists loc c,
    resolve fs (path_join (test_results_folder self) path) = Some loc /\ loc <> [] /\
    nodes fs !! loc = Some (File c) /\
    delete_test_results_view self path fs
    = (with_nodes fs (delete loc (nodes fs)), Ok tt).
Proof.
  unfold delete_test_results_view. set (full := path_join _ path).
  unfold mbind, SE_bind, get_state. intros Ef. rewrite Ef.
  unfold effect, os_remove. unfold path_isfile, stat in Ef.
  destruct (resolve fs full) as [loc |]; [| discriminate].
  cbn [mbind option_bind] in Ef.
  destruct loc as [| a loc]; [discriminate |]. cbn [node_at] in Ef.
  destruct (nodes fs !! (a :: loc)) as [[c |] |] eqn:E; try discriminate.
  exists (a :: loc), c. split; [reflexivity |]. split; [discriminate |].
  split; [exact E | reflexivity].
Qed.

Lemma delete_keeps_the_rest (fs : filesystem) (loc : list string) :
  forall k n, nodes (with_nodes fs (delete loc (nodes fs))) !! k = Some n ->
              nodes fs !! k = Some n.
Proof. intros k n. cbn [with_nodes nodes]. intros E. apply lookup_delete_Some in E. tauto. Qed.

(** X3: what a successful [delete_test_results_view] has done.  The
    path named a file or a directory below the filesystem root; every
    path that led there names nothing afterwards; no node outside the
    tree at that place has changed and none was created; and when the
    path named a directory, everything below it is gone as well. *)
Theorem delete_removes_the_tree (self : TestcaseReporting) (path : string)
  (fs fs' : filesystem) :
  delete_test_results_view self path fs = (fs', Ok tt) ->
  exists loc,
    resolve fs (path_join (test_results_folder self) path) = Some loc /\
    loc <> [] /\
    path_exists fs (path_join (test_results_folder self) path) = true /\
    (forall p, resolve fs p = Some loc -> path_exists fs' p = false) /\
    (forall k, strip_prefix loc k = None -> nodes fs' !! k = nodes fs !! k) /\
    (forall k n, nodes fs' !! k = Some n -> nodes fs !! k = Some n) /\
    (path_isdir fs (path_join (test_results_folder self) path) = true ->
     forall k r, strip_prefix loc k = Some r -> nodes fs' !! k = None).
Proof.
  unfold delete_test_results_view. set (full := path_join _ path).
  unfold mbind, SE_bind, get_state.
  destruct (path_isfile fs full) eqn:Ef; intros H.
  - apply effect_inv in H. apply os_remove_ok in H.
    destruct H as (loc & c & Hr & Hloc & Hn & ->). exists loc.
    pose proof (delete_keeps_the_rest fs loc) as Hsub.
    repeat split; try assumption.
    + now apply isfile_exists.
    + intros p Hp. apply (gone_location fs _ loc p); try assumption; [reflexivity |].
      cbn [with_nodes nodes]. apply lookup_delete_eq.
    + intros k Hk. cbn [with_nodes nodes]. apply lookup_delete_ne.
      intros ->. now rewrite strip_prefix_self in Hk.
    + unfold path_isfile in Ef. unfold path_isdir.
      destruct (stat fs full) as [[c' |] |]; discriminate.
  - apply rmtree_ok in H. destruct H as (loc & Hr & Hloc & Hn & -> & _). exists loc.
    assert (Hsub : forall k n,
               nodes (with_nodes fs (remove_tree (nodes fs) loc)) !! k = Some n ->
               nodes fs !! k = Some n).
    { intros k n. cbn [with_nodes nodes]. rewrite remove_tree_lookup.
      now destruct (strip_prefix loc k). }
    repeat split; try assumption.
    + unfold path_exists, stat. rewrite Hr. cbn [mbind option_bind].
      now rewrite (nonroot_node _ _ Hloc), Hn.
    + intros p Hp. apply (gone_location fs _ loc p); try assumption; [reflexivity |].
      cbn [with_nodes nodes]. now rewrite remove_tree_lookup, strip_prefix_self.
    + intros k Hk. cbn [with_nodes nodes]. now rewrite remove_tree_lookup, Hk.
    + intros _ k r Hk. cbn [with_nodes nodes]. now rewrite remove_tree_lookup, Hk.
Qed.

Lemma delete_removes_the_tree_witness :
  exists loc,
    resolve fs_with_view (path_join (test_results_folder store) "f") = Some loc /\
    loc <> [] /\
    path_exists fs_with_view (path_join (test_results_folder store) "f") = true /\
    (forall p, resolve fs_with_view p = Some loc ->
               path_exists (fst (delete_test_results_view store "f" fs_with_view)) p = false) /\
    (forall k, strip_prefix loc k = None ->
               nodes (fst (delete_test_results_view store "f" fs_with_view)) !! k
               = nodes fs_with_view !! k) /\
    (forall k n, nodes (fst (delete_test_results_view store "f" fs_with_view)) !! k = Some n ->
                 nodes fs_with_view !! k = Some n) /\
    (path_isdir fs_with_view (path_join (test_results_folder store) "f") = true ->
     forall k r, strip_prefix loc k = Some r ->
                 nodes (fst (delete_test_results_view store "f" fs_with_view)) !! k = None).
Proof.
  apply (delete_removes_the_tree store "f" fs_with_view).
  vm_compute. reflexivity.
Defined.

(** X4: when [delete_test_results_view] returns.  It does exactly when
    <root>/<path> is a file, or is a directory other than the
    filesystem root that the path does not name through "." or "..". *)
Theorem delete_returns_iff (self : TestcaseReporting) (path : string) (fs : filesystem) :
  let full := path_join (test_results_folder self) path in
  (exists fs', delete_test_results_view self path fs = (fs', Ok tt)) <->
  path_isfile fs full = true \/
  (path_isdir fs full = true /\ resolve fs full <> Some [] /\
   last_component full <> "." /\ last_component full <> "..").
Proof.
  intros full. unfold delete_test_results_view. fold full.
  unfold mbind, SE_bind, get_state.
  destruct (path_isfile fs full) eqn:Ef.
  - split; [now left |]. intros _.
    destruct (delete_file self path fs Ef) as (loc & c & _ & _ & _ & H).
    unfold delete_test_results_view in H. fold full in H.
    unfold mbind, SE_bind, get_state in H. rewrite Ef in H. eauto.
  - split.
    + intros [fs' H]. right. apply rmtree_ok in H.
      destruct H as (loc & Hr & Hloc & Hn & _ & H1 & H2).
      unfold path_isdir, stat. rewrite Hr.
      cbn [mbind option_bind]. rewrite (nonroot_node _ _ Hloc), Hn.
      split; [reflexivity |]. split; [congruence |]. now split.
    + intros [H | (Hd & Hroot & H1 & H2)]; [discriminate |].
      unfold rmtree. unfold path_isdir, stat in Hd.
      destruct (resolve fs full) as [loc |]; [| discriminate].
      cbn [mbind option_bind] in Hd.
      destruct (node_at fs loc) as [[c |] |]; try discriminate.
      destruct loc as [| a loc]; [congruence |]. cbn [orb].
      apply String.eqb_neq in H1, H2. rewrite H1, H2. cbn [orb]. eauto.
Qed.

(** X5: deleting what is not there.  When <root>/<path> does not exist,
    [delete_test_results_view] raises the [OSError] of [shutil.rmtree]
    for the failed lookup ("No such file or directory" when the
    directories of the path exist) and changes nothing. *)
Theorem delete_missing_raises (self : TestcaseReporting) (path : string) (fs : filesystem) :
  path_exists fs (path_join (test_results_folder self) path) = false ->
  delete_test_results_view self path fs
  = (fs, Err (OSError (lookup_error fs (path_join (test_results_folder self) path)))) /\
  (forall loc, resolve fs (path_join (test_results_folder self) path) = Some loc ->
     lookup_error fs (path_join (test_results_folder self) path)
     = "No such file or directory").
Proof.
  unfold delete_test_results_view. set (full := path_join _ path). intros H.
  split; [| apply lookup_error_resolved].
  assert (Hf : path_isfile fs full = false).
  { unfold path_exists in H. unfold path_isfile. now destruct (stat fs full). }
  unfold mbind, SE_bind, get_state. rewrite Hf. unfold rmtree.
  unfold path_exists, stat in H.
  destruct (resolve fs full) as [loc |] eqn:Hr; [| reflexivity].
  cbn [mbind option_bind] in H. rewrite (lookup_error_resolved _ _ _ Hr).
  now destruct (node_at fs loc).
Qed.

Lemma delete_missing_raises_witness :
  delete_test_results_view store "f/v" fs_with_view
  = (fs_with_view, Err (OSError "No such file or directory")).
Proof.
  assert (He : path_exists fs_with_view (path_join (test_results_folder store) "f/v")
               = false) by (vm_compute; reflexivity).
  destruct (delete_missing_raises store "f/v" fs_with_view He) as [Hdel Hmsg].
  rewrite Hdel, (Hmsg ["srv"; "views"; "f"; "v"]) by (vm_compute; reflexivity).
  reflexivity.
Defined.

(** X6: a view that was saved can be deleted under its file name, and
    cannot be read afterwards.  After [create_test_results_view] or
    [update_test_results_view] has returned for the folder [folder] and
    the view [view], deleting os.path.join(folder.strip(), view.strip())
    + ".json" returns, and reading the view then raises the [IOError] of
    [open], whatever [raise_except] is. *)
Theorem deleted_view_cannot_be_read (self : TestcaseReporting) (filter_data r : dict)
  (save_type raise_except : pyval) (fs fs1 : filesystem) (folder view : string)
  (filters : pyval) :
  create_test_results_view self filter_data save_type fs = (fs1, Ok r) \/
  update_test_results_view self filter_data fs = (fs1, Ok r) ->
  dict_get "folder" filter_data = Some (VStr folder) ->
  dict_get "view" filter_data = Some (VStr view) ->
  dict_get "filters" filter_data = Some filters ->
  path_join (py_strip folder) (py_strip view) <> "" ->
  exists fs2,
    delete_test_results_view self (path_join (py_strip folder) (py_strip view) +:+ ".json") fs1
    = (fs2, Ok tt) /\
    read_view_data self fs2 (VStr (path_join (py_strip folder) (py_strip view))) raise_except
    = Err (IOError "No such file or directory").
Proof.
  intros H Ef Ev Efl Hne.
  assert (Hsave : __save_test_results_view self filter_data fs = (fs1, Ok r)).
  { destruct H as [H | H]; [now apply create_is_save in H | now apply update_is_save]. }
  destruct (save_writes_filters _ _ _ _ _ _ _ _ Ef Ev Efl Hsave) as [_ Hstat].
  rewrite <- saved_view_path in Hstat.
  set (name := path_join (py_strip folder) (py_strip view)) in *.
  assert (Hfile : path_isfile fs1 (path_join (test_results_folder self) (name +:+ ".json"))
                  = true) by (unfold path_isfile; now rewrite Hstat).
  destruct (delete_file self (name +:+ ".json") fs1 Hfile) as (loc & c & Hr & Hloc & Hfc & Hdel).
  eexists. split; [exact Hdel |].
  rewrite (read_view_data_named _ _ _ _ Hne).
  set (fs2 := with_nodes fs1 (delete loc (nodes fs1))).
  assert (Hgone : path_exists fs2 (path_join (test_results_folder self) (name +:+ ".json"))
                  = false).
  { apply (gone_location fs1 _ loc); try assumption; [reflexivity | |].
    - apply delete_keeps_the_rest.
    - cbn [fs2 with_nodes nodes]. apply lookup_delete_eq. }
  assert (Hr2 : resolve fs2 (path_join (test_results_folder self) (name +:+ ".json"))
                = Some loc).
  { unfold resolve in *.
    destruct (String.eqb (path_join (test_results_folder self) (name +:+ ".json")) "");
      [discriminate |].
    change (start_of fs2 _) with (start_of fs1 (path_join (test_results_folder self)
                                                  (name +:+ ".json"))).
    apply (walk_mono fs1 fs2); [| exact Hr].
    intros l. unfold dir_at, node_at. destruct l as [| a l]; [reflexivity |].
    cbn [fs2 with_nodes nodes]. destruct (decide (a :: l = loc)) as [E | E].
    - rewrite E, Hfc. discriminate.
    - now rewrite lookup_delete_ne by congruence. }
  rewrite (lookup_error_resolved _ _ _ Hr2).
  unfold path_exists in Hgone. now destruct (stat fs2 _).
Qed.

Lemma deleted_view_cannot_be_read_witness :
  exists fs2,
    delete_test_results_view store (path_join (py_strip "f") (py_strip "v") +:+ ".json")
                             fs_with_view
    = (fs2, Ok tt) /\
    read_view_data store fs2 (VStr (path_join (py_strip "f") (py_strip "v"))) (VBool false)
    = Err (IOError "No such file or directory").
Proof.
  apply (deleted_view_cannot_be_read store view_f_v view_f_v VNone (VBool false)
           fs_empty_store fs_with_view "f" "v" (VDict [])).
  - left. vm_compute. reflexivity.
  - reflexivity.
  - reflexivity.
  - reflexivity.
  - vm_compute. discriminate.
Defined.

(** ** The root of the store *)

Lemma split_go_app_sep (cur a : string) :
  split_go "/" O cur (a +:+ "/") = (split_go "/" O cur a ++ [""])%list.
Proof.
  revert cur. induction a as [| c a IH]; intros cur; [reflexivity |].
  rewrite append_cons. cbn [split_go]. rewrite !prefix_char.
  cbn [String.length Nat.pred].
  destruct (Ascii.eqb c "/"); [cbn [app]; f_equal |]; apply IH.
Qed.

Lemma py_split_app_sep (a : string) :
  py_split "/" (a +:+ "/") = (py_split "/" a ++ [""])%list.
Proof. apply split_go_app_sep. Qed.

Lemma drop_empty_end_app_empty (l : list string) :
  drop_empty_end (l ++ [""]) = drop_empty_end l.
Proof. unfold drop_empty_end. now rewrite rev_unit. Qed.

Lemma last_component_app_sep (a : string) :
  last_component (a +:+ "/") = last_component a.
Proof. unfold last_component. now rewrite py_split_app_sep, drop_empty_end_app_empty. Qed.

(** A trailing slash on the name of a directory names the directory. *)
Lemma resolve_app_sep (fs : filesystem) (a : string) (loc : list string) :
  a <> "" -> resolve fs a = Some loc -> dir_at fs loc = true ->
  resolve fs (a +:+ "/") = Some loc.
Proof.
  intros Ha Hr Hd. unfold resolve, start_of in *.
  rewrite eqb_empty_app by discriminate. rewrite startswith_app by assumption.
  apply String.eqb_neq in Ha. rewrite Ha in Hr.
  rewrite py_split_app_sep, walk_app, Hr. cbn [walk]. now rewrite Hd.
Qed.

Lemma isdir_resolves (fs : filesystem) (p : string) :
  path_isdir fs p = true ->
  exists loc, p <> "" /\ resolve fs p = Some loc /\ dir_at fs loc = true.
Proof.
  unfold path_isdir, stat, dir_at. destruct (resolve fs p) as [loc |] eqn:E; [| discriminate].
  cbn [mbind option_bind]. intros H. exists loc. split.
  - intros ->. discriminate.
  - split; [reflexivity |]. now destruct (node_at fs loc) as [[c |] |].
Qed.

(** X7: nothing guards the root of the store.  When the root is a
    directory (not the filesystem root, and not named through "." or
    ".."), [delete_test_results_view] with the empty path returns and
    has removed the root itself with everything below it: the root no
    longer exists, and listing the store raises [StopIteration]. *)
Theorem delete_empty_path_removes_store (self : TestcaseReporting) (fs : filesystem) :
  path_isdir fs (test_results_folder self) = true ->
  resolve fs (test_results_folder self) <> Some [] ->
  last_component (test_results_folder self) <> "." ->
  last_component (test_results_folder self) <> ".." ->
  exists fs' loc,
    delete_test_results_view self "" fs = (fs', Ok tt) /\
    resolve fs (test_results_folder self) = Some loc /\
    (forall k r, strip_prefix loc k = Some r -> nodes fs' !! k = None) /\
    path_exists fs' (test_results_folder self) = false /\
    get_available_views self fs' VNone = Err StopIteration.
Proof.
  set (root := test_results_folder self). intros Hd Hroot H1 H2.
  destruct (isdir_resolves _ _ Hd) as (loc & Hne & Hr & Hdir).
  assert (Hjoin : resolve fs (path_join root "") = Some loc /\
                  last_component (path_join root "") = last_component root).
  { unfold path_join. cbn [startswith String.prefix].
    destruct (String.eqb root "" || endswith root "/").
    - now rewrite append_empty_r.
    - rewrite append_empty_r. split; [now apply resolve_app_sep |].
      apply last_component_app_sep. }
  destruct Hjoin as [Hrj Hlast].
  assert (Hloc : loc <> []) by congruence.
  assert (Hn : nodes fs !! loc = Some Dir).
  { unfold dir_at in Hdir. rewrite (nonroot_node _ _ Hloc) in Hdir.
    now destruct (nodes fs !! loc) as [[c |] |]. }
  assert (Hdel : delete_test_results_view self "" fs
                 = (with_nodes fs (remove_tree (nodes fs) loc), Ok tt)).
  { unfold delete_test_results_view. fold root.
    unfold mbind, SE_bind, get_state.
    assert (Hf : path_isfile fs (path_join root "") = false).
    { unfold path_isfile, stat. rewrite Hrj. cbn [mbind option_bind].
      now rewrite (nonroot_node _ _ Hloc), Hn. }
    rewrite Hf. unfold rmtree. rewrite Hrj, (nonroot_node _ _ Hloc), Hn, Hlast.
    apply String.eqb_neq in H1, H2. rewrite H1, H2.
    destruct loc; [contradiction | reflexivity]. }
  exists (with_nodes fs (remove_tree (nodes fs) loc)), loc.
  split; [exact Hdel |]. split; [exact Hr |].
  assert (Hgone : path_exists (with_nodes fs (remove_tree (nodes fs) loc)) root = false).
  { apply (gone_location fs _ loc); try assumption; [reflexivity | |].
    - intros k n. cbn [with_nodes nodes]. rewrite remove_tree_lookup.
      now destruct (strip_prefix loc k).
    - cbn [with_nodes nodes]. now rewrite remove_tree_lookup, strip_prefix_self. }
  split; [| split; [exact Hgone |]].
  - intros k r Hk. cbn [with_nodes nodes]. now rewrite remove_tree_lookup, Hk.
  - unfold get_available_views, view_dir. cbn [truthy]. fold root.
    rewrite bind_ok. cbv beta. rewrite walk_top_not_dir; [reflexivity |].
    unfold path_exists in Hgone. unfold path_isdir.
    now destruct (stat (with_nodes _ _) root).
Qed.

Lemma delete_empty_path_removes_store_witness :
  exists fs' loc,
    delete_test_results_view store "" fs_with_view = (fs', Ok tt) /\
    resolve fs_with_view (test_results_folder store) = Some loc /\
    (forall k r, strip_prefix loc k = Some r -> nodes fs' !! k = None) /\
    path_exists fs' (test_results_folder store) = false /\
    get_available_views store fs' VNone = Err StopIteration.
Proof.
  apply (delete_empty_path_removes_store store fs_with_view).
  - vm_compute. reflexivity.
  - vm_compute. discriminate.
  - vm_compute. discriminate.
  - vm_compute. discriminate.
Defined.

(** ** The base folder *)

Lemma drop_empty_spec (l : list string) :
  exists e, l = (e ++ drop_empty l)%list /\ Forall (fun c => c = "") e.
Proof.
  induction l as [| c l (e & E & He)]; [exists []; split; [reflexivity | constructor] |].
  cbn [drop_empty]. destruct (String.eqb c "") eqn:Ec.
  - apply String.eqb_eq in Ec. subst c. exists ("" :: e). split.
    + cbn [app]. now f_equal.
    + now constructor.
  - exists []. split; [reflexivity | constructor].
Qed.

Lemma drop_empty_end_spec (l : list string) :
  exists e, l = (drop_empty_end l ++ e)%list /\ Forall (fun c => c = "") e.
Proof.
  unfold drop_empty_end. destruct (drop_empty_spec (List.rev l)) as (e & E & He).
  exists (List.rev e). split.
  - rewrite <- rev_app_distr, <- E. symmetry. apply rev_involutive.
  - now apply List.Forall_rev.
Qed.

Lemma walk_empties (fs : filesystem) (cur e : list string) :
  Forall (fun c => c = "") e -> dir_at fs cur = true -> walk fs cur e = Some cur.
Proof.
  intros He Hd. induction He as [| c e -> _ IH]; [reflexivity |].
  cbn [walk]. now rewrite Hd.
Qed.

(** After [os.mkdir(path)] has returned, the path is a directory, and
    what was there before is still there. *)
Lemma os_mkdir_ok (fs fs' : filesystem) (path : string) :
  os_mkdir fs path = Ok fs' ->
  path_isdir fs' path = true /\
  (forall k n, nodes fs !! k = Some n -> nodes fs' !! k = Some n).
Proof.
  unfold os_mkdir. destruct (String.eqb path "") eqn:Ep; [discriminate |].
  destruct (drop_empty_end_spec (py_split "/" path)) as (e & Hsplit & He).
  destruct (drop_empty_end (py_split "/" path)) as [| c0 comps0] eqn:Ec; [discriminate |].
  set (comps := c0 :: comps0) in *.
  assert (Hlast : comps = (removelast comps ++ [List.last comps ""])%list)
    by (apply app_removelast_last; discriminate).
  unfold split_last. set (dirs := removelast comps) in *. set (name := List.last comps "") in *.
  destruct (walk fs (start_of fs path) dirs) as [loc |] eqn:Ew; [| discriminate].
  destruct (dir_at fs loc) eqn:Ed; [| discriminate]. cbn [negb].
  destruct (is_special name) eqn:Es; [discriminate |].
  destruct (node_at fs (loc ++ [name])) as [n |] eqn:En; [discriminate |].
  intros H. inversion H. subst fs'. clear H.
  set (fs' := with_nodes fs _).
  rewrite node_at_nonroot in En.
  assert (Hkeep : forall k n, nodes fs !! k = Some n -> nodes fs' !! k = Some n).
  { intros k n Hk. unfold fs', with_nodes. cbn [nodes].
    rewrite lookup_insert_ne; [exact Hk |]. intros <-. congruence. }
  split; [| exact Hkeep].
  assert (Hdir : forall l, dir_at fs l = true -> dir_at fs' l = true).
  { intros l. unfold dir_at, node_at. destruct l as [| a l]; [reflexivity |].
    destruct (nodes fs !! (a :: l)) as [[c |] |] eqn:E; try discriminate.
    now rewrite (Hkeep _ _ E). }
  assert (Hnew : dir_at fs' (loc ++ [name]) = true).
  { unfold dir_at. rewrite node_at_nonroot. unfold fs', with_nodes. cbn [nodes].
    now rewrite lookup_insert_eq. }
  unfold path_isdir, stat, resolve. rewrite Ep.
  change (start_of fs' path) with (start_of fs path).
  rewrite Hsplit, Hlast, !walk_app, (walk_mono fs fs' _ _ _ Hdir Ew).
  cbn [walk]. rewrite (Hdir _ Ed).
  unfold is_special in Es. apply orb_false_elim in Es. destruct Es as [Es E3].
  rewrite Es, E3, (walk_empties _ _ _ He Hnew). cbn [mbind option_bind].
  unfold dir_at in Hnew. now destruct (node_at fs' (loc ++ [name])) as [[c |] |].
Qed.

(** X8: [_create_base_filter_folder] never raises and never removes
    anything.  A root that exists is left alone; otherwise the
    filesystem is either as it was (the [os.mkdir] failed and the
    failure was swallowed) or has the root as a directory; and calling
    it again changes nothing. *)
Theorem base_folder_bootstrap (self : TestcaseReporting) (fs : filesystem) :
  exists fs',
    _create_base_filter_folder self fs = (fs', Ok tt) /\
    (forall k n, nodes fs !! k = Some n -> nodes fs' !! k = Some n) /\
    (path_exists fs (test_results_folder self) = true -> fs' = fs) /\
    (fs' = fs \/ path_isdir fs' (test_results_folder self) = true) /\
    _create_base_filter_folder self fs' = (fs', Ok tt).
Proof.
  unfold _create_base_filter_folder.
  destruct (path_exists fs (test_results_folder self)) eqn:Ee; cbn [negb].
  - exists fs. rewrite Ee. cbn [negb]. repeat split; auto.
  - destruct (os_mkdir fs (test_results_folder self)) as [fs' | e] eqn:Em.
    + destruct (os_mkdir_ok _ _ _ Em) as [Hd Hkeep]. exists fs'.
      split; [reflexivity |]. split; [exact Hkeep |].
      split; [discriminate |]. split; [now right |].
      assert (He : path_exists fs' (test_results_folder self) = true).
      { unfold path_isdir in Hd. unfold path_exists.
        now destruct (stat fs' (test_results_folder self)). }
      now rewrite He.
    + exists fs. rewrite Ee, Em. cbn [negb]. repeat split; auto; discriminate.
Qed.

(** ** Saving a view and listing it *)

Lemma lstrip_app_all (chars s t : string) :
  lstrip_chars chars s = "" -> lstrip_chars chars (s +:+ t) = lstrip_chars chars t.
Proof.
  induction s as [| c s IH]; intros H; [reflexivity |].
  rewrite append_cons. cbn [lstrip_chars] in *.
  destruct (ascii_in c chars); [now apply IH | discriminate].
Qed.

Lemma lstrip_app_some (chars s t : string) :
  lstrip_chars chars s <> "" ->
  lstrip_chars chars (s +:+ t) = lstrip_chars chars s +:+ t.
Proof.
  induction s as [| c s IH]; intros H; [contradiction |].
  rewrite append_cons. cbn [lstrip_chars] in *.
  destruct (ascii_in c chars); [now apply IH | now rewrite append_cons].
Qed.

Lemma lstrip_all_app (chars s t : string) :
  lstrip_chars chars s = "" -> lstrip_chars chars t = "" ->
  lstrip_chars chars (s +:+ t) = "".
Proof. intros Hs Ht. now rewrite lstrip_app_all. Qed.

Lemma lstrip_all_rev (chars t : string) :
  lstrip_chars chars t = "" -> lstrip_chars chars (str_rev t) = "".
Proof.
  induction t as [| c t IH]; intros H; [reflexivity |].
  change (String c t) with (String c "" +:+ t). rewrite str_rev_app.
  cbn [lstrip_chars] in H. destruct (ascii_in c chars) eqn:Ec; [| discriminate].
  apply lstrip_all_app; [now apply IH |].
  change (str_rev (String c "")) with (String c ""). cbn [lstrip_chars]. now rewrite Ec.
Qed.

(** Stripping does not see a suffix made of the stripped characters. *)
Lemma strip_chars_suffix (chars s t : string) :
  lstrip_chars chars t = "" -> strip_chars chars (s +:+ t) = strip_chars chars s.
Proof.
  intros Ht. unfold strip_chars.
  destruct (string_dec (lstrip_chars chars s) "") as [E | E].
  - now rewrite lstrip_app_all, Ht, E.
  - rewrite lstrip_app_some, str_rev_app, lstrip_app_all by (assumption || now apply lstrip_all_rev).
    reflexivity.
Qed.

Lemma split_go_join (cur a b : string) :
  split_go "/" O cur (a +:+ "/" +:+ b)
  = (split_go "/" O cur a ++ split_go "/" O "" b)%list.
Proof.
  revert cur. induction a as [| c a IH]; intros cur.
  - rewrite append_empty_l. change ("/" +:+ b) with (String "/" b).
    cbn [split_go]. now rewrite prefix_char.
  - rewrite append_cons. cbn [split_go]. rewrite !prefix_char.
    cbn [String.length Nat.pred].
    destruct (Ascii.eqb c "/"); [cbn [app]; f_equal |]; apply IH.
Qed.

Lemma py_split_join (a b : string) :
  py_split "/" (a +:+ "/" +:+ b) = (py_split "/" a ++ py_split "/" b)%list.
Proof. apply split_go_join. Qed.

Lemma split_go_plain (cur x : string) :
  contains "/" x = false -> split_go "/" O cur x = [cur +:+ x].
Proof.
  revert cur. induction x as [| c x IH]; intros cur H.
  - cbn. now rewrite append_empty_r.
  - apply contains_false_cons in H. destruct H as [Hp Hc].
    cbn [split_go]. rewrite Hp, (IH _ Hc), append_assoc. reflexivity.
Qed.

Lemma py_split_plain (x : string) : contains "/" x = false -> py_split "/" x = [x].
Proof. intros H. unfold py_split. now rewrite split_go_plain. Qed.

Lemma endswith_sep_inv (a : string) : endswith a "/" = true -> exists a', a = a' +:+ "/".
Proof.
  unfold endswith. change (str_rev "/") with "/". intros H.
  destruct (prefix_split _ _ H) as [r E]. exists (str_rev r).
  rewrite <- (str_rev_involutive a), E.
  change ("/" +:+ r) with (String "/" "" +:+ r). now rewrite str_rev_app.
Qed.

Lemma start_of_app (fs : filesystem) (a b : string) :
  a <> "" -> start_of fs (a +:+ b) = start_of fs a.
Proof. intros H. unfold start_of. now rewrite startswith_app. Qed.

Lemma resolve_sep (fs : filesystem) (a x : string) :
  resolve fs (a +:+ "/" +:+ x)
  = match walk fs (start_of fs (a +:+ "/")) (py_split "/" a) with
    | Some loc => walk fs loc (py_split "/" x)
    | None => None
    end.
Proof.
  unfold resolve. rewrite eqb_empty_app by (now destruct x).
  rewrite <- append_assoc, start_of_app by (apply append_not_empty; discriminate).
  now rewrite append_assoc, py_split_join, walk_app.
Qed.

Lemma resolve_with_sep (fs : filesystem) (a : string) :
  resolve fs (a +:+ "/")
  = match walk fs (start_of fs (a +:+ "/")) (py_split "/" a) with
    | Some loc => if dir_at fs loc then Some loc else None
    | None => None
    end.
Proof.
  unfold resolve. rewrite eqb_empty_app by discriminate.
  rewrite py_split_app_sep, walk_app. reflexivity.
Qed.

(** The components of a joined path: those of the directory, then
    those of what was joined. *)
Lemma resolve_join (fs : filesystem) (a x : string) (loc : list string) :
  startswith x "/" = false ->
  resolve fs a = Some loc -> dir_at fs loc = true ->
  resolve fs (path_join a x) = walk fs loc (py_split "/" x).
Proof.
  intros Hx Hr Hd. assert (Ha : a <> "") by (intros ->; discriminate).
  rewrite (path_join_relative _ _ Hx). apply String.eqb_neq in Ha as Ha'. rewrite Ha'.
  cbn [orb]. destruct (endswith a "/") eqn:Ee.
  - destruct (endswith_sep_inv _ Ee) as [a' ->]. rewrite append_empty_l.
    rewrite resolve_with_sep in Hr. rewrite append_assoc, resolve_sep.
    destruct (walk fs _ (py_split "/" a')) as [l0 |]; [| discriminate].
    destruct (dir_at fs l0); [| discriminate]. now inversion Hr.
  - rewrite resolve_sep, start_of_app by assumption.
    unfold resolve in Hr. rewrite Ha' in Hr. now rewrite Hr.
Qed.

Lemma walk_name (fs : filesystem) (loc l : list string) (x : string) :
  is_special x = false ->
  walk fs loc [x] = Some l -> dir_at fs loc = true /\ l = (loc ++ [x])%list.
Proof.
  unfold is_special. intros Hs. apply orb_false_elim in Hs. destruct Hs as [Hs H3].
  cbn [walk]. destruct (dir_at fs loc); [| discriminate].
  rewrite Hs, H3. intros H. now inversion H.
Qed.

(** A name joined to a path resolves only below a directory that the
    path names. *)
Lemma resolve_join_name (fs : filesystem) (a x : string) (l : list string) :
  a <> "" -> contains "/" x = false -> is_special x = false ->
  resolve fs (path_join a x) = Some l ->
  exists loc, resolve fs a = Some loc /\ dir_at fs loc = true /\ l = (loc ++ [x])%list.
Proof.
  intros Ha Hc Hs.
  assert (Hx : startswith x "/" = false).
  { destruct x as [| c x]; [reflexivity |]. now apply contains_false_cons in Hc. }
  rewrite (path_join_relative _ _ Hx). apply String.eqb_neq in Ha as Ha'. rewrite Ha'.
  cbn [orb]. destruct (endswith a "/") eqn:Ee.
  - destruct (endswith_sep_inv _ Ee) as [a' ->]. rewrite append_empty_l.
    rewrite append_assoc, resolve_sep, resolve_with_sep, (py_split_plain _ Hc).
    destruct (walk fs _ (py_split "/" a')) as [l0 |]; [| discriminate].
    intros H. apply (walk_name _ _ _ _ Hs) in H. destruct H as [Hd ->].
    exists l0. now rewrite Hd.
  - rewrite resolve_sep, start_of_app, (py_split_plain _ Hc) by assumption.
    unfold resolve. rewrite Ha'.
    destruct (walk fs _ (py_split "/" a)) as [l0 |]; [| discriminate].
    intros H. apply (walk_name _ _ _ _ Hs) in H. destruct H as [Hd ->].
    exists l0. auto.
Qed.

Lemma child_name_app (loc : list string) (name : string) :
  child_name loc (loc ++ [name]) = Some name.
Proof.
  induction loc as [| a loc IH]; [reflexivity |].
  cbn [app child_name]. now rewrite String.eqb_refl.
Qed.

Lemma children_elem (fs : filesystem) (loc : list string) (name : string) (n : node) :
  nodes fs !! (loc ++ [name])%list = Some n -> (name, n) ∈ children fs loc.
Proof.
  intros H. unfold children. apply list_elem_of_omap.
  exists ((loc ++ [name])%list, n). split.
  - now apply elem_of_map_to_list.
  - cbn [fst snd]. now rewrite child_name_app.
Qed.

(** A file in a directory is among the file names of its listing. *)
Lemma walk_top_lists_file (fs : filesystem) (dir : string) (loc : list string)
  (name : string) (c : file_content) :
  resolve fs dir = Some loc -> dir_at fs loc = true ->
  nodes fs !! (loc ++ [name])%list = Some (File c) ->
  exists dirnames filenames,
    walk_top fs dir = Ok (dir, dirnames, filenames) /\ In name filenames.
Proof.
  intros Hr Hd Hn. unfold walk_top. rewrite Hr, Hd. eexists. eexists.
  split; [reflexivity |].
  apply in_map_iff. exists (name, File c). split; [reflexivity |].
  apply list_elem_of_In, list_elem_of_filter. split; [reflexivity |].
  now apply children_elem.
Qed.

Lemma special_json (v : string) : is_special (v +:+ ".json") = false.
Proof.
  destruct v as [| a [| b [| c v]]]; rewrite ?append_cons, ?append_empty_l;
    unfold is_special; cbn [String.eqb];
    repeat match goal with
           | |- context [Ascii.eqb ?x ?y] => destruct (Ascii.eqb x y)
           end; reflexivity.
Qed.

Lemma contains_app_plain (x t : string) :
  contains "/" x = false -> contains "/" t = false -> contains "/" (x +:+ t) = false.
Proof.
  intros Hx Ht. induction x as [| c x IH]; [now rewrite append_empty_l |].
  apply contains_false_cons in Hx. destruct Hx as [Hp Hc].
  rewrite append_cons, contains_cons, (IH Hc), orb_false_r.
  rewrite prefix_char in *. exact Hp.
Qed.

(** X9: what was saved is listed, under a trimmed name.  After
    [create_test_results_view] or [update_test_results_view] has
    returned for the folder [folder] and a view whose stripped name
    [view] contains no slash, [get_available_views] of the stripped
    folder returns a listing whose "views" has view.strip(".json"):
    the name without every leading and trailing character among
    ".", "j", "s", "o" and "n", not the name without the extension. *)
Theorem saved_view_is_listed (self : TestcaseReporting) (filter_data r : dict)
  (save_type : pyval) (fs fs1 : filesystem) (folder view : string) (filters : pyval) :
  create_test_results_view self filter_data save_type fs = (fs1, Ok r) \/
  update_test_results_view self filter_data fs = (fs1, Ok r) ->
  dict_get "folder" filter_data = Some (VStr folder) ->
  dict_get "view" filter_data = Some (VStr view) ->
  dict_get "filters" filter_data = Some filters ->
  test_results_folder self <> "" ->
  contains "/" (py_strip view) = false ->
  exists folders views,
    get_available_views self fs1 (VStr (py_strip folder))
    = Ok [(KStr "views", VList views); (KStr "folders", VList folders)] /\
    In (VStr (strip_chars ".json" (py_strip view))) views.
Proof.
  intros H Ef Ev Efl Hroot Hplain.
  assert (Hsave : __save_test_results_view self filter_data fs = (fs1, Ok r)).
  { destruct H as [H | H]; [now apply create_is_save in H | now apply update_is_save]. }
  destruct (save_writes_filters _ _ _ _ _ _ _ _ Ef Ev Efl Hsave) as [_ Hstat].
  set (root := test_results_folder self) in *.
  set (F := py_strip folder) in *. set (V := py_strip view) in *.
  assert (Hdir : exists dir, view_dir self (VStr F) = Ok dir /\ dir <> "" /\
                             path_join dir (V +:+ ".json")
                             = path_join (path_join root F) (V +:+ ".json")).
  { unfold view_dir. fold root. destruct (truthy (VStr F)) eqn:Et.
    - exists (path_join root F). rewrite py_path_join_str.
      split; [reflexivity |]. split; [| reflexivity].
      apply path_join_not_empty. now apply truthy_str.
    - exists root. split; [reflexivity |]. split; [exact Hroot |].
      assert (HF : F = "").
      { destruct (String.eqb F "") eqn:E; [now apply String.eqb_eq |].
        cbn [truthy] in Et. now rewrite E in Et. }
      now rewrite HF, path_join_empty_folder. }
  destruct Hdir as (dir & Hview & Hne & Hpath). rewrite <- Hpath in Hstat.
  unfold stat in Hstat.
  destruct (resolve fs1 (path_join dir (V +:+ ".json"))) as [l |] eqn:Hr; [| discriminate].
  cbn [mbind option_bind] in Hstat.
  apply resolve_join_name in Hr;
    [| exact Hne | now apply contains_app_plain | apply special_json].
  destruct Hr as (loc & Hrd & Hd & ->). rewrite node_at_nonroot in Hstat.
  destruct (walk_top_lists_file _ _ _ _ _ Hrd Hd Hstat) as (dirnames & filenames & Hw & Hin).
  unfold get_available_views. rewrite Hview, bind_ok. cbv beta. rewrite Hw, bind_ok.
  cbv beta iota. eexists. eexists. split; [reflexivity |].
  rewrite <- (strip_chars_suffix ".json" V ".json") by reflexivity.
  apply in_map_iff. exists (V +:+ ".json"). auto.
Qed.

Lemma saved_view_is_listed_witness :
  exists folders views,
    get_available_views store fs_with_view (VStr (py_strip "f"))
    = Ok [(KStr "views", VList views); (KStr "folders", VList folders)] /\
    In (VStr (strip_chars ".json" (py_strip "v"))) views.
Proof.
  apply (saved_view_is_listed store view_f_v view_f_v VNone
           fs_empty_store fs_with_view "f" "v" (VDict [])).
  - left. vm_compute. reflexivity.
  - reflexivity.
  - reflexivity.
  - reflexivity.
  - discriminate.
  - vm_compute. reflexivity.
Defined.

(** A view named "jason" is listed as "a", and no view can be read
    under that name. *)
Example listed_name_is_trimmed :
  let payload := [(KStr "folder", VStr ""); (KStr "view", VStr "jason");
                  (KStr "filters", VDict [])] in
  let fs1 := fst (create_test_results_view store payload VNone fs_empty_store) in
  get_available_views store fs1 VNone
  = Ok [(KStr "views", VList [VStr "a"]); (KStr "folders", VList [])] /\
  read_view_data store fs1 (VStr "a") (VBool false)
  = Err (IOError "No such file or directory") /\
  read_view_data store fs1 (VStr "jason") (VBool false) = Ok (VDict []).
Proof. vm_compute. repeat split; reflexivity. Qed.

(** ** Moving a view into a folder *)

Lemma tree_shaped_parent (fs : filesystem) (k : list string) (n : node) :
  tree_shaped fs = true -> nodes fs !! k = Some n -> dir_at fs (removelast k) = true.
Proof.
  unfold tree_shaped. rewrite forallb_forall. intros H Hk.
  apply (H (k, n)). apply list_elem_of_In. now apply elem_of_map_to_list.
Qed.

(** In a tree-shaped filesystem nothing lies below a file. *)
Lemma no_node_below_file (fs : filesystem) (sloc r : list string) (c : file_content) :
  tree_shaped fs = true -> sloc <> [] -> nodes fs !! sloc = Some (File c) ->
  r <> [] -> nodes fs !! (sloc ++ r)%list = None.
Proof.
  intros Hwf Hne Hs. induction r as [| x r IH] using rev_ind; [contradiction |].
  intros _. destruct (nodes fs !! (sloc ++ r ++ [x])%list) as [n |] eqn:E; [| reflexivity].
  exfalso. apply (tree_shaped_parent _ _ _ Hwf) in E.
  rewrite app_assoc, removelast_last in E. unfold dir_at in E.
  destruct r as [| y r].
  - rewrite app_nil_r, (nonroot_node _ _ Hne), Hs in E. discriminate.
  - rewrite nonroot_node, IH in E by (try discriminate; now destruct sloc).
    discriminate.
Qed.

Lemma strip_prefix_nil_inv (loc k : list string) :
  strip_prefix loc k = Some [] -> k = loc.
Proof. intros H. apply strip_prefix_Some in H. now rewrite app_nil_r in H. Qed.

(** Moving a file that has nothing below it to a free place: the file
    is taken out and put in. *)
Lemma relocate_file (fs : filesystem) (sloc tloc : list string) (c : file_content) :
  tree_shaped fs = true -> sloc <> [] -> nodes fs !! sloc = Some (File c) ->
  relocate (nodes fs) sloc tloc = <[tloc := File c]> (delete sloc (nodes fs)).
Proof.
  intros Hwf Hne Hs. unfold relocate.
  set (moved := omap _ (map_to_list (nodes fs))).
  assert (Hmoved : forall k y, (k, y) ∈ moved <-> k = tloc /\ y = File c).
  { intros k y. unfold moved. rewrite list_elem_of_omap. split.
    - intros ([k0 n] & Hin & Hf). apply elem_of_map_to_list in Hin. cbn [fst snd] in Hf.
      destruct (strip_prefix sloc k0) as [r |] eqn:Er; [| discriminate].
      cbn [mbind option_bind] in Hf. inversion Hf; subst k y. clear Hf.
      apply strip_prefix_Some in Er. subst k0.
      destruct r as [| x r].
      + rewrite app_nil_r in *. split; [reflexivity | congruence].
      + rewrite (no_node_below_file fs sloc (x :: r) c) in Hin by (assumption || discriminate).
        discriminate.
    - intros [-> ->]. exists (sloc, File c). split; [now apply elem_of_map_to_list |].
      cbn [fst snd]. rewrite strip_prefix_self. cbn [mbind option_bind].
      now rewrite app_nil_r. }
  apply map_eq. intros k. destruct (decide (k = tloc)) as [-> | Hk].
  - rewrite lookup_insert_eq. apply lookup_union_Some_l.
    apply elem_of_list_to_map_1'; [| now apply Hmoved].
    intros y Hy. apply Hmoved in Hy. now destruct Hy.
  - rewrite lookup_insert_ne by congruence.
    rewrite lookup_union_r.
    + destruct (decide (k = sloc)) as [-> | Hks].
      * rewrite lookup_delete_eq. apply map_lookup_filter_None. right.
        intros x _. cbn [fst]. now rewrite strip_prefix_self.
      * rewrite lookup_delete_ne by congruence.
        destruct (nodes fs !! k) as [n |] eqn:En.
        -- apply map_lookup_filter_Some. split; [exact En |]. cbn [fst].
           destruct (strip_prefix sloc k) as [r |] eqn:Er; [| reflexivity].
           exfalso. apply strip_prefix_Some in Er. subst k.
           destruct r as [| x r]; [now rewrite app_nil_r in Hks |].
           rewrite (no_node_below_file fs sloc (x :: r) c) in En
             by (assumption || discriminate).
           discriminate.
        -- apply map_lookup_filter_None. now left.
    + apply not_elem_of_list_to_map_1. intros Hin.
      apply list_elem_of_fmap in Hin. destruct Hin as ([k' y] & Hk' & Hin).
      cbn [fst] in Hk'. subst k'. apply Hmoved in Hin. now destruct Hin.
Qed.

Lemma ascii_in_contains (c : ascii) (x : string) :
  ascii_in c x = false -> contains (String c "") x = false.
Proof.
  induction x as [| a x IH]; intros H; [reflexivity |].
  rewrite ascii_in_cons in H. apply orb_false_elim in H. destruct H as [Ha Hx].
  rewrite contains_cons, prefix_char, (IH Hx), Ascii.eqb_sym, Ha. reflexivity.
Qed.

Lemma ascii_in_app (c : ascii) (a b : string) :
  ascii_in c (a +:+ b) = ascii_in c a || ascii_in c b.
Proof.
  induction a as [| x a IH]; [reflexivity |].
  rewrite append_cons, !ascii_in_cons, IH. apply orb_assoc.
Qed.

Lemma after_last_app (c0 : ascii) (a t : string) :
  ascii_in c0 t = false ->
  after_last c0 (a +:+ t)
  = match after_last c0 a with Some u => Some (u +:+ t) | None => None end.
Proof.
  intros Ht. induction a as [| c a IH].
  - rewrite append_empty_l. cbn [after_last].
    destruct (after_last c0 t) as [u |] eqn:E; [| reflexivity].
    apply after_last_Some in E. destruct E as (q & -> & _).
    rewrite ascii_in_app, ascii_in_cons, Ascii.eqb_refl, orb_true_r in Ht. discriminate.
  - rewrite append_cons. cbn [after_last]. rewrite IH.
    destruct (after_last c0 a); [reflexivity |]. now destruct (Ascii.eqb c c0).
Qed.

Lemma basename_last_item (p t : string) :
  last_item (py_split "/" p) = Ok t -> basename p = t.
Proof.
  unfold last_item, basename. destruct (List.rev (py_split "/" p)); [discriminate |].
  intros H. now inversion H.
Qed.

Lemma basename_after_last (p : string) :
  basename p = match after_last "/" p with Some t => t | None => p end.
Proof.
  apply basename_last_item. unfold py_split. now rewrite split_go_last, append_empty_l.
Qed.

(** The base name of a path that gets a slash-free suffix gets the
    suffix. *)
Lemma basename_app (a t : string) :
  ascii_in "/" t = false -> basename (a +:+ t) = basename a +:+ t.
Proof.
  intros Ht. rewrite !basename_after_last, (after_last_app _ _ _ Ht).
  now destruct (after_last "/" a).
Qed.

Lemma basename_plain (p : string) : contains "/" (basename p) = false.
Proof.
  apply ascii_in_contains. rewrite basename_after_last.
  destruct (after_last "/" p) as [t |] eqn:E.
  - apply after_last_Some in E. now destruct E as (q & _ & H).
  - now apply after_last_None.
Qed.

Lemma rstrip_sep_json (a : string) : rstrip_sep (a +:+ ".json") = a +:+ ".json".
Proof.
  unfold rstrip_sep. rewrite str_rev_app.
  change (str_rev ".json") with (String "n" "osj."). rewrite append_cons.
  cbn [lstrip_chars]. change (ascii_in "n" "/") with false. cbv iota.
  rewrite <- append_cons. change (String "n" "osj.") with (str_rev ".json").
  now rewrite <- str_rev_app, str_rev_involutive.
Qed.

Lemma loc_eqb_eq (a b : list string) : loc_eqb a b = true -> a = b.
Proof.
  unfold loc_eqb. destruct (strip_prefix a b) as [[| x r] |] eqn:E; try discriminate.
  intros _. symmetry. now apply strip_prefix_nil_inv.
Qed.

Lemma split_last_app (l : list string) (x : string) : split_last (l ++ [x]) = (l, x).
Proof. unfold split_last. now rewrite removelast_last, last_last. Qed.

(** The place that a name joined to a directory is about to take *)
Lemma resolve_target_join (fs : filesystem) (a x : string) (loc : list string) :
  contains "/" x = false -> is_special x = false ->
  resolve fs a = Some loc -> dir_at fs loc = true ->
  resolve_target fs (path_join a x) = Some (loc ++ [x])%list.
Proof.
  intros Hc Hs Hr Hd. assert (Ha : a <> "") by (intros ->; discriminate).
  assert (Hx : startswith x "/" = false).
  { destruct x as [| c x]; [reflexivity |]. now apply contains_false_cons in Hc. }
  rewrite (path_join_relative _ _ Hx). apply String.eqb_neq in Ha as Ha'. rewrite Ha'.
  cbn [orb]. unfold resolve_target.
  destruct (endswith a "/") eqn:Ee.
  - destruct (endswith_sep_inv _ Ee) as [a' ->]. rewrite append_empty_l.
    rewrite resolve_with_sep in Hr.
    rewrite eqb_empty_app by (intros ->; discriminate).
    rewrite start_of_app by (apply append_not_empty; discriminate).
    rewrite append_assoc, py_split_join, (py_split_plain _ Hc), split_last_app.
    destruct (walk fs _ (py_split "/" a')) as [l0 |]; [| discriminate].
    destruct (dir_at fs l0) eqn:E0; [| discriminate]. inversion Hr; subst l0.
    now rewrite Hs.
  - rewrite eqb_empty_app by (now destruct x).
    rewrite start_of_app by assumption.
    rewrite py_split_join, (py_split_plain _ Hc), split_last_app.
    unfold resolve in Hr. rewrite Ha' in Hr. now rewrite Hr, Hd, Hs.
Qed.

Lemma resolve_join_plain (fs : filesystem) (a x : string) (loc : list string) :
  contains "/" x = false -> is_special x = false ->
  resolve fs a = Some loc -> dir_at fs loc = true ->
  resolve fs (path_join a x) = Some (loc ++ [x])%list.
Proof.
  intros Hc Hs Hr Hd.
  assert (Hx : startswith x "/" = false).
  { destruct x as [| c x]; [reflexivity |]. now apply contains_false_cons in Hc. }
  rewrite (resolve_join _ _ _ _ Hx Hr Hd), (py_split_plain _ Hc). cbn [walk]. rewrite Hd.
  unfold is_special in Hs. apply orb_false_elim in Hs. destruct Hs as [Hs H3].
  now rewrite Hs, H3.
Qed.

Lemma stat_file_resolves (fs : filesystem) (p : string) (c : file_content) :
  stat fs p = Some (File c) ->
  exists loc, resolve fs p = Some loc /\ loc <> [] /\ nodes fs !! loc = Some (File c).
Proof.
  unfold stat. destruct (resolve fs p) as [loc |]; [| discriminate].
  cbn [mbind option_bind]. destruct loc as [| a loc]; [discriminate |].
  intros H. exists (a :: loc). repeat split; [discriminate | exact H].
Qed.

(** X10: moving a view into a folder.  In a tree-shaped filesystem,
    let <root>/<src>.json be a view and <root>/<dest> a directory.
    When the directory already has an entry with the name of the view
    file, [move_test_results_view] raises the [shutil.Error] and
    changes nothing: nothing is overwritten.  Otherwise it returns, the
    view file is at <root>/<dest>/<name>.json with the content it had,
    its old path names nothing, and no other node has changed. *)
Theorem move_view_into_folder (self : TestcaseReporting) (fs : filesystem)
  (src dest : string) (c : file_content) :
  let full_src := path_join (test_results_folder self) src +:+ ".json" in
  let full_dest := path_join (test_results_folder self) dest in
  let real_dst := path_join full_dest (basename full_src) in
  tree_shaped fs = true ->
  stat fs full_src = Some (File c) ->
  path_isdir fs full_dest = true ->
  (path_exists fs real_dst = true ->
   move_test_results_view self src dest fs
   = (fs, Err (ShutilError ("Destination path '" +:+ real_dst +:+ "' already exists")))) /\
  (path_exists fs real_dst = false ->
   exists sloc dloc,
     resolve fs full_src = Some sloc /\ resolve fs full_dest = Some dloc /\
     let fs' := with_nodes fs (<[(dloc ++ [basename full_src])%list := File c]>
                                 (delete sloc (nodes fs))) in
     move_test_results_view self src dest fs = (fs', Ok tt) /\
     stat fs' real_dst = Some (File c) /\
     path_exists fs' full_src = false).
Proof.
  intros full_src full_dest real_dst Hwf Hsrc Hdest.
  destruct (stat_file_resolves _ _ _ Hsrc) as (sloc & Hrs & Hsne & Hsn).
  destruct (isdir_resolves _ _ Hdest) as (dloc & Hdne & Hrd & Hdd).
  assert (Hbase : basename full_src
                  = basename (path_join (test_results_folder self) src) +:+ ".json")
    by (unfold full_src; now rewrite basename_app).
  assert (Hplain : contains "/" (basename full_src) = false) by apply basename_plain.
  assert (Hspecial : is_special (basename full_src) = false)
    by (rewrite Hbase; apply special_json).
  set (tloc := (dloc ++ [basename full_src])%list).
  assert (Hrt : resolve fs real_dst = Some tloc) by now apply resolve_join_plain.
  assert (Hmove : move_test_results_view self src dest fs
                  = effect (fun fs => shutil_move fs full_src full_dest) fs).
  { unfold move_test_results_view. fold full_src. fold full_dest.
    unfold mbind, SE_bind, get_state, raise, pure.
    assert (He : path_exists fs full_dest = true).
    { unfold path_isdir in Hdest. unfold path_exists. now destruct (stat fs full_dest). }
    assert (Hf : path_isfile fs full_src = true) by (unfold path_isfile; now rewrite Hsrc).
    now rewrite He, Hf. }
  assert (Hsame : samefile fs full_src full_dest = false).
  { unfold samefile. rewrite Hrs, Hrd.
    destruct (node_at fs sloc), (node_at fs dloc); try reflexivity.
    destruct (loc_eqb sloc dloc) eqn:E; [| reflexivity].
    apply loc_eqb_eq in E. subst dloc. unfold dir_at in Hdd.
    rewrite (nonroot_node _ _ Hsne), Hsn in Hdd. discriminate. }
  assert (Hshutil : shutil_move fs full_src full_dest
                    = if path_exists fs real_dst
                      then Err (ShutilError ("Destination path '" +:+ real_dst
                                             +:+ "' already exists"))
                      else move_to fs full_src full_dest real_dst).
  { unfold shutil_move. rewrite Hdest, Hsame.
    assert (Hr : rstrip_sep full_src = full_src) by apply rstrip_sep_json.
    now rewrite Hr. }
  split; intros Hex.
  - rewrite Hmove. unfold effect. now rewrite Hshutil, Hex.
  - exists sloc, dloc. split; [exact Hrs |]. split; [exact Hrd |]. fold tloc.
    assert (Htn : nodes fs !! tloc = None).
    { unfold path_exists, stat in Hex. rewrite Hrt in Hex. cbn [mbind option_bind] in Hex.
      unfold tloc in *. rewrite node_at_nonroot in Hex.
      now destruct (nodes fs !! (dloc ++ [basename full_src])%list). }
    assert (Hst : sloc <> tloc) by (intros E; rewrite E in Hsn; congruence).
    assert (Hrename : rename fs full_src real_dst
                      = Ok (with_nodes fs (relocate (nodes fs) sloc tloc))).
    { unfold rename. rewrite Hrs.
      unfold real_dst. rewrite (resolve_target_join _ _ _ _ Hplain Hspecial Hrd Hdd).
      fold tloc. destruct sloc as [| s0 sloc']; [contradiction |]. rewrite Hsn.
      destruct (loc_eqb (s0 :: sloc') tloc) eqn:E; [now apply loc_eqb_eq in E |].
      unfold tloc. rewrite node_at_nonroot. fold tloc. now rewrite Htn. }
    rewrite (relocate_file fs sloc tloc c Hwf Hsne Hsn) in Hrename.
    set (fs' := with_nodes fs _) in *.
    split.
    { rewrite Hmove. unfold effect. rewrite Hshutil, Hex. unfold move_to.
      now rewrite Hrename. }
    assert (Hdirs : forall l, dir_at fs' l = dir_at fs l).
    { intros l. unfold dir_at, node_at. destruct l as [| a l]; [reflexivity |].
      unfold fs', with_nodes. cbn [nodes].
      destruct (decide (a :: l = tloc)) as [E | E].
      - rewrite E, lookup_insert_eq, Htn. reflexivity.
      - rewrite lookup_insert_ne by congruence.
        destruct (decide (a :: l = sloc)) as [E' | E'].
        + rewrite E', lookup_delete_eq, Hsn. reflexivity.
        + now rewrite lookup_delete_ne by congruence. }
    split.
    + assert (Hrd' : resolve fs' full_dest = Some dloc).
      { unfold resolve in *. destruct (String.eqb full_dest ""); [discriminate |].
        change (start_of fs' full_dest) with (start_of fs full_dest).
        apply (walk_mono fs fs'); [| exact Hrd]. intros l. now rewrite Hdirs. }
      unfold stat. unfold real_dst.
      rewrite (resolve_join_plain fs' _ _ _ Hplain Hspecial Hrd')
        by now rewrite Hdirs.
      cbn [mbind option_bind]. rewrite node_at_nonroot. fold tloc.
      unfold fs', with_nodes. cbn [nodes]. now rewrite lookup_insert_eq.
    + unfold path_exists, stat, resolve in *.
      destruct (String.eqb full_src ""); [reflexivity |].
      change (start_of fs' full_src) with (start_of fs full_src).
      destruct (walk fs' _ _) as [l |] eqn:Ew; [| reflexivity].
      apply (walk_mono fs' fs) in Ew; [| intros l0; now rewrite Hdirs].
      rewrite Ew in Hrs. inversion Hrs; subst l. cbn [mbind option_bind].
      rewrite (nonroot_node _ _ Hsne). unfold fs', with_nodes. cbn [nodes].
      rewrite lookup_insert_ne by congruence. now rewrite lookup_delete_eq.
Qed.

Lemma move_view_into_folder_witness :
  exists sloc dloc,
    resolve fs_a_b (path_join (test_results_folder store) "a" +:+ ".json") = Some sloc /\
    resolve fs_a_b (path_join (test_results_folder store) "b") = Some dloc /\
    let fs' := with_nodes fs_a_b
                 (<[(dloc ++ [basename (path_join (test_results_folder store) "a"
                                        +:+ ".json")])%list
                    := File (JsonText (VDict []) 4)]>
                    (delete sloc (nodes fs_a_b))) in
    move_test_results_view store "a" "b" fs_a_b = (fs', Ok tt) /\
    stat fs' (path_join (path_join (test_results_folder store) "b")
                        (basename (path_join (test_results_folder store) "a" +:+ ".json")))
    = Some (File (JsonText (VDict []) 4)) /\
    path_exists fs' (path_join (test_results_folder store) "a" +:+ ".json") = false.
Proof.
  apply (move_view_into_folder store fs_a_b "a" "b" (JsonText (VDict []) 4));
    vm_compute; reflexivity.
Defined.

(** ** What escapes the [try] block, and what it swallows *)

Lemma create_twice_raises_name_error_witness :
  create_test_results_view store view_f_v VNone fs_with_view
  = (fs_with_view, Err (NameError "folders")).
Proof.
  apply (create_twice_raises_name_error store view_f_v view_f_v VNone
           fs_empty_store fs_with_view).
  vm_compute. reflexivity.
Defined.

Lemma create_mode_always_raises_witness :
  exists e,
    get_test_case_data store world_one_record fs_with_view request_create_mode = Err e /\
    forall msg, e <> Exception_ msg.
Proof.
  apply (create_mode_always_raises store world_one_record fs_with_view request_create_mode
           [(KStr "create_mode", VBool true); (KStr "folders", VStr "f");
            (KStr "view_name", VStr "v")]); reflexivity.
Defined.

(** X13: what a request raises before the [try] block is entered.  A
    request that is not a key-value mapping raises [AttributeError]; a
    request with "folders" and without "view_name" raises
    [UnboundLocalError] for the local [view_name]; a request with
    "create_mode" and without "folders" raises [KeyError].  None of them
    is answered with a payload, whatever the search service does. *)
Theorem request_errors_escape (self : TestcaseReporting) (w : world) (fs : filesystem)
  (data : pyval) :
  ((forall d, py_or data (request_json w) <> VDict d) ->
   get_test_case_data self w fs data = Err (AttributeError "get")) /\
  (forall d, py_or data (request_json w) = VDict d ->
     (dict_has "folders" d = true -> dict_has "view_name" d = false ->
      get_test_case_data self w fs data = Err (UnboundLocalError "view_name")) /\
     (dict_has "create_mode" d = true -> dict_has "folders" d = false ->
      get_test_case_data self w fs data = Err (KeyError "folders"))).
Proof.
  unfold get_test_case_data. split.
  - intros H. destruct (py_or data (request_json w)) as [| b | z | s | l | d];
      try reflexivity. now destruct (H d).
  - intros d ->. cbn [as_dict]. rewrite bind_ok. cbv beta zeta.
    unfold check_view. split.
    + intros Hf Hv. rewrite Hf, Hv. unfold dict_getitem. unfold dict_has in Hf.
      destruct (dict_get "folders" d); [reflexivity | discriminate].
    + intros Hc Hf. rewrite Hc, Hf. rewrite bind_ok. cbv beta.
      unfold dict_getitem. unfold dict_has in Hf.
      destruct (dict_get "folders" d); [discriminate | reflexivity].
Qed.

Lemma request_errors_escape_witness :
  get_test_case_data store world_one_record fs_empty_store
    (VDict [(KStr "folders", VStr "f")])
  = Err (UnboundLocalError "view_name").
Proof.
  apply (proj2 (request_errors_escape store world_one_record fs_empty_store
                  (VDict [(KStr "folders", VStr "f")]))
               [(KStr "folders", VStr "f")] eq_refl); reflexivity.
Defined.

(** When [_get_date_filters] raises, it has written nothing. *)
Lemma date_filters_raise_clean (w : world) (data s : dict) (e : exn) :
  snd (_get_date_filters w data s) = Err e -> fst (_get_date_filters w data s) = s.
Proof.
  unfold _get_date_filters, mbind, SE_bind, lift, modify, pure.
  repeat match goal with
         | |- context [if ?b then _ else _] => destruct b
         end;
    repeat match goal with
           | |- context [match ?r with Ok _ => _ | Err _ => _ end] =>
               destruct r; cbn [fst snd]
           end;
    (discriminate || reflexivity).
Qed.

Lemma gather_date_failed (self : TestcaseReporting) (w : world) (d s : dict) (e : exn) :
  snd (_get_date_filters w d s) = Err e -> gather self w d s = (s, Err e).
Proof.
  intros H. pose proof (date_filters_raise_clean _ _ _ _ H) as Hs.
  unfold gather. unfold mbind at 1, SE_bind.
  destruct (_get_date_filters w d s) as [s1 [[f t] | e1]]; cbn [fst snd] in *;
    [discriminate |]. congruence.
Qed.

(** X14: a date filter that cannot be resolved gives the payload as it
    stood before the [try] block.  For a request without "create_mode"
    (and with a string view identity if it names a folder): when the
    filter is "date" and "to_date" or "from_date" is missing, or the
    filter is "days" and "days" is not something [int] accepts, the
    answer is exactly the initial [final_dict]: no error, no default
    range, no query. *)
Theorem unresolved_date_filter_gives_initial_payload (self : TestcaseReporting)
  (w : world) (fs : filesystem) (data : pyval) (d : dict) :
  py_or data (request_json w) = VDict d ->
  dict_has "create_mode" d = false ->
  view_identity_ok d ->
  (dict_get_default "filter" VNone d = VStr "date" /\
   (dict_get "to_date" d = None \/ dict_get "from_date" d = None)) \/
  (dict_get_default "filter" VNone d = VStr "days" /\
   exists e, py_int (dict_get_default "days" VNone d) = Err e) ->
  get_test_case_data self w fs data = Ok (initial_final_dict d).
Proof.
  intros Hd Hc Hv Hbad. unfold get_test_case_data. rewrite Hd. cbn [as_dict].
  rewrite bind_ok. cbv beta zeta. rewrite (check_view_passes self fs d Hc Hv), bind_ok.
  cbv beta. f_equal. rewrite assemble_run.
  assert (H : exists e, snd (_get_date_filters w d (initial_final_dict d)) = Err e).
  { unfold _get_date_filters, mbind, SE_bind, lift, modify, pure, result_bind, rbind,
      dict_getitem.
    destruct Hbad as [[Hf Hb] | [Hf [e He]]]; rewrite Hf;
      cbn [pyval_eqb String.eqb Ascii.eqb Bool.eqb].
    - destruct Hb as [Hb | Hb]; rewrite Hb;
        repeat match goal with
               | |- context [match ?r with Ok _ => _ | Err _ => _ end] =>
                   destruct r; cbn [fst snd]
               | |- context [match ?r with Some _ => _ | None => _ end] =>
                   destruct r; cbn [fst snd]
               end; eauto.
    - rewrite He. destruct (strftime_ymd (today w)); cbn [snd]; eauto. }
  destruct H as [e He]. now rewrite (gather_date_failed self w d _ e He).
Qed.

(** A "days" that [int] accepts with white space after its sign is
    resolved, not refused: five days ahead of the clock. *)
Example days_with_spaced_sign :
  snd (_get_date_filters world_one_record
         [(KStr "filter", VStr "days"); (KStr "days", VStr "- 5")] [])
  = Ok (VStr "2021-02-05", VStr "2021-01-31").
Proof. vm_compute. reflexivity. Qed.

Lemma unresolved_date_filter_gives_initial_payload_witness :
  get_test_case_data store world_one_record fs_empty_store
    (VDict [(KStr "filter", VStr "days"); (KStr "days", VStr "five")])
  = Ok (initial_final_dict [(KStr "filter", VStr "days"); (KStr "days", VStr "five")]).
Proof.
  apply unresolved_date_filter_gives_initial_payload.
  - reflexivity.
  - reflexivity.
  - intros H. vm_compute in H. discriminate.
  - right. split; [reflexivity |]. eexists. vm_compute. reflexivity.
Defined.

(** ** Rows *)

Lemma untouched_field_stays_NA_witness :
  let source := [(KStr "type", VStr "L2ADD"); (KStr "status", VStr "passed")] in
  exists row',
    copy_fields source
      (dict_update (dict_update (default_row fields_visible0) []) []) (dict_keys source)
    = Ok row' /\
    dict_get "sut" row' = Some (VStr "NA").
Proof.
  intros source.
  destruct (copy_fields source
              (dict_update (dict_update (default_row fields_visible0) []) [])
              (dict_keys source)) as [row' | e] eqn:E; [| vm_compute in E; discriminate].
  exists row'. split; [reflexivity |].
  apply (untouched_field_stays_NA fields_visible0 source [] [] row' "sut" E).
  - simpl. tauto.
  - reflexivity.
  - reflexivity.
  - simpl. intuition discriminate.
  - simpl. intuition discriminate.
Defined.

Lemma status_reaches_row_witness :
  let source := [(KStr "type", VStr "L2ADD"); (KStr "status", VStr "passed")] in
  exists row',
    copy_fields source (default_row fields_visible0) (dict_keys source) = Ok row' /\
    dict_get "job" row' = Some (VStr (capitalize "passed")) /\
    dict_get "stage_status" row' = Some (VStr (capitalize "passed")).
Proof.
  intros source.
  destruct (copy_fields source (default_row fields_visible0) (dict_keys source))
    as [row' | e] eqn:E; [| vm_compute in E; discriminate].
  exists row'. split; [reflexivity |].
  apply (status_reaches_row source (dict_keys source) (default_row fields_visible0)
           row' "passed" E).
  - repeat constructor; simpl; intuition discriminate.
  - simpl. tauto.
  - reflexivity.
  - reflexivity.
  - simpl. intuition discriminate.
  - simpl. intuition discriminate.
Defined.

Lemma date_filters_recorded_witness :
  let fd' := fst (_get_date_filters world_one_record [(KStr "filter", VStr "all")] []) in
  dict_get "from_date" fd' = Some VNone /\ dict_get "to_date" fd' = Some VNone.
Proof.
  intros fd'.
  apply (date_filters_recorded world_one_record [(KStr "filter", VStr "all")] [] fd'
           VNone VNone).
  vm_compute. reflexivity.
Defined.

Lemma update_from_items_keeps (k : pykey) (items : list pyval) (d d' : dict) :
  update_from_items d items = Ok d' -> dict_has k d = true -> dict_has k d' = true.
Proof.
  revert d. induction items as [| it items IH]; intros d H Hk.
  - inversion H; subst. exact Hk.
  - cbn [update_from_items] in H.
    destruct (pair_of_item it) as [[k0 x] | e]; [| discriminate].
    rewrite bind_ok in H. apply (IH _ H). now apply dict_has_set_mono.
Qed.

Lemma py_dict_update_keeps (k : pykey) (v : pyval) (d d' : dict) :
  py_dict_update d v = Ok d' -> dict_has k d = true -> dict_has k d' = true.
Proof.
  destruct v as [| b | z | s | l | other]; cbn [py_dict_update]; try discriminate.
  - apply update_from_items_keeps.
  - apply update_from_items_keeps.
  - intros H Hk. inversion H. now apply dict_has_update_mono.
Qed.

(** A field that must hold a string and does not stops the row loop at
    the latest when its turn comes. *)
Lemma copy_fields_aborts (source : dict) (key : string) (v : pyval)
  (fields : list pykey) (row : dict) :
  key = "stage" \/ key = "log_uri" \/ key = "status" ->
  dict_get key source = Some v -> (forall s, v <> VStr s) ->
  In (KStr key) fields -> dict_has key row = true ->
  exists e, copy_fields source row fields = Err e.
Proof.
  intros Hkey Hsrc Hv. revert row.
  induction fields as [| field fields IH]; intros row Hin Hrow; [contradiction |].
  cbn [copy_fields].
  destruct (copy_field source row field) as [row1 | e] eqn:E; [| eauto].
  rewrite bind_ok. destruct (pykey_eqb field key) eqn:Ek.
  - apply pykey_eqb_eq in Ek. subst field. exfalso.
    apply copy_field_result in E.
    destruct E as [[E _] | (value & _ & Hval & E)]; [congruence |].
    rewrite Hsrc in Hval. inversion Hval; subst value.
    destruct E as [(_ & s & -> & _) | [(_ & s & t & -> & _) |
                   [(_ & s & -> & _) | [(E & _) | (E & _)]]]];
      try (now apply (Hv s)).
    + inversion E; subst. destruct Hkey as [H | [H | H]]; discriminate.
    + destruct Hkey as [-> | [-> | ->]]; discriminate.
  - apply pykey_eqb_neq in Ek. apply IH.
    + destruct Hin as [-> | Hin]; [contradiction | exact Hin].
    + unfold dict_has in *. rewrite (copy_field_frame _ _ _ _ (KStr key) E).
      * exact Hrow.
      * congruence.
      * unfold derived_of.
        destruct (pykey_eqb field "stage"), (pykey_eqb field "log_uri"),
          (pykey_eqb field "status"), (pykey_eqb field "type");
          destruct Hkey as [-> | [-> | ->]]; simpl; intuition discriminate.
Qed.

Lemma dict_get_In_keys (k : pykey) (d : dict) (v : pyval) :
  dict_get k d = Some v -> In k (dict_keys d).
Proof. intros H. apply dict_has_In. unfold dict_has. now rewrite H. Qed.

(** X21: one malformed record stops the row loop.  When the record has
    "stage", "log_uri" or "status" with a value that is not a string
    (a null, a number), and that field is a catalog field, [shape_row]
    raises: the string method that the derivation calls is missing. *)
Theorem non_string_field_aborts_row (default_row_data source : dict) (key : string)
  (v : pyval) :
  key = "stage" \/ key = "log_uri" \/ key = "status" ->
  dict_get key source = Some v -> (forall s, v <> VStr s) ->
  dict_has key default_row_data = true ->
  exists e, shape_row default_row_data (VDict [(KStr "_source", VDict source)]) = Err e.
Proof.
  intros Hkey Hsrc Hv Hrow. unfold shape_row.
  cbn [py_getitem dict_getitem dict_get pykey_eqb String.eqb Ascii.eqb Bool.eqb].
  rewrite bind_ok. cbv beta. unfold py_get. cbn [as_dict]. rewrite !bind_ok. cbv beta.
  destruct (py_dict_update default_row_data _) as [row1 | e] eqn:E1; [| eauto].
  rewrite !bind_ok. cbv beta.
  destruct (py_dict_update row1 _) as [row2 | e] eqn:E2; [| eauto].
  rewrite !bind_ok. cbv beta.
  apply (copy_fields_aborts source key v); try assumption.
  - now apply (dict_get_In_keys _ _ v).
  - apply (py_dict_update_keeps _ _ _ _ E2), (py_dict_update_keeps _ _ _ _ E1), Hrow.
Qed.

Lemma non_string_field_aborts_row_witness :
  exists e,
    shape_row (default_row fields_visible0)
      (VDict [(KStr "_source", VDict [(KStr "type", VStr "L2ADD"); (KStr "status", VNone)])])
    = Err e.
Proof.
  apply (non_string_field_aborts_row (default_row fields_visible0)
           [(KStr "type", VStr "L2ADD"); (KStr "status", VNone)] "status" VNone).
  - right. right. reflexivity.
  - reflexivity.
  - discriminate.
  - reflexivity.
Defined.

(** ** The rows and the columns of a report *)

Lemma modify_inv {S} (f : S -> S) (s s' : S) (u : unit) :
  modify f s = (s', Ok u) -> s' = f s.
Proof. unfold modify. intros H. now inversion H. Qed.

Lemma list_index_app (x : pykey) (l r : list pykey) (i : nat) :
  list_index x l = Ok i -> list_index x (l ++ r) = Ok i.
Proof.
  revert i. induction l as [| y l IH]; intros i H; [discriminate |].
  cbn [list_index app] in *. destruct (pykey_eqb y x); [exact H |].
  destruct (list_index x l) as [j | e]; [| discriminate].
  rewrite bind_ok in H. now rewrite (IH j eq_refl), bind_ok.
Qed.

Lemma list_remove_app (x : pykey) (l l' r : list pykey) :
  list_remove x l = Ok l' -> list_remove x (l ++ r) = Ok (l' ++ r)%list.
Proof.
  revert l'. induction l as [| y l IH]; intros l' H; [discriminate |].
  cbn [list_remove app] in *. destruct (pykey_eqb y x).
  - now inversion H.
  - destruct (list_remove x l) as [t | e]; [| discriminate].
    rewrite bind_ok in H. inversion H. now rewrite (IH t eq_refl), bind_ok.
Qed.

Lemma list_setitem_app {A} (i : nat) (x : A) (l r : list A) :
  (i < List.length l)%nat -> list_setitem i x (l ++ r) = Ok (<[i := x]> l ++ r)%list.
Proof.
  intros H. unfold list_setitem.
  assert (E : (i <? List.length (l ++ r))%nat = true).
  { apply Nat.ltb_lt. rewrite length_app. lia. }
  rewrite E. f_equal. now apply insert_app_l.
Qed.

Lemma setitem_in_inv (key : string) (i : nat) (x : pyval) (s s' : dict) (u : unit) :
  setitem_in key i x s = (s', Ok u) ->
  exists l l', dict_get key s = Some (VList l) /\ list_setitem i x l = Ok l' /\
               s' = dict_set key (VList l') s.
Proof.
  unfold setitem_in, mbind, SE_bind, get_state, lift, modify, raise, dict_getitem.
  destruct (dict_get key s) as [[| b | z | t | l | d] |]; try discriminate.
  destruct (list_setitem i x l) as [l' | e] eqn:E; [| discriminate].
  intros H. inversion H. exists l, l'. auto.
Qed.

Lemma append_row_inv (request row_data s s' : dict) (u : unit) :
  append_row request row_data s = (s', Ok u) ->
  exists l, dict_get "testinfo" s = Some (VList l) /\
            dict_get "testinfo" s' = Some (VList (l ++ [VDict row_data])) /\
            forall k : string, k <> "testinfo" -> k <> "retain" ->
                               dict_get k s' = dict_get k s.
Proof.
  unfold append_row, mbind, SE_bind, get_state, lift, modify, raise, pure, dict_getitem.
  destruct (dict_get "testinfo" s) as [[| b | z | t | l | d] |]; try discriminate.
  intros H. exists l. split; [reflexivity |].
  destruct (dict_has "testinfo" request && negb (dict_has "retain" request));
    inversion H; subst s'; clear H.
  - split.
    + rewrite dict_get_set_ne by discriminate. apply dict_get_set_eq.
    + intros k K1 K2. rewrite !dict_get_set_ne by congruence. reflexivity.
  - split.
    + apply dict_get_set_eq.
    + intros k K1 K2. rewrite !dict_get_set_ne by congruence. reflexivity.
Qed.

Lemma append_row_err (request row_data s s' : dict) (e : exn) :
  append_row request row_data s = (s', Err e) -> s' = s.
Proof.
  unfold append_row, mbind, SE_bind, get_state, lift, modify, raise, pure, dict_getitem.
  destruct (dict_get "testinfo" s) as [[| b | z | t | l | d] |];
    try (intros H; now inversion H).
  destruct (dict_has "testinfo" request && negb (dict_has "retain" request)); discriminate.
Qed.

(** The loop over the hits of one page, when it completes *)
Lemma shape_hits_ok (request default_row_data : dict) (hits : list pyval) :
  forall (cnt c : Z) (s s' : dict) (l0 : list pyval),
  shape_hits request default_row_data hits cnt s = (s', Ok c) ->
  dict_get "testinfo" s = Some (VList l0) ->
  exists rows,
    Forall2 (shaped default_row_data) hits rows /\
    dict_get "testinfo" s' = Some (VList (l0 ++ rows)) /\
    c = cnt + Z.of_nat (List.length rows) /\
    forall k : string, k <> "testinfo" -> k <> "retain" -> dict_get k s' = dict_get k s.
Proof.
  induction hits as [| hit hits IH]; intros cnt c s s' l0 H H0.
  - cbn [shape_hits] in H. apply pure_inv in H. destruct H as [-> ->].
    exists []. rewrite app_nil_r. repeat split; auto. cbn. lia.
  - cbn [shape_hits] in H.
    apply se_bind_inv in H. destruct H as (row & s1 & H1 & H).
    apply lift_inv in H1. destruct H1 as [-> Hrow].
    apply se_bind_inv in H. destruct H as (u & s2 & Happ & H).
    apply append_row_inv in Happ. destruct Happ as (l & Hl & Hl' & Hframe).
    rewrite H0 in Hl. inversion Hl; subst l. clear Hl.
    destruct (IH _ _ _ _ _ H Hl') as (rows & Hrows & Hinfo & Hc & Hframe').
    exists (VDict row :: rows). split; [| split; [| split]].
    + constructor; [now exists row | exact Hrows].
    + rewrite Hinfo, <- app_assoc. reflexivity.
    + cbn [List.length]. lia.
    + intros k H1 H2. now rewrite Hframe', Hframe.
Qed.

(** The loop over the pages, when it completes *)
Lemma shape_pages_ok (request default_row_data : dict) (test_info_data : list pyval) :
  forall (cnt c : Z) (s s' : dict) (l0 : list pyval),
  shape_pages request default_row_data test_info_data cnt s = (s', Ok c) ->
  dict_get "testinfo" s = Some (VList l0) ->
  exists hits rows,
    all_hits test_info_data = Ok hits /\
    Forall2 (shaped default_row_data) hits rows /\
    dict_get "testinfo" s' = Some (VList (l0 ++ rows)) /\
    c = cnt + Z.of_nat (List.length rows) /\
    forall k : string, k <> "testinfo" -> k <> "retain" -> dict_get k s' = dict_get k s.
Proof.
  induction test_info_data as [| page rest IH]; intros cnt c s s' l0 H H0.
  - cbn [shape_pages] in H. apply pure_inv in H. destruct H as [-> ->].
    exists [], []. rewrite app_nil_r. repeat split; auto. cbn. lia.
  - cbn [shape_pages] in H.
    apply se_bind_inv in H. destruct H as (hits & s1 & H1 & H).
    apply lift_inv in H1. destruct H1 as [-> Hiter].
    apply se_bind_inv in H. destruct H as (c1 & s2 & Hhits & H).
    destruct (shape_hits_ok _ _ _ _ _ _ _ _ Hhits H0)
      as (rows1 & Hrows1 & Hinfo1 & Hc1 & Hframe1).
    destruct (IH _ _ _ _ _ H Hinfo1) as (more & rows2 & Hall & Hrows2 & Hinfo2 & Hc2 & Hframe2).
    exists (hits ++ more)%list, (rows1 ++ rows2)%list. split; [| split; [| split; [| split]]].
    + cbn [all_hits]. now rewrite Hiter, bind_ok, Hall, bind_ok.
    + now apply Forall2_app.
    + rewrite Hinfo2, <- app_assoc. reflexivity.
    + rewrite length_app. lia.
    + intros k H1 H2. now rewrite Hframe2, Hframe1.
Qed.

(** When the loop over the pages completes with nothing to append to,
    there was no hit. *)
Lemma shape_pages_no_list (request default_row_data : dict) (test_info_data : list pyval) :
  forall (cnt c : Z) (s s' : dict),
  shape_pages request default_row_data test_info_data cnt s = (s', Ok c) ->
  (forall l0, dict_get "testinfo" s <> Some (VList l0)) ->
  all_hits test_info_data = Ok [] /\ c = cnt /\ s' = s.
Proof.
  induction test_info_data as [| page rest IH]; intros cnt c s s' H H0.
  - cbn [shape_pages] in H. apply pure_inv in H. destruct H as [-> ->]. auto.
  - cbn [shape_pages] in H.
    apply se_bind_inv in H. destruct H as (hits & s1 & H1 & H).
    apply lift_inv in H1. destruct H1 as [-> Hiter].
    apply se_bind_inv in H. destruct H as (c1 & s2 & Hhits & H).
    destruct hits as [| hit hits].
    + cbn [shape_hits] in Hhits. apply pure_inv in Hhits. destruct Hhits as [-> ->].
      destruct (IH _ _ _ _ H H0) as (Hall & -> & ->).
      cbn [all_hits]. now rewrite Hiter, bind_ok, Hall.
    + exfalso. cbn [shape_hits] in Hhits.
      apply se_bind_inv in Hhits. destruct Hhits as (row & s3 & H3 & Hhits).
      apply lift_inv in H3. destruct H3 as [-> _].
      apply se_bind_inv in Hhits. destruct Hhits as (u & s4 & Happ & _).
      apply append_row_inv in Happ. destruct Happ as (l & Hl & _). now apply (H0 l).
Qed.

Lemma attribute_fields_no_kv (attrs : pyval) (kv : string) (keys : list pykey) :
  attribute_fields attrs kv = Ok keys -> ~ In (KStr kv) keys.
Proof.
  unfold attribute_fields. destruct (py_getitem attrs "properties") as [props | e];
    [| discriminate].
  rewrite bind_ok. destruct props as [| b | z | s | l | d]; try discriminate.
  intros H. inversion H. intros Hin. apply dict_has_In in Hin.
  now rewrite dict_has_del_eq in Hin.
Qed.

Lemma dict_keys_del (k : pykey) (d : dict) :
  dict_keys (dict_del k d) = List.filter (fun k' => negb (pykey_eqb k' k)) (dict_keys d).
Proof.
  induction d as [| [k' v] d IH]; [reflexivity |].
  cbn [dict_del dict_keys map fst List.filter].
  destruct (pykey_eqb k' k); cbn [negb]; [exact IH |].
  cbn [map fst]. f_equal. exact IH.
Qed.

(** What [attribute_fields] returns, in terms of the mapping alone *)
Lemma attribute_fields_spec (attrs : pyval) (kv : string) (keys : list pykey) :
  attribute_fields attrs kv = Ok keys ->
  exists a fields,
    attrs = VDict a /\ dict_get "properties" a = Some (VDict fields) /\
    keys = List.filter (fun k => negb (pykey_eqb k kv)) (dict_keys fields).
Proof.
  unfold attribute_fields. destruct attrs as [| b | z | s | l | a]; try discriminate.
  cbn [py_getitem]. unfold dict_getitem.
  destruct (dict_get "properties" a) as [props |] eqn:E; [| discriminate].
  rewrite bind_ok. destruct props as [| b | z | s | l | fields]; try discriminate.
  intros H. inversion H. exists a, fields. now rewrite dict_keys_del.
Qed.

Lemma namespace_names_of (props : dict) (ns kv : string) (keys : list pykey) :
  (if truthy (dict_get_default ns VNone props)
   then attribute_fields (dict_get_default ns VNone props) kv else Ok []) = Ok keys ->
  namespace_names props ns kv keys.
Proof.
  unfold namespace_names. destruct (truthy (dict_get_default ns VNone props)) eqn:Et.
  - intros H. right. apply attribute_fields_spec in H.
    destruct H as (a & fields & Ea & Hp & ->). exists a, fields.
    unfold dict_get_default in Ea, Et.
    destruct (dict_get ns props) as [v |]; [| discriminate]. subst v.
    repeat split; try assumption. intros ->. discriminate.
  - intros H. left. now inversion H.
Qed.

Lemma py_get_dict (d : dict) (k : pykey) (default : pyval) :
  py_get (VDict d) k default = Ok (dict_get_default k default d).
Proof. reflexivity. Qed.

Lemma attribute_names_spec (self : TestcaseReporting) (w : world)
  (job_keys cust_keys : list pykey) :
  attribute_names self w = Ok (job_keys, cust_keys) ->
  exists cm,
    get_mapping w = Ok (VDict cm) /\
    (truthy (dict_get_default "cirrus" VNone cm) = false ->
     job_keys = [] /\ cust_keys = []) /\
    (truthy (dict_get_default "cirrus" VNone cm) = true ->
     exists props,
       mapped_properties self cm props /\
       namespace_names props "job_attrs" "job_attrs_kv" job_keys /\
       namespace_names props "cust_attrs" "cust_attrs_kv" cust_keys).
Proof.
  unfold attribute_names. destruct (get_mapping w) as [v | e]; [| discriminate].
  rewrite bind_ok. cbv beta. destruct v as [| b | z | s | l | cm]; try discriminate.
  rewrite py_get_dict, bind_ok. cbv beta.
  intros H. exists cm. split; [reflexivity |].
  destruct (truthy (dict_get_default "cirrus" VNone cm)).
  - split; [discriminate |]. intros _.
    cbn [py_getitem] in H. unfold dict_getitem in H.
    destruct (dict_get (index self) cm) as [v |] eqn:E1; [| discriminate].
    rewrite !bind_ok in H. cbv beta in H.
    destruct v as [| b | z | s | l | by_index]; try discriminate.
    cbn [py_getitem] in H. unfold dict_getitem in H.
    destruct (dict_get "mappings" by_index) as [v |] eqn:E2; [| discriminate].
    rewrite !bind_ok in H. cbv beta in H.
    destruct v as [| b | z | s | l | mappings]; try discriminate.
    cbn [py_getitem] in H. unfold dict_getitem in H.
    destruct (dict_get (doc_type self) mappings) as [v |] eqn:E3; [| discriminate].
    rewrite !bind_ok in H. cbv beta in H.
    destruct v as [| b | z | s | l | by_type]; try discriminate.
    rewrite py_get_dict, bind_ok in H. cbv beta in H.
    destruct (dict_get_default "properties" (VDict []) by_type)
      as [| b | z | s | l | props] eqn:E4; try discriminate.
    repeat first
      [ rewrite bind_ok in H
      | rewrite py_get_dict in H
      | progress cbv beta iota in H
      | progress (cbn [py_getitem] in H; unfold dict_getitem in H)
      | rewrite E1 in H | rewrite E2 in H | rewrite E3 in H | rewrite E4 in H ].
    exists props. split; [now exists by_index, mappings, by_type |].
    destruct (if truthy (dict_get_default "job_attrs" VNone props)
              then attribute_fields (dict_get_default "job_attrs" VNone props) "job_attrs_kv"
              else Ok []) as [jk | e] eqn:Ej; [| discriminate].
    rewrite bind_ok in H. cbv beta in H.
    destruct (if truthy (dict_get_default "cust_attrs" VNone props)
              then attribute_fields (dict_get_default "cust_attrs" VNone props) "cust_attrs_kv"
              else Ok []) as [ck | e] eqn:Ec; [| discriminate].
    rewrite bind_ok in H. inversion H; subst jk ck.
    split; now apply namespace_names_of.
  - split; [| discriminate]. intros _.
    rewrite bind_ok in H. cbv beta iota in H. cbn [truthy] in H.
    rewrite !bind_ok in H. inversion H. auto.
Qed.

(** The attribute columns that a mapping adds to the catalog *)
Lemma attribute_block (attrs : pyval) (kv col : string) (fields fields' : list pykey)
  (s s' : dict) :
  (if truthy attrs then
     keys ← lift (attribute_fields attrs kv);
     _ ← modify (dict_set (KStr col) (keys_value keys));
     pure (fields ++ keys)%list
   else pure fields) s = (s', Ok fields') ->
  exists keys,
    fields' = (fields ++ keys)%list /\ ~ In (KStr kv) keys /\
    (forall k : string, k <> col -> dict_get k s' = dict_get k s) /\
    (dict_get col s = Some (VList []) -> dict_get col s' = Some (keys_value keys)) /\
    (if truthy attrs then attribute_fields attrs kv else Ok []) = Ok keys.
Proof.
  destruct (truthy attrs).
  - intros H. apply se_bind_inv in H. destruct H as (keys & s1 & H1 & H).
    apply lift_inv in H1. destruct H1 as [-> Hkeys].
    apply se_bind_inv in H. destruct H as (u & s2 & H2 & H).
    apply modify_inv in H2. subst s2. apply pure_inv in H. destruct H as [-> ->].
    exists keys. split; [reflexivity |]. split; [now apply (attribute_fields_no_kv attrs) |].
    split; [| split; [| exact Hkeys]].
    + intros k Hk. apply dict_get_set_ne. congruence.
    + intros _. apply dict_get_set_eq.
  - intros H. apply pure_inv in H. destruct H as [-> ->].
    exists []. rewrite app_nil_r. split; [reflexivity |]. split; [tauto |]. auto.
Qed.

(** What [gather] has done when it returns *)
Lemma gather_ok (self : TestcaseReporting) (w : world) (d s0 s1 : dict) (cnt : Z)
  (rd : dict) :
  gather self w d s0 = (s1, Ok (cnt, rd)) ->
  exists from_date to_date job_keys cust_keys sc hits rows,
    let fields := (fields_visible0 ++ job_keys ++ cust_keys)%list in
    snd (_get_date_filters w d s0) = Ok (from_date, to_date) /\
    search_index w (_form_query_dict from_date to_date fields) = Ok sc /\
    failure sc = None /\
    all_hits (pages sc) = Ok hits /\
    Forall2 (shaped (default_row fields)) hits rows /\
    cnt = Z.of_nat (List.length rows) /\
    ~ In (KStr "job_attrs_kv") job_keys /\ ~ In (KStr "cust_attrs_kv") cust_keys /\
    (forall l0, dict_get "testinfo" s0 = Some (VList l0) ->
                dict_get "testinfo" s1 = Some (VList (l0 ++ rows))) /\
    dict_get "cirrus_attributes_col" s1 = Some (keys_value cirrus_columns) /\
    dict_get "testattr" s1
    = Some (keys_value (testattr_columns ++ job_keys ++ cust_keys)) /\
    (dict_get "job_attributes_col" s0 = Some (VList []) ->
     dict_get "job_attributes_col" s1 = Some (keys_value job_keys)) /\
    (dict_get "testcase_attributes_col" s0 = Some (VList []) ->
     dict_get "testcase_attributes_col" s1 = Some (keys_value cust_keys)) /\
    attribute_names self w = Ok (job_keys, cust_keys).
Proof.
  unfold gather. intros H.
  apply se_bind_inv in H. destruct H as ([from_date to_date] & sA & Hdate & H).
  assert (HframeA : forall k : string, ~ In k date_keys -> dict_get k sA = dict_get k s0).
  { intros k Hk. pose proof (date_filters_frame w d k _ Hk s0 eq_refl) as Hf.
    now rewrite Hdate in Hf. }
  apply se_bind_inv in H. destruct H as (cm & s & H1 & H).
  apply lift_inv in H1. destruct H1 as [-> Hmap].
  apply se_bind_inv in H. destruct H as (present & s & H1 & H).
  apply lift_inv in H1. destruct H1 as [-> Hpresent].
  apply se_bind_inv in H. destruct H as ([job_attrs cust_attrs] & s & H1 & H).
  apply lift_inv in H1. destruct H1 as [-> Hattrs].
  apply se_bind_inv in H. destruct H as (u & sB & H1 & H).
  apply modify_inv in H1.
  apply se_bind_inv in H. destruct H as (fv1 & sC & Hjob & H).
  apply attribute_block in Hjob. destruct Hjob as (job_keys & -> & Hjkv & HframeC & HcolC & Hjnames).
  apply se_bind_inv in H. destruct H as (fv2 & sD & Hcust & H).
  apply attribute_block in Hcust. destruct Hcust as (cust_keys & -> & Hckv & HframeD & HcolD & Hcnames).
  rewrite <- app_assoc in H.
  assert (Hnames : attribute_names self w = Ok (job_keys, cust_keys)).
  { unfold attribute_names. rewrite Hmap, bind_ok. cbv beta.
    rewrite Hpresent, bind_ok. cbv beta. rewrite Hattrs, bind_ok. cbv beta iota.
    rewrite Hjnames, bind_ok. cbv beta. now rewrite Hcnames, bind_ok. }
  set (fields := (fields_visible0 ++ job_keys ++ cust_keys)%list) in *.
  apply se_bind_inv in H. destruct H as (u1 & sE & H2 & H).
  apply modify_inv in H2.
  apply se_bind_inv in H. destruct H as (sc & s & H3 & H).
  apply lift_inv in H3. destruct H3 as [-> Hsearch].
  apply se_bind_inv in H. destruct H as (rd' & s & H3 & H).
  apply lift_inv in H3. destruct H3 as [-> Hring].
  apply se_bind_inv in H. destruct H as (i_stage & s & H3 & H).
  apply lift_inv in H3. destruct H3 as [-> Hstage].
  unfold fields in Hstage.
  rewrite (list_index_app "stage" fields_visible0 _ 8%nat eq_refl) in Hstage.
  assert (E2 : i_stage = 8%nat) by (now inversion Hstage).
  subst i_stage. clear Hstage.
  apply se_bind_inv in H. destruct H as (u2 & sF & HsetF & H).
  apply setitem_in_inv in HsetF. destruct HsetF as (lF & lF' & HgetF & HlF & ->).
  apply se_bind_inv in H. destruct H as (fv3 & s & H3 & H).
  apply lift_inv in H3. destruct H3 as [-> Hremove].
  pose (fvR := map KStr
                 ["job"; "job_id"; "testcase_name"; "status"; "type"; "jobdate";
                  "executiontime"; "stage"; "sut"; "sut_wwid"; "log"; "os"; "model";
                  "hardware"; "team"; "spp_detail"; "spp_status"]).
  assert (Erem : list_remove "log_uri" fields_visible0 = Ok fvR) by reflexivity.
  unfold fields in Hremove. rewrite (list_remove_app _ _ _ _ Erem) in Hremove.
  assert (E3 : fv3 = (fvR ++ job_keys ++ cust_keys)%list) by (now inversion Hremove).
  subst fv3. clear Hremove Erem.
  apply se_bind_inv in H. destruct H as (u3 & sG & H4 & H).
  apply modify_inv in H4.
  apply se_bind_inv in H. destruct H as (i_status & s & H3 & H).
  apply lift_inv in H3. destruct H3 as [-> Hstatus].
  rewrite (list_index_app "status" fvR _ 3%nat eq_refl) in Hstatus.
  assert (E4 : i_status = 3%nat) by (now inversion Hstatus).
  subst i_status. clear Hstatus.
  apply se_bind_inv in H. destruct H as (fv4 & s & H3 & H).
  apply lift_inv in H3. destruct H3 as [-> Hset].
  rewrite list_setitem_app in Hset by (cbn; lia).
  assert (E5 : fv4 = (testattr_columns ++ job_keys ++ cust_keys)%list)
    by (now inversion Hset).
  subst fv4. clear Hset.
  apply se_bind_inv in H. destruct H as (u4 & sH & H5 & H).
  apply modify_inv in H5.
  apply se_bind_inv in H. destruct H as (u5 & sI & HsetI & H).
  apply setitem_in_inv in HsetI. destruct HsetI as (lI & lI' & HgetI & HlI & ->).
  apply se_bind_inv in H. destruct H as (i_type & s & H3 & H).
  apply lift_inv in H3. destruct H3 as [-> Htype].
  rewrite (list_index_app "type" testattr_columns _ 4%nat eq_refl) in Htype.
  assert (E6 : i_type = 4%nat) by (now inversion Htype).
  subst i_type. clear Htype.
  apply se_bind_inv in H. destruct H as (u6 & sJ & HsetJ & H).
  apply setitem_in_inv in HsetJ. destruct HsetJ as (lJ & lJ' & HgetJ & HlJ & ->).
  apply se_bind_inv in H. destruct H as (c & sK & Hloop & H).
  apply se_bind_inv in H. destruct H as (u7 & s & Hfail & H).
  apply pure_inv in H. destruct H as [-> H]. inversion H; subst c rd'. clear H.
  destruct (failure sc) as [e |] eqn:Ef; [discriminate |].
  apply pure_inv in Hfail. destruct Hfail as [-> _].
  subst sB sE sG sH.
  (* the column list, rename by rename *)
  rewrite !dict_get_set_ne, (HframeD "cirrus_attributes_col"),
    (HframeC "cirrus_attributes_col"), dict_get_set_eq in HgetF by discriminate.
  inversion HgetF; subst lF. clear HgetF.
  vm_compute in HlF. inversion HlF; subst lF'. clear HlF.
  rewrite !dict_get_set_ne, dict_get_set_eq in HgetI by discriminate.
  inversion HgetI; subst lI. clear HgetI.
  vm_compute in HlI. inversion HlI; subst lI'. clear HlI.
  rewrite dict_get_set_eq in HgetJ. inversion HgetJ; subst lJ. clear HgetJ.
  vm_compute in HlJ. inversion HlJ; subst lJ'. clear HlJ.
  match type of Hloop with
  | shape_pages _ _ _ _ ?st = _ => set (sJ := st) in *
  end.
  exists from_date, to_date, job_keys, cust_keys, sc.
  assert (Hother : forall k : string,
             k <> "cirrus_attributes_col" -> k <> "testattr" ->
             k <> "job_attributes_col" -> k <> "testcase_attributes_col" ->
             ~ In k date_keys ->
             dict_get k sJ = dict_get k s0).
  { intros k K1 K2 K3 K4 K5. unfold sJ.
    rewrite !dict_get_set_ne by congruence.
    rewrite HframeD, HframeC by congruence.
    rewrite dict_get_set_ne by congruence. now apply HframeA. }
  destruct (dict_get "testinfo" s0) as [[| b | z | t | l0 | dd] |] eqn:Hinfo0.
  all: try (
    assert (Hno : forall l, dict_get "testinfo" sJ <> Some (VList l))
      by (intros l; rewrite Hother, Hinfo0 by (try discriminate; simpl; intuition discriminate);
          discriminate);
    destruct (shape_pages_no_list _ _ _ _ _ _ _ Hloop Hno) as (Hall & -> & ->);
    exists [], []; cbv zeta; fold fields; rewrite Hdate; cbn [snd];
    split; [reflexivity |]; split; [exact Hsearch |]; split; [exact Ef |];
    split; [exact Hall |]; split; [constructor |]; split; [reflexivity |];
    split; [exact Hjkv |]; split; [exact Hckv |]; split; [discriminate |];
    split; [apply dict_get_set_eq |];
    split; [unfold sJ; rewrite !dict_get_set_ne by discriminate;
            rewrite dict_get_set_eq; reflexivity |];
    split; [| split; [| exact Hnames]]; intros Hc0; unfold sJ;
      rewrite !dict_get_set_ne by discriminate;
      [ rewrite HframeD by discriminate; apply HcolC;
        rewrite dict_get_set_ne by discriminate;
        rewrite HframeA by (simpl; intuition discriminate); exact Hc0
      | apply HcolD; rewrite HframeC by discriminate;
        rewrite dict_get_set_ne by discriminate;
        rewrite HframeA by (simpl; intuition discriminate); exact Hc0 ]).
  assert (HinfoJ : dict_get "testinfo" sJ = Some (VList l0))
    by (rewrite Hother by (try discriminate; simpl; intuition discriminate); exact Hinfo0).
  destruct (shape_pages_ok _ _ _ _ _ _ _ _ Hloop HinfoJ)
    as (hits & rows & Hall & Hrows & HinfoK & Hc & HframeK).
  exists hits, rows. cbv zeta. fold fields. rewrite Hdate. cbn [snd].
  split; [reflexivity |]. split; [exact Hsearch |]. split; [exact Ef |].
  split; [exact Hall |]. split; [exact Hrows |]. split; [lia |].
  split; [exact Hjkv |]. split; [exact Hckv |].
  split; [intros l Hl; inversion Hl; subst l; exact HinfoK |].
  rewrite !HframeK by discriminate.
  split; [apply dict_get_set_eq |].
  split; [unfold sJ; rewrite !dict_get_set_ne by discriminate;
          rewrite dict_get_set_eq; reflexivity |].
  split; [| split; [| exact Hnames]]; intros Hc0; unfold sJ;
    rewrite !dict_get_set_ne by discriminate.
  - rewrite HframeD by discriminate. apply HcolC.
    rewrite dict_get_set_ne by discriminate.
    rewrite HframeA by (simpl; intuition discriminate). exact Hc0.
  - apply HcolD. rewrite HframeC by discriminate.
    rewrite dict_get_set_ne by discriminate.
    rewrite HframeA by (simpl; intuition discriminate). exact Hc0.
Qed.

Lemma payload_of_assembly (self : TestcaseReporting) (w : world) (fs : filesystem)
  (data : pyval) (d payload : dict) :
  py_or data (request_json w) = VDict d ->
  get_test_case_data self w fs data = Ok payload ->
  snd (assemble self w d (initial_final_dict d)) = Ok tt ->
  exists s1 cnt rd,
    gather self w d (initial_final_dict d) = (s1, Ok (cnt, rd)) /\
    payload = dict_set "ring_data" (VDict rd) (dict_set "count" (VInt cnt) s1).
Proof.
  intros Hd Hget Hok. rewrite (get_test_case_data_payload _ _ _ _ _ _ Hd Hget).
  rewrite assemble_run in *.
  destruct (gather self w d (initial_final_dict d)) as [s1 [[cnt rd] | e]];
    [| discriminate].
  exists s1, cnt, rd. auto.
Qed.

Lemma initial_list (d : dict) (k : string) :
  In k list_keys -> dict_has k d = false ->
  dict_get k (initial_final_dict d) = Some (VList []).
Proof.
  intros Hk Hd. rewrite initial_get by (now apply dict_has_false_get).
  simpl in Hk. repeat (destruct Hk as [<- | Hk]; [reflexivity |]). contradiction.
Qed.

(** X15: the rows and the count of a finished report.  When assembly
    completes for a request without a "testinfo" of its own, "testinfo"
    holds one row for every hit of every page of the scroll, in the
    order of the scroll, each the row that [shape_row] gives for that
    hit from the default row of the catalog extended by the attribute
    columns; and "count" is the number of these rows.  The scroll is the
    answer to the query built from the resolved date bounds and these
    fields, and it ended without a failure. *)
Theorem report_rows_and_count (self : TestcaseReporting) (w : world) (fs : filesystem)
  (data : pyval) (d payload : dict) :
  py_or data (request_json w) = VDict d ->
  get_test_case_data self w fs data = Ok payload ->
  snd (assemble self w d (initial_final_dict d)) = Ok tt ->
  dict_has "testinfo" d = false ->
  exists from_date to_date job_keys cust_keys sc hits rows,
    let fields := (fields_visible0 ++ job_keys ++ cust_keys)%list in
    snd (_get_date_filters w d (initial_final_dict d)) = Ok (from_date, to_date) /\
    search_index w (_form_query_dict from_date to_date fields) = Ok sc /\
    failure sc = None /\
    all_hits (pages sc) = Ok hits /\
    Forall2 (shaped (default_row fields)) hits rows /\
    dict_get "testinfo" payload = Some (VList rows) /\
    dict_get "count" payload = Some (VInt (Z.of_nat (List.length rows))).
Proof.
  intros Hd Hget Hok Hinfo.
  destruct (payload_of_assembly _ _ _ _ _ _ Hd Hget Hok) as (s1 & cnt & rd & Hg & ->).
  destruct (gather_ok _ _ _ _ _ _ _ Hg)
    as (from_date & to_date & job_keys & cust_keys & sc & hits & rows & H).
  cbv zeta in H.
  destruct H as (Hdate & Hsearch & Hfail & Hall & Hrows & Hcnt & _ & _ & Htest & _).
  exists from_date, to_date, job_keys, cust_keys, sc, hits, rows. cbv zeta.
  repeat (split; [assumption |]). split.
  - rewrite !dict_get_set_ne by discriminate.
    apply (Htest []). apply initial_list; [simpl; tauto | exact Hinfo].
  - rewrite dict_get_set_ne by discriminate. rewrite dict_get_set_eq. now subst cnt.
Qed.

Lemma report_rows_and_count_witness :
  exists payload rows,
    get_test_case_data store world_one_record fs_empty_store request_all = Ok payload /\
    dict_get "testinfo" payload = Some (VList rows) /\
    dict_get "count" payload = Some (VInt (Z.of_nat (List.length rows))) /\
    List.length rows = 1%nat.
Proof.
  destruct (get_test_case_data store world_one_record fs_empty_store request_all)
    as [payload | e] eqn:E; [| vm_compute in E; discriminate].
  destruct (report_rows_and_count store world_one_record fs_empty_store request_all
              [(KStr "filter", VStr "all")] payload eq_refl E)
    as (from_date & to_date & job_keys & cust_keys & sc & hits & rows & H);
    [vm_compute; reflexivity | reflexivity |].
  cbv zeta in H. destruct H as (_ & Hsearch & _ & Hall & Hrows & Hinfo & Hcount).
  cbn [world_one_record search_index] in Hsearch. inversion Hsearch; subst sc.
  cbn in Hall. inversion Hall; subst hits.
  exists payload, rows. split; [reflexivity |]. split; [exact Hinfo |].
  split; [exact Hcount |].
  inversion Hrows as [| hit row hs rs Hrow Hrest]; subst.
  now inversion Hrest.
Defined.

(** X16: the column lists of a finished report.  When assembly
    completes, "cirrus_attributes_col" is the catalog with "status",
    "type" and "stage" renamed to "stage_status", "test_type" and
    "stage_stdout" ("log_uri" stays); "testattr" is the catalog without
    "log_uri" and with "status" renamed ("type" and "stage" keep their
    names), followed by the job-attribute and the customer-attribute
    names; and the two attribute lists are these names (for a request
    that does not carry the two keys itself).  The names come from the
    mapping answer, which is a dictionary: none when it has no truthy
    "cirrus" entry; else, for each of the namespaces "job_attrs" and
    "cust_attrs" of the properties mapped for the index and the
    document type, the keys of the namespace's "properties" other than
    the raw key-value sub-field, and none for a namespace that is
    missing or empty. *)
Theorem report_columns (self : TestcaseReporting) (w : world) (fs : filesystem)
  (data : pyval) (d payload : dict) :
  py_or data (request_json w) = VDict d ->
  get_test_case_data self w fs data = Ok payload ->
  snd (assemble self w d (initial_final_dict d)) = Ok tt ->
  exists job_keys cust_keys,
    dict_get "cirrus_attributes_col" payload = Some (keys_value cirrus_columns) /\
    dict_get "testattr" payload
    = Some (keys_value (testattr_columns ++ job_keys ++ cust_keys)) /\
    ~ In (KStr "job_attrs_kv") job_keys /\ ~ In (KStr "cust_attrs_kv") cust_keys /\
    (dict_has "job_attributes_col" d = false ->
     dict_get "job_attributes_col" payload = Some (keys_value job_keys)) /\
    (dict_has "testcase_attributes_col" d = false ->
     dict_get "testcase_attributes_col" payload = Some (keys_value cust_keys)) /\
    exists cm,
      get_mapping w = Ok (VDict cm) /\
      (truthy (dict_get_default "cirrus" VNone cm) = false ->
       job_keys = [] /\ cust_keys = []) /\
      (truthy (dict_get_default "cirrus" VNone cm) = true ->
       exists props,
         mapped_properties self cm props /\
         namespace_names props "job_attrs" "job_attrs_kv" job_keys /\
         namespace_names props "cust_attrs" "cust_attrs_kv" cust_keys).
Proof.
  intros Hd Hget Hok.
  destruct (payload_of_assembly _ _ _ _ _ _ Hd Hget Hok) as (s1 & cnt & rd & Hg & ->).
  destruct (gather_ok _ _ _ _ _ _ _ Hg)
    as (from_date & to_date & job_keys & cust_keys & sc & hits & rows & H).
  cbv zeta in H.
  destruct H as (_ & _ & _ & _ & _ & _ & Hj & Hc & _ & Hcirrus & Hattr & Hjob & Hcust
                 & Hnames).
  exists job_keys, cust_keys. rewrite !dict_get_set_ne by discriminate.
  repeat (split; [assumption |]). split; [| split].
  - intros H. apply Hjob. apply initial_list; [simpl; tauto | exact H].
  - intros H. apply Hcust. apply initial_list; [simpl; tauto | exact H].
  - now apply attribute_names_spec.
Qed.

Lemma report_columns_witness :
  exists payload,
    get_test_case_data store world_two_attributes fs_empty_store request_all = Ok payload /\
    dict_get "cirrus_attributes_col" payload = Some (keys_value cirrus_columns) /\
    dict_get "job_attributes_col" payload
    = Some (VList [VStr "major"; VStr "minor"]) /\
    dict_get "testcase_attributes_col" payload = Some (VList []) /\
    dict_get "testattr" payload
    = Some (keys_value (testattr_columns ++ [KStr "major"; KStr "minor"])).
Proof.
  destruct (get_test_case_data store world_two_attributes fs_empty_store request_all)
    as [payload | e] eqn:E; [| vm_compute in E; discriminate].
  destruct (report_columns store world_two_attributes fs_empty_store request_all
              [(KStr "filter", VStr "all")] payload eq_refl E)
    as (job_keys & cust_keys & Hcirrus & Hattr & _ & _ & Hjob & Hcust & cm & Hmap & _ & Hcm);
    [vm_compute; reflexivity |].
  cbn [world_two_attributes get_mapping mapping_two_attributes] in Hmap.
  inversion Hmap; subst cm. clear Hmap.
  destruct (Hcm eq_refl) as (props & (by_index & mappings & by_type & E1 & E2 & E3 & E4)
                             & Hjn & Hcn).
  cbn in E1. inversion E1; subst by_index. clear E1.
  cbn in E2. inversion E2; subst mappings. clear E2.
  cbn in E3. inversion E3; subst by_type. clear E3.
  cbn in E4. inversion E4; subst props. clear E4.
  assert (Ej : job_keys = [KStr "major"; KStr "minor"]).
  { destruct Hjn as [[Hf _] | (attrs & fields & Ha & _ & Hp & ->)]; [discriminate |].
    cbn in Ha. inversion Ha; subst attrs. cbn in Hp. inversion Hp; subst fields.
    reflexivity. }
  assert (Ec : cust_keys = []).
  { destruct Hcn as [[_ ->] | (attrs & fields & Ha & _)]; [reflexivity | discriminate]. }
  subst job_keys cust_keys.
  exists payload. split; [reflexivity |]. split; [exact Hcirrus |].
  split; [exact (Hjob eq_refl) |]. split; [exact (Hcust eq_refl) |]. exact Hattr.
Defined.

(** ** Rows that a failed assembly leaves *)

(** Running a computation forward *)
Lemma bind_run {S A B} (m : SE S A) (k : A -> SE S B) (s s1 : S) (a : A) :
  m s = (s1, Ok a) -> (m ≫= k) s = k a s1.
Proof. intros H. unfold mbind, SE_bind. now rewrite H. Qed.

Lemma bind_lift_run {S A B} (r : result A) (k : A -> SE S B) (s : S) (a : A) :
  r = Ok a -> (lift r ≫= k) s = k a s.
Proof. intros ->. reflexivity. Qed.

Lemma bind_modify_run {S B} (f : S -> S) (k : unit -> SE S B) (s : S) :
  (modify f ≫= k) s = k tt (f s).
Proof. reflexivity. Qed.

Lemma setitem_in_run (key : string) (i : nat) (x : pyval) (s : dict) (l l' : list pyval) :
  dict_get key s = Some (VList l) -> list_setitem i x l = Ok l' ->
  setitem_in key i x s = (dict_set key (VList l') s, Ok tt).
Proof.
  intros Hget Hset.
  unfold setitem_in, mbind, SE_bind, get_state, lift, modify, dict_getitem.
  now rewrite Hget, Hset.
Qed.

Lemma attribute_block_run (attrs : pyval) (kv col : string) (fields keys : list pykey)
  (s : dict) :
  (if truthy attrs then attribute_fields attrs kv else Ok []) = Ok keys ->
  (if truthy attrs then
     keys ← lift (attribute_fields attrs kv);
     _ ← modify (dict_set (KStr col) (keys_value keys));
     pure (fields ++ keys)%list
   else pure fields) s
  = ((if truthy attrs then dict_set (KStr col) (keys_value keys) s else s),
     Ok (fields ++ keys)%list).
Proof.
  destruct (truthy attrs); intros H.
  - rewrite (bind_lift_run _ _ _ _ H). reflexivity.
  - inversion H. now rewrite app_nil_r.
Qed.

Lemma append_row_run (request row_data s : dict) (l : list pyval) :
  dict_get "testinfo" s = Some (VList l) ->
  exists s',
    append_row request row_data s = (s', Ok tt) /\
    dict_get "testinfo" s' = Some (VList (l ++ [VDict row_data])) /\
    forall k : string, k <> "testinfo" -> k <> "retain" -> dict_get k s' = dict_get k s.
Proof.
  intros Hget.
  unfold append_row, mbind, SE_bind, get_state, lift, modify, pure, dict_getitem.
  rewrite Hget.
  destruct (dict_has "testinfo" request && negb (dict_has "retain" request));
    eexists; (split; [reflexivity |]); split.
  - rewrite dict_get_set_ne by discriminate. apply dict_get_set_eq.
  - intros k K1 K2. rewrite !dict_get_set_ne by congruence. reflexivity.
  - apply dict_get_set_eq.
  - intros k K1 K2. rewrite !dict_get_set_ne by congruence. reflexivity.
Qed.

(** The loop over the hits of one page, however it ends *)
Lemma shape_hits_run (request default_row_data : dict) (hits : list pyval) :
  forall (cnt : Z) (s : dict) (l0 : list pyval),
  dict_get "testinfo" s = Some (VList l0) ->
  exists s' r,
    shape_hits request default_row_data hits cnt s = (s', r) /\
    dict_get "testinfo" s'
    = Some (VList (l0 ++ fst (rows_of_page default_row_data hits))) /\
    (forall k : string, k <> "testinfo" -> k <> "retain" ->
                        dict_get k s' = dict_get k s) /\
    (if snd (rows_of_page default_row_data hits)
     then r = Ok (cnt + Z.of_nat (List.length (fst (rows_of_page default_row_data hits))))
     else exists e, r = Err e).
Proof.
  induction hits as [| hit hits IH]; intros cnt s l0 H0.
  - exists s, (Ok cnt). cbn. rewrite app_nil_r, Z.add_0_r. auto.
  - cbn [shape_hits rows_of_page].
    destruct (shape_row default_row_data hit) as [row | e] eqn:Erow.
    + rewrite (bind_lift_run _ _ _ _ eq_refl).
      destruct (append_row_run request row s l0 H0) as (s1 & Happ & Hinfo1 & Hframe1).
      rewrite (bind_run _ _ _ _ _ Happ).
      destruct (IH (cnt + 1) s1 _ Hinfo1) as (s' & r & Hrun & Hinfo & Hframe & Hr).
      exists s', r. destruct (rows_of_page default_row_data hits) as [rows complete].
      cbn [fst snd] in *. split; [exact Hrun |]. split; [| split].
      * rewrite Hinfo, <- app_assoc. reflexivity.
      * intros k K1 K2. now rewrite Hframe, Hframe1.
      * destruct complete; [| exact Hr]. rewrite Hr. f_equal. cbn [List.length]. lia.
    + exists s, (Err e). cbn [fst snd]. rewrite app_nil_r.
      split; [reflexivity |]. split; [exact H0 |]. split; [auto | eauto].
Qed.

(** The loop over the pages, however it ends *)
Lemma shape_pages_run (request default_row_data : dict) (test_info_data : list pyval) :
  forall (cnt : Z) (s : dict) (l0 : list pyval),
  dict_get "testinfo" s = Some (VList l0) ->
  exists s' r,
    shape_pages request default_row_data test_info_data cnt s = (s', r) /\
    dict_get "testinfo" s'
    = Some (VList (l0 ++ fst (rows_until_failure default_row_data test_info_data))) /\
    (forall k : string, k <> "testinfo" -> k <> "retain" ->
                        dict_get k s' = dict_get k s) /\
    (if snd (rows_until_failure default_row_data test_info_data)
     then r = Ok (cnt + Z.of_nat (List.length
                                    (fst (rows_until_failure default_row_data
                                            test_info_data))))
     else exists e, r = Err e).
Proof.
  induction test_info_data as [| page rest IH]; intros cnt s l0 H0.
  - exists s, (Ok cnt). cbn. rewrite app_nil_r, Z.add_0_r. auto.
  - cbn [shape_pages rows_until_failure].
    destruct (py_iter page) as [hits | e] eqn:Eiter.
    + rewrite (bind_lift_run _ _ _ _ eq_refl).
      destruct (shape_hits_run request default_row_data hits cnt s l0 H0)
        as (s1 & r1 & Hrun1 & Hinfo1 & Hframe1 & Hr1).
      destruct (rows_of_page default_row_data hits) as [rows complete].
      cbn [fst snd] in *. destruct complete.
      * subst r1. rewrite (bind_run _ _ _ _ _ Hrun1).
        destruct (IH (cnt + Z.of_nat (List.length rows)) s1 _ Hinfo1)
          as (s' & r & Hrun & Hinfo & Hframe & Hr).
        exists s', r.
        destruct (rows_until_failure default_row_data rest) as [more complete].
        cbn [fst snd] in *. split; [exact Hrun |]. split; [| split].
        -- rewrite Hinfo, <- app_assoc. reflexivity.
        -- intros k K1 K2. now rewrite Hframe, Hframe1.
        -- destruct complete; [| exact Hr]. rewrite Hr. f_equal.
           rewrite length_app. lia.
      * destruct Hr1 as [e ->]. exists s1, (Err e). cbn [fst snd].
        split; [| split; [exact Hinfo1 | split; [exact Hframe1 | eauto]]].
        unfold mbind, SE_bind. now rewrite Hrun1.
    + exists s, (Err e). cbn [fst snd]. rewrite app_nil_r.
      split; [reflexivity |]. split; [exact H0 |]. split; [auto | eauto].
Qed.

(** [gather] up to the row loop, when the date range, the mapping, the
    scrolled search and the aggregation all answer *)
Lemma gather_run (self : TestcaseReporting) (w : world) (d s0 : dict)
  (from_date to_date : pyval) (job_keys cust_keys : list pykey) (sc : scroll) (rd : dict) :
  snd (_get_date_filters w d s0) = Ok (from_date, to_date) ->
  attribute_names self w = Ok (job_keys, cust_keys) ->
  search_index w (_form_query_dict from_date to_date
                    (fields_visible0 ++ job_keys ++ cust_keys)) = Ok sc ->
  renamed_ring_data w from_date to_date (dict_get_default "type" VNone d) = Ok rd ->
  exists sJ,
    dict_get "testinfo" sJ = dict_get "testinfo" s0 /\
    gather self w d s0
    = match shape_pages d (default_row (fields_visible0 ++ job_keys ++ cust_keys))
              (pages sc) 0 sJ with
      | (sK, Ok cnt) =>
          match failure sc with
          | Some e => (sK, Err e)
          | None => (sK, Ok (cnt, rd))
          end
      | (sK, Err e) => (sK, Err e)
      end.
Proof.
  intros Hdate Hattr Hsearch Hring. unfold gather.
  destruct (_get_date_filters w d s0) as [sA r] eqn:Edate. cbn [snd] in Hdate. subst r.
  assert (HframeA : forall k : string, ~ In k date_keys -> dict_get k sA = dict_get k s0).
  { intros k Hk. pose proof (date_filters_frame w d k _ Hk s0 eq_refl) as Hf.
    now rewrite Edate in Hf. }
  rewrite (bind_run _ _ _ _ _ Edate). cbv beta iota.
  unfold attribute_names in Hattr.
  destruct (get_mapping w) as [cm | e]; [| discriminate].
  rewrite bind_ok in Hattr. cbv beta in Hattr.
  rewrite (bind_lift_run _ _ _ _ eq_refl).
  destruct (py_get cm "cirrus" VNone) as [present | e]; [| discriminate].
  rewrite bind_ok in Hattr. cbv beta in Hattr.
  rewrite (bind_lift_run _ _ _ _ eq_refl).
  match type of Hattr with
  | (?blk ≫= _) = _ => destruct blk as [[job_attrs cust_attrs] | e]; [| discriminate]
  end.
  rewrite bind_ok in Hattr. cbv beta iota in Hattr.
  rewrite (bind_lift_run _ _ _ _ eq_refl). cbv beta iota.
  rewrite bind_modify_run.
  destruct (if truthy job_attrs then attribute_fields job_attrs "job_attrs_kv" else Ok [])
    as [jk | e] eqn:Ej; [| discriminate].
  rewrite bind_ok in Hattr. cbv beta in Hattr.
  destruct (if truthy cust_attrs then attribute_fields cust_attrs "cust_attrs_kv" else Ok [])
    as [ck | e] eqn:Ec; [| discriminate].
  rewrite bind_ok in Hattr. inversion Hattr; subst jk ck. clear Hattr.
  rewrite (bind_run _ _ _ _ _ (attribute_block_run _ _ "job_attributes_col" _ _ _ Ej)).
  rewrite (bind_run _ _ _ _ _ (attribute_block_run _ _ "testcase_attributes_col" _ _ _ Ec)).
  rewrite <- app_assoc.
  set (fields := (fields_visible0 ++ job_keys ++ cust_keys)%list) in *.
  rewrite bind_modify_run. cbv zeta.
  rewrite (bind_lift_run _ _ _ _ Hsearch).
  rewrite (bind_lift_run _ _ _ _ Hring).
  unfold fields at 1.
  rewrite (bind_lift_run _ _ _ _ (list_index_app "stage" fields_visible0 (job_keys ++ cust_keys) 8%nat eq_refl)).
  match goal with
  | |- context [setitem_in "cirrus_attributes_col" 8 _ ≫= _] =>
      erewrite (bind_run (setitem_in "cirrus_attributes_col" 8 _))
  end.
  2: { apply (setitem_in_run _ _ _ _ (map val_of_key fields_visible0)); [| reflexivity].
       rewrite dict_get_set_ne by discriminate.
       destruct (truthy cust_attrs), (truthy job_attrs);
         rewrite ?dict_get_set_ne by discriminate; apply dict_get_set_eq. }
  pose (fvR := map KStr
                 ["job"; "job_id"; "testcase_name"; "status"; "type"; "jobdate";
                  "executiontime"; "stage"; "sut"; "sut_wwid"; "log"; "os"; "model";
                  "hardware"; "team"; "spp_detail"; "spp_status"]).
  assert (Erem : list_remove "log_uri" fields_visible0 = Ok fvR) by reflexivity.
  unfold fields at 1.
  rewrite (bind_lift_run _ _ _ _ (list_remove_app _ _ _ (job_keys ++ cust_keys) Erem)).
  rewrite bind_modify_run.
  rewrite (bind_lift_run _ _ _ _ (list_index_app "status" fvR (job_keys ++ cust_keys) 3%nat eq_refl)).
  rewrite (bind_lift_run _ _ _ _
             (list_setitem_app 3 (KStr "stage_status") fvR (job_keys ++ cust_keys)
                ltac:(cbn; lia))).
  rewrite bind_modify_run.
  match goal with
  | |- context [setitem_in "cirrus_attributes_col" 3 _ ≫= _] =>
      erewrite (bind_run (setitem_in "cirrus_attributes_col" 3 _))
  end.
  2: { eapply setitem_in_run;
         [rewrite !dict_get_set_ne by discriminate; apply dict_get_set_eq | reflexivity]. }
  change (<[3%nat := KStr "stage_status"]> fvR) with testattr_columns.
  rewrite (bind_lift_run _ _ _ _ (list_index_app "type" testattr_columns (job_keys ++ cust_keys) 4%nat eq_refl)).
  match goal with
  | |- context [setitem_in "cirrus_attributes_col" 4 _ ≫= _] =>
      erewrite (bind_run (setitem_in "cirrus_attributes_col" 4 _))
  end.
  2: { eapply setitem_in_run; [apply dict_get_set_eq | reflexivity]. }
  match goal with
  | |- context [(shape_pages _ _ _ _ ≫= _) ?st] => exists st
  end.
  split.
  - rewrite !dict_get_set_ne by discriminate.
    destruct (truthy cust_attrs), (truthy job_attrs);
      rewrite ?dict_get_set_ne by discriminate;
      apply HframeA; simpl; intuition discriminate.
  - subst fields. unfold mbind at 1, SE_bind at 1.
    match goal with
    | |- context [shape_pages ?a ?b ?c ?n ?st] =>
        destruct (shape_pages a b c n st) as [sK [cnt | e]]; [| reflexivity]
    end.
    unfold mbind, SE_bind, raise, pure. now destruct (failure sc).
Qed.

(** X22: the rows that reach the payload, however the row loop ends.
    Take a request without a "testinfo" of its own for which the date
    range resolves, the mapping gives the attribute names, the scrolled
    search answers and the aggregation returns, so that the row loop is
    entered.  Then "testinfo" holds exactly the rows of the hits up to
    the first page that cannot be iterated or the first hit that cannot
    be shaped, in the order of the scroll: the rows shaped before a
    failure stay in the payload.  Assembly completes exactly when every
    hit was shaped and the scroll ended without a failure; then "count"
    is the number of rows and the aggregation map is attached.
    Otherwise "count" still says 0 and there is no "ring_data" (for a
    request that carries neither key itself), although the rows are
    there. *)
Theorem rows_survive_failure (self : TestcaseReporting) (w : world) (fs : filesystem)
  (data : pyval) (d payload : dict) (from_date to_date : pyval)
  (job_keys cust_keys : list pykey) (sc : scroll) (rd : dict) :
  py_or data (request_json w) = VDict d ->
  get_test_case_data self w fs data = Ok payload ->
  dict_has "testinfo" d = false ->
  snd (_get_date_filters w d (initial_final_dict d)) = Ok (from_date, to_date) ->
  attribute_names self w = Ok (job_keys, cust_keys) ->
  search_index w (_form_query_dict from_date to_date
                    (fields_visible0 ++ job_keys ++ cust_keys)) = Ok sc ->
  renamed_ring_data w from_date to_date (dict_get_default "type" VNone d) = Ok rd ->
  let run :=
    rows_until_failure (default_row (fields_visible0 ++ job_keys ++ cust_keys))
      (pages sc) in
  dict_get "testinfo" payload = Some (VList (fst run)) /\
  (snd (assemble self w d (initial_final_dict d)) = Ok tt <->
   snd run = true /\ failure sc = None) /\
  (snd run = true -> failure sc = None ->
   dict_get "count" payload = Some (VInt (Z.of_nat (List.length (fst run)))) /\
   dict_get "ring_data" payload = Some (VDict rd)) /\
  (snd run = false \/ failure sc <> None ->
   (dict_has "count" d = false -> dict_get "count" payload = Some (VInt 0)) /\
   (dict_has "ring_data" d = false -> dict_get "ring_data" payload = None)).
Proof.
  intros Hd Hget Hinfo Hdate Hattr Hsearch Hring run.
  rewrite (get_test_case_data_payload _ _ _ _ _ _ Hd Hget). rewrite assemble_run.
  assert (Hcount : dict_has "count" d = false ->
                   dict_get "count" (fst (gather self w d (initial_final_dict d)))
                   = Some (VInt 0)).
  { intros Hc. apply (gather_frame self w d "count" (Some (VInt 0))).
    - simpl. intuition discriminate.
    - left. discriminate.
    - rewrite initial_get by (now apply dict_has_false_get). reflexivity. }
  assert (Hnoring : dict_has "ring_data" d = false ->
                    dict_get "ring_data" (fst (gather self w d (initial_final_dict d)))
                    = None).
  { intros Hc. apply (gather_frame self w d "ring_data" None).
    - simpl. intuition discriminate.
    - left. discriminate.
    - rewrite initial_get by (now apply dict_has_false_get). reflexivity. }
  destruct (gather_run self w d _ _ _ _ _ _ _ Hdate Hattr Hsearch Hring)
    as (sJ & HinfoJ & Hrun).
  rewrite initial_list in HinfoJ by (simpl; tauto).
  destruct (shape_pages_run d (default_row (fields_visible0 ++ job_keys ++ cust_keys))
              (pages sc) 0 sJ [] HinfoJ) as (sK & r & Hloop & HinfoK & _ & Hr).
  fold run in HinfoK, Hr. cbn [app] in HinfoK.
  rewrite Hloop in Hrun. rewrite Hrun in *. clear Hrun Hloop.
  destruct (snd run) eqn:Ecomplete.
  - subst r. destruct (failure sc) as [e |] eqn:Efail; cbn [fst snd] in *.
    + split; [exact HinfoK |]. split; [split; [discriminate | intros [_ ?]; discriminate] |].
      split; [discriminate |]. intros _. auto.
    + split; [rewrite !dict_get_set_ne by discriminate; exact HinfoK |].
      split; [tauto |]. split.
      * intros _ _. split; [| apply dict_get_set_eq].
        rewrite dict_get_set_ne by discriminate. rewrite dict_get_set_eq.
        f_equal.
      * intros [? | ?]; [discriminate | contradiction].
  - destruct Hr as [e ->]. cbn [fst snd] in *.
    split; [exact HinfoK |]. split; [split; [discriminate | intros [? _]; discriminate] |].
    split; [discriminate |]. intros _. auto.
Qed.

Lemma rows_survive_failure_witness :
  exists payload row,
    get_test_case_data store world_broken_hit fs_empty_store request_all = Ok payload /\
    dict_get "testinfo" payload = Some (VList [VDict row]) /\
    dict_get "job" row = Some (VStr "Passed") /\
    dict_get "count" payload = Some (VInt 0) /\
    dict_get "ring_data" payload = None.
Proof.
  destruct (get_test_case_data store world_broken_hit fs_empty_store request_all)
    as [payload | e] eqn:E; [| vm_compute in E; discriminate].
  destruct (renamed_ring_data world_broken_hit VNone VNone VNone) as [rd | e] eqn:Ering;
    [| vm_compute in Ering; discriminate].
  pose proof (rows_survive_failure store world_broken_hit fs_empty_store request_all
                [(KStr "filter", VStr "all")] payload VNone VNone [] []
                (Scroll [VList [hit_l2add; VDict []; hit_l2add]] None) rd
                eq_refl E eq_refl eq_refl eq_refl eq_refl Ering) as H.
  cbv zeta in H. destruct H as (Hinfo & _ & _ & Hfail).
  destruct Hfail as [Hcount Hring]; [left; reflexivity |].
  vm_compute in Hinfo.
  eexists payload, _. split; [reflexivity |]. split; [exact Hinfo |].
  split; [reflexivity |]. split; [now apply Hcount | now apply Hring].
Defined.

(** A scroll that fails after its first page: the row of that page is
    in the payload, the count is 0 and there is no aggregation map. *)
Example rows_without_count :
  let w := {| request_json := VNone;
              today := 737821;
              get_mapping := Ok (VDict []);
              search_index := fun _ =>
                Ok (Scroll [VList [hit_l2add]] (Some (ServiceError "scroll lost")));
              search := fun _ => Ok aggregations_passed |} in
  exists payload row,
    get_test_case_data store w fs_empty_store request_all = Ok payload /\
    dict_get "testinfo" payload = Some (VList [row]) /\
    dict_get "count" payload = Some (VInt 0) /\
    dict_get "ring_data" payload = None.
Proof. eexists. eexists. split; [vm_compute; reflexivity |]. repeat split. Qed.

(** ** The values of the aggregation map *)

Lemma fold_buckets_get (docs : list pyval) (acc counts : dict) (k : pykey) :
  fold_buckets acc docs = Ok counts ->
  dict_get k counts
  = match last_count k docs with Some c => Some c | None => dict_get k acc end.
Proof.
  revert acc. induction docs as [| doc docs IH]; intros acc H.
  - now inversion H.
  - cbn [fold_buckets last_count] in *.
    destruct (py_getitem doc "doc_count") as [count | e]; [| discriminate].
    rewrite bind_ok in H. cbv beta in H.
    destruct (py_getitem doc "key") as [key | e]; [| discriminate].
    rewrite bind_ok in H. cbv beta in H.
    destruct (key_of_val key) as [k' | e]; [| discriminate].
    rewrite bind_ok in H. cbv beta in H.
    rewrite (IH _ H). destruct (last_count k docs); [reflexivity |].
    rewrite dict_get_set. now destruct (pykey_eqb k' k).
Qed.

Lemma fold_facets_frame (items : dict) (acc agg : dict) (facet : pykey) :
  fold_facets acc items = Ok agg -> ~ In facet (dict_keys items) ->
  dict_get facet agg = dict_get facet acc.
Proof.
  revert acc. induction items as [| [key b] items IH]; intros acc H Hnot.
  - now inversion H.
  - cbn [fold_facets] in H.
    destruct (py_getitem b "buckets") as [buckets | e]; [| discriminate].
    rewrite bind_ok in H. cbv beta in H.
    destruct (py_iter buckets) as [docs | e]; [| discriminate].
    rewrite bind_ok in H. cbv beta in H.
    destruct (fold_buckets [] docs) as [counts | e]; [| discriminate].
    rewrite bind_ok in H. cbv beta in H.
    rewrite (IH _ H) by (intros Hin; apply Hnot; now right).
    rewrite !dict_get_set_ne; [reflexivity | |]; intros ->; apply Hnot; now left.
Qed.

Lemma fold_facets_get (items : dict) (acc agg : dict) (facet : pykey) (bucket : pyval) :
  fold_facets acc items = Ok agg ->
  List.NoDup (dict_keys items) ->
  dict_get facet items = Some bucket ->
  exists buckets docs counts,
    py_getitem bucket "buckets" = Ok buckets /\ py_iter buckets = Ok docs /\
    fold_buckets [] docs = Ok counts /\
    dict_get facet agg = Some (VDict counts).
Proof.
  revert acc. induction items as [| [key b] items IH]; intros acc H Hnd Hget;
    [discriminate |].
  cbn [fold_facets] in H. cbn [dict_keys map fst] in Hnd.
  inversion Hnd as [| ? ? Hnotin Hnd']; subst.
  destruct (py_getitem b "buckets") as [buckets | e] eqn:Eb; [| discriminate].
  rewrite bind_ok in H. cbv beta in H.
  destruct (py_iter buckets) as [docs | e] eqn:Ed; [| discriminate].
  rewrite bind_ok in H. cbv beta in H.
  destruct (fold_buckets [] docs) as [counts | e] eqn:Ec; [| discriminate].
  rewrite bind_ok in H. cbv beta in H.
  cbn [dict_get] in Hget. destruct (pykey_eqb key facet) eqn:Ek.
  - apply pykey_eqb_eq in Ek. subst key. inversion Hget; subst b.
    exists buckets, docs, counts. repeat split; try assumption.
    rewrite (fold_facets_frame _ _ _ _ H Hnotin). apply dict_get_set_eq.
  - now apply (IH _ H).
Qed.

(** X20: the values of the aggregation map.  When [_get_aggregated_data]
    returns for a response whose "aggregations" object has each facet
    once, every facet of the response is a key of the result, and under
    it every bucket key has the [doc_count] of the last bucket with
    that key: the buckets of a facet are flattened to a map from bucket
    key to count. *)
Theorem aggregation_flattens_buckets (w : world) (from_date to_date type : pyval)
  (out aggs agg : dict) (facet : pykey) (bucket : pyval) :
  search w (aggregation_query from_date to_date type) = Ok (VDict out) ->
  dict_get "aggregations" out = Some (VDict aggs) ->
  well_formed aggs ->
  _get_aggregated_data w from_date to_date type = Ok agg ->
  dict_get facet aggs = Some bucket ->
  exists buckets docs counts,
    py_getitem bucket "buckets" = Ok buckets /\ py_iter buckets = Ok docs /\
    dict_get facet agg = Some (VDict counts) /\
    forall k, dict_get k counts = last_count k docs.
Proof.
  intros Hs Ha Hwf H Hfacet. unfold _get_aggregated_data in H. rewrite Hs in H.
  rewrite bind_ok in H. cbv beta in H.
  unfold py_get, dict_get_default in H. cbn [as_dict] in H.
  rewrite bind_ok in H. cbv beta in H. rewrite Ha in H.
  rewrite bind_ok in H. cbv beta in H. cbn [as_dict] in H.
  rewrite bind_ok in H. cbv beta in H.
  destruct (fold_facets_get _ _ _ _ _ H Hwf Hfacet)
    as (buckets & docs & counts & Hb & Hd & Hc & Hget).
  exists buckets, docs, counts. repeat split; try assumption.
  intros k. rewrite (fold_buckets_get _ _ _ k Hc). now destruct (last_count k docs).
Qed.

Lemma aggregation_flattens_buckets_witness :
  exists agg,
    _get_aggregated_data world_one_record VNone VNone VNone = Ok agg /\
    exists counts,
      dict_get "jobstatus" agg = Some (VDict counts) /\
      dict_get "Passed" counts = Some (VInt 1).
Proof.
  destruct (_get_aggregated_data world_one_record VNone VNone VNone) as [agg | e] eqn:E;
    [| vm_compute in E; discriminate].
  exists agg. split; [reflexivity |].
  destruct (aggregation_flattens_buckets world_one_record VNone VNone VNone
              [(KStr "aggregations",
                VDict [(KStr "jobstatus",
                        VDict [(KStr "buckets",
                                VList [VDict [(KStr "key", VStr "Passed");
                                              (KStr "doc_count", VInt 1)]])])])]
              [(KStr "jobstatus",
                VDict [(KStr "buckets",
                        VList [VDict [(KStr "key", VStr "Passed");
                                      (KStr "doc_count", VInt 1)]])])]
              agg "jobstatus"
              (VDict [(KStr "buckets",
                       VList [VDict [(KStr "key", VStr "Passed");
                                     (KStr "doc_count", VInt 1)]])])
              eq_refl eq_refl)
    as (buckets & docs & counts & Hb & Hd & Hget & Hcounts).
  - repeat constructor. simpl. tauto.
  - exact E.
  - reflexivity.
  - exists counts. split; [exact Hget |].
    cbn in Hb. inversion Hb; subst buckets. cbn in Hd. inversion Hd; subst docs.
    rewrite Hcounts. reflexivity.
Defined.

(** X23: the aggregation query is always filtered by date and, for a
    truthy type, by type.  For date bounds and a type that are [None]
    or strings, the query of [_get_aggregated_data] has exactly one
    range clause, the inclusive range on the job date between the two
    bounds, also when the bounds are [None], and it is the "filter" of
    the query's "bool" clause.  That clause has a "must" exactly when
    the type is truthy: the match on the type asked for, where "CPT" is
    asked for as "L2ADD"; for no type or an empty one there is no
    "must", and the clause has no key but these two.  The facets are
    the status and the five job attributes, each by its raw field. *)
Theorem aggregation_query_filters (from_date to_date type : pyval) :
  is_bound from_date = true -> is_bound to_date = true -> is_bound type = true ->
  let query := aggregation_query from_date to_date type in
  range_clauses query = [jobdate_range from_date to_date] /\
  (exists clause,
     bool_clause query = Some clause /\
     dict_get "filter" clause
     = Some (VDict [(KStr "range", jobdate_range from_date to_date)]) /\
     (truthy type = false -> dict_get "must" clause = None) /\
     (type = VStr "CPT" -> dict_get "must" clause = Some (type_match (VStr "L2ADD"))) /\
     (truthy type = true -> type <> VStr "CPT" ->
      dict_get "must" clause = Some (type_match type)) /\
     (forall k, dict_has k clause = true -> k = KStr "filter" \/ k = KStr "must")) /\
  facet_field "jobstatus" query = Some (VStr "status") /\
  (forall field, In field aggregated_fields ->
     facet_field field query = Some (VStr ("job_attrs." +:+ field +:+ ".raw"))) /\
  aggregation_query from_date to_date (VStr "CPT")
  = aggregation_query from_date to_date (VStr "L2ADD").
Proof.
  intros Hf Ht Hty query.
  assert (Hrange : range_clauses query = [jobdate_range from_date to_date]).
  { subst query.
    destruct from_date as [| | | f | |]; try discriminate;
      destruct to_date as [| | | t | |]; try discriminate;
      destruct type as [| | | ty | |]; try discriminate;
      try reflexivity;
      unfold aggregation_query; cbn [truthy];
      destruct (String.eqb ty ""); cbn [negb]; try reflexivity;
      cbn [pyval_eqb]; destruct (String.eqb ty "CPT"); reflexivity. }
  split; [exact Hrange |]. split; [| split; [| split]].
  - subst query. unfold aggregation_query.
    destruct (truthy type) eqn:Etruthy.
    + eexists. split; [reflexivity |].
      split; [reflexivity |]. split; [discriminate |]. split; [| split].
      * intros ->. reflexivity.
      * intros _ Hne. destruct type as [| | | ty | |]; try discriminate.
        cbn [pyval_eqb]. destruct (String.eqb ty "CPT") eqn:E; [| reflexivity].
        apply String.eqb_eq in E. congruence.
      * intros k Hk. unfold dict_update in Hk. cbn [fold_left fst snd] in Hk.
        apply dict_has_set_inv in Hk. destruct Hk as [-> | Hk]; [now right |].
        left. apply dict_has_In in Hk. destruct Hk as [<- | []]. reflexivity.
    + eexists. split; [reflexivity |].
      split; [reflexivity |]. split; [reflexivity |]. split; [| split].
      * intros ->. discriminate.
      * discriminate.
      * intros k Hk. left. apply dict_has_In in Hk. destruct Hk as [<- | []]. reflexivity.
  - reflexivity.
  - intros field Hin. subst query. simpl in Hin.
    repeat (destruct Hin as [<- | Hin]; [reflexivity |]). contradiction.
  - reflexivity.
Qed.

Lemma aggregation_query_filters_witness :
  let query := aggregation_query VNone VNone (VStr "CPT") in
  range_clauses query = [jobdate_range VNone VNone] /\
  exists clause,
    bool_clause query = Some clause /\
    dict_get "must" clause = Some (type_match (VStr "L2ADD")).
Proof.
  destruct (aggregation_query_filters VNone VNone (VStr "CPT") eq_refl eq_refl eq_refl)
    as (Hrange & (clause & Hclause & _ & _ & Hcpt & _) & _).
  split; [exact Hrange |]. exists clause. split; [exact Hclause |]. now apply Hcpt.
Defined.

(** ** What a save leaves alone *)

(** The filesystem [fs'] has every node of [fs], but for a file that
    may have been rewritten at [wloc]. *)
Lemma makedirs_go_keeps (comps : list string) :
  forall (fs fs' : filesystem) (cur : list string) (created created' : bool),
  makedirs_go fs cur comps created = Ok (fs', created') ->
  cwd fs' = cwd fs /\
  forall k n, nodes fs !! k = Some n -> nodes fs' !! k = Some n.
Proof.
  induction comps as [| c comps IH]; intros fs fs' cur created created' H.
  - cbn [makedirs_go] in H. inversion H; subst. auto.
  - cbn [makedirs_go] in H.
    destruct (negb (dir_at fs cur)); [discriminate |].
    destruct (String.eqb c "" || String.eqb c "."); [now apply IH in H |].
    destruct (String.eqb c ".."); [now apply IH in H |].
    destruct (node_at fs (cur ++ [c])) as [[f |] |] eqn:En; try discriminate.
    + now apply IH in H.
    + apply IH in H. destruct H as [Hcwd Hkeep]. split; [exact Hcwd |].
      intros k n Hk. apply Hkeep. cbn [with_nodes nodes].
      rewrite lookup_insert_ne; [exact Hk |].
      intros <-. rewrite node_at_nonroot in En. congruence.
Qed.

Lemma makedirs_keeps (fs fs' : filesystem) (path : string) :
  makedirs fs path = Ok fs' ->
  cwd fs' = cwd fs /\
  forall k n, nodes fs !! k = Some n -> nodes fs' !! k = Some n.
Proof.
  unfold makedirs. destruct (String.eqb path ""); [discriminate |].
  destruct (makedirs_go fs (start_of fs path) (py_split "/" path) false)
    as [[fs1 [|]] | e] eqn:E; try discriminate.
  intros H. inversion H; subst. now apply makedirs_go_keeps in E.
Qed.

Lemma write_json_keeps (fs fs' : filesystem) (path : string) (value : pyval)
  (indent : nat) :
  write_json fs path value indent = Ok fs' ->
  cwd fs' = cwd fs /\
  exists wloc,
    resolve fs' path = Some wloc /\
    (forall k, k <> wloc -> nodes fs' !! k = nodes fs !! k) /\
    nodes fs !! wloc <> Some Dir.
Proof.
  intros H. pose proof (write_json_stat _ _ _ _ _ H) as Hstat. revert H.
  unfold write_json. destruct (String.eqb path "") eqn:Ep; [discriminate |].
  pose proof (py_split_last "/" path) as Hsplit.
  destruct (split_last (py_split "/" path)) as [dirs name].
  destruct (walk fs (start_of fs path) dirs) as [loc |] eqn:Ew; [| discriminate].
  destruct (dir_at fs loc) eqn:Ed; [| discriminate]. cbn [negb].
  destruct (is_special name) eqn:Es; [discriminate |].
  intros H.
  assert (Hfs : fs' = with_nodes fs
                        (<[(loc ++ [name])%list := File (JsonText value indent)]> (nodes fs))
                /\ node_at fs (loc ++ [name]) <> Some Dir).
  { destruct (node_at fs (loc ++ [name])) as [[c |] |]; inversion H;
      split; try reflexivity; discriminate. }
  destruct Hfs as [-> Hnot]. clear H. split; [reflexivity |].
  exists (loc ++ [name])%list. rewrite node_at_nonroot in Hnot.
  split; [| split; [| exact Hnot]].
  - unfold stat in Hstat.
    destruct (resolve (with_nodes fs _) path) as [l |] eqn:Hr; [| discriminate].
    cbn [mbind option_bind] in Hstat. f_equal.
    unfold resolve in Hr. rewrite Ep in Hr.
    change (start_of (with_nodes fs _) path) with (start_of fs path) in Hr.
    rewrite Hsplit, walk_app in Hr.
    set (fs' := with_nodes fs _) in *.
    assert (Hdir : forall l0, dir_at fs l0 = true -> dir_at fs' l0 = true).
    { intros l0 Hl. unfold dir_at in *. destruct l0 as [| a l0]; [reflexivity |].
      unfold node_at in Hl |- *. unfold fs', with_nodes. cbn [nodes].
      destruct (decide ((loc ++ [name])%list = a :: l0)) as [E | E].
      - exfalso. apply Hnot. rewrite E.
        destruct (nodes fs !! (a :: l0)) as [[c |] |]; try discriminate. reflexivity.
      - now rewrite lookup_insert_ne. }
    rewrite (walk_mono fs fs' _ _ _ Hdir Ew) in Hr.
    apply (walk_name _ _ _ _ Es) in Hr. now destruct Hr.
  - intros k Hk. cbn [with_nodes nodes]. now rewrite lookup_insert_ne by congruence.
Qed.

(** What a save has done to the nodes: those it found are still there,
    but for a file that it has rewritten. *)
Lemma save_keeps_nodes (self : TestcaseReporting) (filter_data r : dict)
  (fs fs1 : filesystem) (folder view : string) :
  dict_get "folder" filter_data = Some (VStr folder) ->
  dict_get "view" filter_data = Some (VStr view) ->
  __save_test_results_view self filter_data fs = (fs1, Ok r) ->
  cwd fs1 = cwd fs /\
  exists wloc,
    resolve fs1 (path_join (path_join (test_results_folder self) (py_strip folder))
                           (py_strip view +:+ ".json")) = Some wloc /\
    (forall k n, nodes fs !! k = Some n -> k <> wloc -> nodes fs1 !! k = Some n) /\
    nodes fs !! wloc <> Some Dir.
Proof.
  intros Ef Ev.
  unfold __save_test_results_view, dict_get_default. rewrite Ef, Ev. cbn [as_str].
  intros H.
  apply se_bind_inv in H. destruct H as (f & s1 & H1 & H).
  apply lift_inv in H1. destruct H1 as [-> H1]. inversion H1; subst f. clear H1.
  apply se_bind_inv in H. destruct H as (v & s1 & H1 & H).
  apply lift_inv in H1. destruct H1 as [-> H1]. inversion H1; subst v. clear H1.
  cbv zeta in H.
  apply se_bind_inv in H. destruct H as (save_path & s1 & Hsave & H).
  apply se_bind_inv in H. destruct H as (u & s2 & Hwrite & H).
  apply pure_inv in H. destruct H as [-> _].
  apply effect_inv in Hwrite.
  assert (Hmk : cwd s1 = cwd fs /\
                (forall k n, nodes fs !! k = Some n -> nodes s1 !! k = Some n) /\
                path_join (if truthy (VStr save_path) then save_path
                           else test_results_folder self)
                          (py_strip view +:+ ".json")
                = path_join (path_join (test_results_folder self) (py_strip folder))
                            (py_strip view +:+ ".json")).
  { destruct (truthy (VStr (py_strip folder))) eqn:Et.
    - apply se_bind_inv in Hsave. destruct Hsave as (fs0 & s3 & Hget & Hsave).
      unfold get_state in Hget. inversion Hget; subst fs0 s3. clear Hget.
      apply se_bind_inv in Hsave. destruct Hsave as (u' & s4 & Hmake & Hsave).
      apply pure_inv in Hsave. destruct Hsave as [-> ->].
      assert (Hne : truthy (VStr (path_join (test_results_folder self)
                                    (py_strip folder))) = true).
      { apply truthy_str, path_join_not_empty. now apply truthy_str. }
      rewrite Hne. split; [| split; [| reflexivity]].
      + destruct (negb (path_exists fs _)).
        * apply effect_inv in Hmake. now apply makedirs_keeps in Hmake.
        * apply pure_inv in Hmake. now destruct Hmake as [-> _].
      + destruct (negb (path_exists fs _)).
        * apply effect_inv in Hmake. now apply makedirs_keeps in Hmake.
        * apply pure_inv in Hmake. now destruct Hmake as [-> _].
    - apply pure_inv in Hsave. destruct Hsave as [-> ->].
      cbn [truthy String.eqb negb]. split; [reflexivity |]. split; [auto |].
      assert (Hs : py_strip folder = "").
      { destruct (String.eqb (py_strip folder) "") eqn:E; [now apply String.eqb_eq |].
        cbn [truthy] in Et. rewrite E in Et. discriminate. }
      now rewrite Hs, path_join_empty_folder. }
  destruct Hmk as (Hcwd & Hkeep & Hpath). rewrite Hpath in Hwrite.
  apply write_json_keeps in Hwrite. destruct Hwrite as (Hcwd2 & wloc & Hr & Hframe & Hnot).
  split; [congruence |]. exists wloc. split; [exact Hr |]. split.
  - intros k n Hk Hne. rewrite Hframe by exact Hne. now apply Hkeep.
  - intros Hd. apply Hnot. now apply Hkeep.
Qed.

(** X24: saving a view disturbs nothing else.  After
    [create_test_results_view] or [update_test_results_view] has
    returned, every path that named a file or a directory still names
    it, with the content it had, unless it names the place of the view
    file that was written; and that place did not hold a directory. *)
Theorem save_keeps_other_views (self : TestcaseReporting) (filter_data r : dict)
  (save_type : pyval) (fs fs1 : filesystem) (folder view : string) :
  create_test_results_view self filter_data save_type fs = (fs1, Ok r) \/
  update_test_results_view self filter_data fs = (fs1, Ok r) ->
  dict_get "folder" filter_data = Some (VStr folder) ->
  dict_get "view" filter_data = Some (VStr view) ->
  exists wloc,
    resolve fs1 (path_join (path_join (test_results_folder self) (py_strip folder))
                           (py_strip view +:+ ".json")) = Some wloc /\
    forall p n, stat fs p = Some n -> resolve fs p <> Some wloc -> stat fs1 p = Some n.
Proof.
  intros H Ef Ev.
  assert (Hsave : __save_test_results_view self filter_data fs = (fs1, Ok r)).
  { destruct H as [H | H]; [now apply create_is_save in H | now apply update_is_save]. }
  destruct (save_keeps_nodes _ _ _ _ _ _ _ Ef Ev Hsave) as (Hcwd & wloc & Hr & Hkeep & Hnot).
  exists wloc. split; [exact Hr |]. intros p n Hstat Hp.
  unfold stat in *. destruct (resolve fs p) as [loc |] eqn:Hrp; [| discriminate].
  cbn [mbind option_bind] in Hstat.
  assert (Hdir : forall l, dir_at fs l = true -> dir_at fs1 l = true).
  { intros l. unfold dir_at, node_at. destruct l as [| a l]; [reflexivity |].
    destruct (nodes fs !! (a :: l)) as [[c |] |] eqn:E; try discriminate.
    intros _. rewrite (Hkeep _ _ E); [reflexivity |]. intros Ew. apply Hnot. now rewrite <- Ew. }
  assert (Hrp1 : resolve fs1 p = Some loc).
  { unfold resolve, start_of in *. rewrite Hcwd.
    destruct (String.eqb p ""); [discriminate |]. now apply (walk_mono fs fs1). }
  rewrite Hrp1. cbn [mbind option_bind].
  destruct loc as [| a loc]; [exact Hstat |]. cbn [node_at] in *.
  apply Hkeep; [exact Hstat | congruence].
Qed.

Lemma save_keeps_other_views_witness :
  exists wloc,
    resolve fs_with_view
      (path_join (path_join (test_results_folder store) (py_strip "f"))
                 (py_strip "v" +:+ ".json")) = Some wloc /\
    forall p n, stat fs_empty_store p = Some n -> resolve fs_empty_store p <> Some wloc ->
                stat fs_with_view p = Some n.
Proof.
  apply (save_keeps_other_views store view_f_v view_f_v VNone fs_empty_store fs_with_view
           "f" "v").
  - left. vm_compute. reflexivity.
  - reflexivity.
  - reflexivity.
Defined.
